(** * cif2mtz: conversion of SF-mmCIF reflection blocks to MTZ containers

    A shallow embedding of [CifToMtz] (the spec table, the tag resolver, the
    container builder, the row materializer and the block loop of the
    program's entry point), with the library routines it calls taken as an
    explicit interface.

    Conventions.
    - C++ [int] and [size_t] values are [Z]; the conversions between them are
      written out ([int_cast], [size_cast], [npos]).
    - [float] cells are IEEE-754 binary32 values, represented with
      [spec_float] at precision 24 and exponent bound 128.
    - A call can return, throw, leave the process through [std::exit], or
      have no defined behaviour (an access outside a vector): the four
      constructors of [Res].
    - Messages printed on stderr (the verbose trace and the not-a-number
      warning) influence neither the container nor the control flow and are
      not part of the model. *)

From Stdlib Require Import ZArith List String Ascii Bool Lia.
From Stdlib Require Import Floats.SpecFloat.
From stdpp Require Import base tactics option list strings.

Local Open Scope string_scope.
Local Open Scope list_scope.
Local Open Scope Z_scope.

(** ** Machine integers *)

Definition INT_MAX : Z := 2147483647.

(** [(int) x] for a [size_t] value [x]. *)
Definition int_cast (x : Z) : Z := (x + 2 ^ 31) mod 2 ^ 32 - 2 ^ 31.

(** An [int] or a sum converted to [size_t]. *)
Definition size_cast (x : Z) : Z := x mod 2 ^ 64.

(** [std::string::npos]. *)
Definition npos : Z := 2 ^ 64 - 1.

(** ** Binary32 cells *)

Definition float : Type := spec_float.

(** [(float) n] for an [int] n: rounding to nearest even at binary32. *)
Definition float_of_int (n : Z) : float := binary_normalize 24 128 n 0 false.

Definition NAN : float := S754_nan.
(** The literals [1.f] and [0.f]. *)
Definition F1 : float := S754_finite false 8388608 (-23).
Definition F0 : float := S754_zero false.

(** ** Outcomes of a call *)

Inductive exn : Type :=
  | RuntimeError (what : string)     (* std::runtime_error and its subclasses *)
  | OtherException (what : string).  (* any exception main does not catch *)

Inductive Res (A : Type) : Type :=
  | Ok (a : A)
  | Throw (e : exn)
  | Exit (code : Z)
  | Undefined.
Arguments Ok {A} a.
Arguments Throw {A} e.
Arguments Exit {A} code.
Arguments Undefined {A}.

#[global] Instance Res_ret : MRet Res := @Ok.
#[global] Instance Res_bind : MBind Res := fun A B f m =>
  match m with
  | Ok a => f a
  | Throw e => Throw e
  | Exit c => Exit c
  | Undefined => Undefined
  end.

(** Modelled from the spec: gemmi::fail is declared in gemmi/fail.hpp, which
    is not part of the sources at hand; it raises the error that the entry
    point catches as std::runtime_error and reports with its message. *)
Definition fail {A} (msg : string) : Res A := Throw (RuntimeError msg).

(** ** Vectors *)

(** [v[i]] on a std::vector: outside the vector there is no defined result. *)
Definition vec_get {A} (v : list A) (i : Z) : Res A :=
  if 0 <=? i then
    match v !! Z.to_nat i with
    | Some x => Ok x
    | None => Undefined
    end
  else Undefined.

(** [v.emplace(v.begin() + pos)] followed by the assignment of the fields of
    the new element: [begin() + pos] must not lie beyond [end()]. *)
Definition emplace_at {A} (pos : nat) (x : A) (v : list A) : Res (list A) :=
  if (pos <=? length v)%nat then Ok (take pos v ++ x :: drop pos v)
  else Undefined.

(** A [data] vector together with the running [int k]. *)
Definition Cursor : Type := list float * Z.

(** [data[k++] = x]. *)
Definition store (x : float) (st : Cursor) : Res Cursor :=
  let '(data, k) := st in
  if (0 <=? k) && (k <? Z.of_nat (length data)) && (k <? INT_MAX)
  then Ok (<[Z.to_nat k := x]> data, k + 1)
  else Undefined.

(** ** Strings *)

(** [str[i]] on a std::string, for [i <= size()]: the terminating null
    character at [i = size()]. *)
Definition str_at (s : string) (i : nat) : ascii :=
  match String.get i s with
  | Some c => c
  | None => "000"%char
  end.

(** [s.find(c)]: the position of the first [c], or [npos]. *)
Fixpoint str_find (c : ascii) (s : string) : Z :=
  match s with
  | EmptyString => npos
  | String a r =>
      if Ascii.eqb a c then 0
      else let p := str_find c r in if p =? npos then npos else p + 1
  end.

(** [s.substr(0, n)]. *)
Definition substr0 (s : string) (n : Z) : string :=
  String.substring 0 (Z.to_nat n) s.

(** ** The spec table *)

Record Entry : Type := mkEntry {
  refln_tag : string;
  col_label : string;
  col_type : ascii;
  dataset_id : Z
}.

Definition default_spec : list string := [
  "index_h H H 0";
  "index_k K H 0";
  "index_l L H 0";
  "pdbx_r_free_flag FreeR_flag I 0";
  "status FreeR_flag s 0";
  "intensity_meas I J 1";
  "intensity_net I J 1";
  "intensity_sigma SIGI Q 1";
  "pdbx_I_plus I(+) K 1";
  "pdbx_I_plus_sigma SIGI(+) M 1";
  "pdbx_I_minus I(-) K 1";
  "pdbx_I_minus_sigma SIGI(-) M 1";
  "F_meas_au FP F 1";
  "F_meas_sigma_au SIGFP Q 1";
  "pdbx_F_plus F(+) G 1";
  "pdbx_F_plus_sigma SIGF(+) L 1";
  "pdbx_F_minus F(-) G 1";
  "pdbx_F_minus_sigma SIGF(-) L 1";
  "pdbx_anom_difference DP D 1";
  "pdbx_anom_difference_sigma SIGDP Q 1";
  "F_calc FC F 1";
  "phase_calc PHIC P 1";
  "fom FOM W 1";
  "weight FOM W 1";
  "pdbx_HL_A_iso HLA A 1";
  "pdbx_HL_B_iso HLB A 1";
  "pdbx_HL_C_iso HLC A 1";
  "pdbx_HL_D_iso HLD A 1";
  "pdbx_FWT FWT F 1";
  "pdbx_PHWT PHWT P 1";
  "pdbx_DELFWT DELFWT F 1";
  "pdbx_DELPHWT DELPHWT P 1"
].

Definition is_sep (c : ascii) : bool :=
  Ascii.eqb c " " || Ascii.eqb c "009" || Ascii.eqb c "013" || Ascii.eqb c "010".

(** Modelled from the spec: gemmi::split_str_into_multi is declared in
    gemmi/util.hpp, which is not part of the sources at hand; a spec line is
    cut into its whitespace-separated tokens (separators " \t\r\n", no empty
    token). [cur] is the token being read, in reverse. *)
Fixpoint split_tokens (cur : list ascii) (s : string) : list string :=
  let flush rest :=
    match cur with
    | [] => rest
    | _ => string_of_list_ascii (rev cur) :: rest
    end in
  match s with
  | EmptyString => flush []
  | String c r =>
      if is_sep c then flush (split_tokens [] r)
      else split_tokens (c :: cur) r
  end.

Definition split_str_into_multi (line : string) : list string :=
  split_tokens [] line.

(** [CifToMtz::add_spec_line]: the entry that is pushed onto [spec_entries]. *)
Definition add_spec_line (line : string) : Res Entry :=
  let tokens := split_str_into_multi line in
  if negb (length tokens =? 4)%nat then fail ("line should have 4 words: " +:+ line)
  else
    match tokens with
    | [t0; t1; t2; t3] =>
        if negb (String.length t2 =? 1)%nat || negb (String.length t3 =? 1)%nat
           || (negb (Ascii.eqb (str_at t3 0) "0") && negb (Ascii.eqb (str_at t3 0) "1"))
        then fail ("incorrect line: " +:+ line)
        else Ok (mkEntry t0 t1 (str_at t2 0)
                   (Z.of_nat (nat_of_ascii (str_at t3 0)) - Z.of_nat (nat_of_ascii "0")))
    | _ => Undefined
    end.

(** The loop of the entry point over the lines of a spec. *)
Fixpoint load_spec (lines : list string) : Res (list Entry) :=
  match lines with
  | [] => Ok []
  | line :: rest =>
      e ← add_spec_line line;
      es ← load_spec rest;
      Ok (e :: es)
  end.

(** The table the entry point builds when no spec file is given. *)
Definition default_entries : list Entry :=
  Eval vm_compute in
    match load_spec default_spec with
    | Ok es => es
    | _ => []
    end.

(** ** Source blocks and destination containers *)

(** Modelled from the spec: cif::Loop is declared in gemmi/cifdoc.hpp, which
    is not part of the sources at hand; a loop has an ordered list of tags
    and a flat sequence of values, row after row, one value per tag. *)
Record Loop : Type := mkLoop {
  tags : list string;
  values : list string
}.

(** Modelled from the spec: cif::Loop::length is declared in
    gemmi/cifdoc.hpp, which is not part of the sources at hand; the row count
    is values.length / tags.length. *)
Definition loop_length (loop : Loop) : Z :=
  Z.of_nat (length (values loop)) / Z.of_nat (length (tags loop)).

(** The position of the first element for which [p] holds, or -1. *)
Fixpoint find_index (p : string -> bool) (l : list string) : Z :=
  match l with
  | [] => -1
  | t :: r =>
      if p t then 0
      else let i := find_index p r in if i =? -1 then -1 else i + 1
  end.

(** Modelled from the spec: Mtz::Column is declared in gemmi/mtz.hpp, which
    is not part of the sources at hand; a column has a dataset, a type, a
    label and its position in the container. These are the fields the
    conversion assigns; the [parent] pointer, set to the owning container
    for every column, is left out. *)
Module Column.
Record t : Type := mk {
  dataset_id : Z;
  type : ascii;
  label : string;
  idx : Z
}.
End Column.

(** The three Miller indices of a reflection, a [std::array<int, 3>]. *)
Definition Hkl : Type := Z * Z * Z.

(** [CifToMtz::status_to_freeflag]. *)
Definition status_to_freeflag (str : string) : float :=
  let c := str_at str 0 in
  let c := if Ascii.eqb c "'" || Ascii.eqb c "034" then str_at str 1 else c in
  if Ascii.eqb c "o" then F1
  else if Ascii.eqb c "f" then F0
  else NAN.

(** The quote characters [status_to_freeflag] looks behind. *)
Definition is_quote (c : ascii) : Prop := c = "'"%char \/ c = "034"%char.

(** The columns of a list that bear a label. *)
Definition with_label (lbl : string) (cols : list Column.t) : list Column.t :=
  filter (fun c => Column.label c = lbl) cols.

Section Conversion.
Context (UnitCell SpaceGroup : Type).

(** Modelled from the spec: Mtz::Dataset and Mtz::add_dataset are declared
    in gemmi/mtz.hpp, which is not part of the sources at hand; a dataset
    has a name, and the data dataset carries the wavelength of the block. *)
Record Dataset : Type := mkDataset {
  dataset_name : string;
  wavelength : option spec_float
}.

(** Modelled from the spec: Mtz::Batch and Batch::set_cell are declared in
    gemmi/mtz.hpp, which is not part of the sources at hand; the one batch
    record is populated from the cell of the container. *)
Record Batch : Type := mkBatch {
  batch_cell : UnitCell
}.

(** Modelled from the spec: gemmi::Mtz is declared in gemmi/mtz.hpp, which
    is not part of the sources at hand; the container has a title, history
    lines, a cell, a space group, datasets, columns, batches, the number of
    reflections and the flat matrix of the cells. A new container has an
    empty title and no history, dataset, column, batch or cell of data. *)
Record Mtz : Type := mkMtz {
  mtz_title : string;
  mtz_history : list string;
  cell : UnitCell;
  spacegroup : SpaceGroup;
  datasets : list Dataset;
  columns : list Column.t;
  batches : list Batch;
  nreflections : Z;
  data : list float
}.

(** Modelled from the spec: gemmi::ReflnBlock is declared in
    gemmi/refln.hpp, which is not part of the sources at hand; a named block
    with a cell, a space group, a wavelength, and the loops of the merged
    and of the diffrn category, each present or not. *)
Record ReflnBlock : Type := mkReflnBlock {
  block_name : string;
  rb_cell : UnitCell;
  rb_spacegroup : SpaceGroup;
  rb_wavelength : spec_float;
  refln_loop : option Loop;
  diffrn_refln_loop : option Loop
}.

(** The library routines the conversion calls; none of their headers is
    part of the sources at hand.
    - [tag_eqb t q]: whether [Loop::find_tag] takes the tag [t] of the loop
      for the tag [q] it is asked for;
    - [is_null]: cif::is_null;
    - [as_int]: cif::as_int, which may throw;
    - [as_number v]: [(float) cif::as_number(v)];
    - [new_hkl_mover sg]: the construction of the UnmergedHklMover for
      [sg], which may throw;
    - [move_to_asu sg hkl]: UnmergedHklMover::move_to_asu on the mover made
      for [sg]; the moved indices and the returned isym;
    - [write_to_file]: Mtz::write_to_file. *)
Record Externals : Type := mkExternals {
  tag_eqb : string -> string -> bool;
  is_null : string -> bool;
  as_int : string -> Res Z;
  as_number : string -> float;
  new_hkl_mover : SpaceGroup -> Res unit;
  move_to_asu : SpaceGroup -> Hkl -> Hkl * Z;
  write_to_file : Mtz -> string -> Res unit
}.

(** The members of struct CifToMtz. *)
Record CifToMtz : Type := mkCifToMtz {
  spec_entries : list Entry;
  verbose : bool;
  force_unmerged : bool;
  title : option string;
  history : list string
}.

Variable X : Externals.

(** Modelled from the spec: cif::Loop::find_tag is declared in
    gemmi/cifdoc.hpp, which is not part of the sources at hand; a lookup of
    a qualified tag among the tags of the loop that gives its index, or -1
    when it is not found. *)
Definition find_tag (loop : Loop) (tag : string) : Z :=
  find_index (fun t => tag_eqb X t tag) (tags loop).

(** *** The tag resolver (the loop over [spec_entries]) *)

(** [mtz.columns], [indices] and [uses_status] while the table is walked. *)
Record Resolved : Type := mkResolved {
  r_columns : list Column.t;
  r_indices : list Z;
  uses_status : bool
}.

Definition resolved_init : Resolved := mkResolved [] [] false.

(** [!mtz.columns.empty() && mtz.columns.back().label == entry.col_label] *)
Definition back_has_label (cols : list Column.t) (lbl : string) : bool :=
  match last cols with
  | Some c => String.eqb (Column.label c) lbl
  | None => false
  end.

(** The column appended for an entry: type 's' is stored as 'I'. ([idx] is
    assigned once all columns are in place.) *)
Definition column_of_entry (entry : Entry) : Column.t :=
  Column.mk (dataset_id entry)
            (if Ascii.eqb (col_type entry) "s" then "I"%char else col_type entry)
            (col_label entry) 0.

(** [indices.push_back(index); mtz.columns.emplace_back(); ...]: the state
    once the column of [entry] is appended. *)
Definition push_column (st : Resolved) (entry : Entry) (index : Z) : Resolved :=
  mkResolved
    (r_columns st ++ [column_of_entry entry])
    (r_indices st ++ [index])
    (if Ascii.eqb (col_type entry) "s" then true else uses_status st).

(** One iteration of the loop over the spec entries. *)
Definition resolve_entry (loop : Loop) (prefix : string) (unmerged : bool)
    (st : Resolved) (entry : Entry) : Res Resolved :=
  let tag := prefix +:+ refln_tag entry in
  let index := find_tag loop tag in
  if negb (index =? -1) then
    if back_has_label (r_columns st) (col_label entry) then Ok st
    else if unmerged && Ascii.eqb (col_type entry) "s" then Ok st
    else Ok (push_column st entry index)
  else if Ascii.eqb (col_type entry) "H" then
    fail ("Miller index tag not found: " +:+ tag)
  else Ok st.

Fixpoint resolve_from (loop : Loop) (prefix : string) (unmerged : bool)
    (st : Resolved) (entries : list Entry) : Res Resolved :=
  match entries with
  | [] => Ok st
  | entry :: rest =>
      st' ← resolve_entry loop prefix unmerged st entry;
      resolve_from loop prefix unmerged st' rest
  end.

Definition resolve (loop : Loop) (prefix : string) (unmerged : bool)
    (entries : list Entry) : Res Resolved :=
  resolve_from loop prefix unmerged resolved_init entries.

(** No entry of type 'H' of the table lacks its tag in the loop. *)
Definition indices_present (loop : Loop) (prefix : string) (es : list Entry) : Prop :=
  forall e, In e es -> col_type e = "H"%char ->
    find_tag loop (prefix +:+ refln_tag e) <> -1.

(** *** The synthetic columns of unmerged output *)

Definition isym_column : Column.t := Column.mk 1 "Y" "M/ISYM" 0.
Definition batch_column : Column.t := Column.mk 1 "B" "BATCH" 0.

Definition add_unmerged_columns (cols : list Column.t) : Res (list Column.t) :=
  cols ← emplace_at 3 isym_column cols;
  emplace_at 4 batch_column cols.

(** The block [if (unmerged) { ... }]: the two columns, then the mover. (The
    batch record it appends is put into the container below.) *)
Definition unmerged_setup (sg : SpaceGroup) (cols : list Column.t)
    : Res (list Column.t) :=
  cols ← add_unmerged_columns cols;
  _ ← new_hkl_mover X sg;
  Ok cols.

(** [for (i...) mtz.columns[i].idx = i] *)
Definition set_idx (cols : list Column.t) : list Column.t :=
  imap (fun i c => Column.mk (Column.dataset_id c) (Column.type c)
                             (Column.label c) (Z.of_nat i)) cols.

(** *** The row materializer *)

(** The cell written for a value that is neither an index nor a status:
    [cif::is_null(v) ? NAN : (float) cif::as_number(v)]. *)
Definition number_cell (v : string) : float :=
  if is_null X v then NAN else as_number X v.

Section Rows.
Variables (sg : SpaceGroup) (loop : Loop) (indices : list Z).
Variables (unmerged uses_status_flag : bool).

(** [loop->values[i + indices[j]]] *)
Definition read_value (i j : Z) : Res string :=
  ix ← vec_get indices j;
  vec_get (values loop) (i + ix).

(** [hkl[ii] = cif::as_int(loop->values[i + indices[ii]])], ii = 0, 1, 2 *)
Definition read_hkl (i : Z) : Res Hkl :=
  s ← read_value i 0; h ← as_int X s;
  s ← read_value i 1; k ← as_int X s;
  s ← read_value i 2; l ← as_int X s;
  Ok (h, k, l).

(** [mtz.data[k++] = (float) cif::as_int(loop->values[i + indices[j]])] *)
Definition store_index (i j : Z) (st : Cursor) : Res Cursor :=
  s ← read_value i j;
  n ← as_int X s;
  store (float_of_int n) st.

(** The body of the last loop of a row, for one source index. *)
Definition store_number (i ix : Z) (st : Cursor) : Res Cursor :=
  v ← vec_get (values loop) (i + ix);
  store (number_cell v) st.

Fixpoint store_numbers (i : Z) (ixs : list Z) (st : Cursor) : Res Cursor :=
  match ixs with
  | [] => Ok st
  | ix :: rest => st' ← store_number i ix st; store_numbers i rest st'
  end.

(** The body of the loop over the rows; [i] is the offset of the row in
    [loop->values]. *)
Definition convert_row (i : Z) (st : Cursor) : Res Cursor :=
  '(st, j) ←
    (if unmerged then
       hkl ← read_hkl i;
       let '((h, k, l), isym) := move_to_asu X sg hkl in
       st ← store (float_of_int h) st;
       st ← store (float_of_int k) st;
       st ← store (float_of_int l) st;
       st ← store (float_of_int isym) st;
       st ← store F1 st;
       Ok (st, 3)
     else
       st ← store_index i 0 st;
       st ← store_index i 1 st;
       st ← store_index i 2 st;
       Ok (st, 3));
  '(st, j) ←
    (if uses_status_flag then
       s ← read_value i j;
       st ← store (status_to_freeflag s) st;
       Ok (st, j + 1)
     else Ok (st, j));
  (* for (; j != indices.size(); ++j): from beyond the end, j never
     meets the size before it indexes outside the vector *)
  if Z.of_nat (length indices) <? j then Undefined
  else store_numbers i (drop (Z.to_nat j) indices) st.

(** [for (size_t i = 0; i < loop->values.size(); i += loop->tags.size())];
    the body runs at most [values.size()] times, as the stride is not 0
    when the loop is reached. *)
Fixpoint convert_rows (fuel : nat) (i : Z) (st : Cursor) : Res Cursor :=
  if i <? Z.of_nat (length (values loop)) then
    match fuel with
    | O => Undefined
    | S fuel' =>
        st' ← convert_row i st;
        convert_rows fuel' (i + Z.of_nat (length (tags loop))) st'
    end
  else Ok st.
End Rows.

(** *** What the rows of the data matrix hold

    The content of the matrix, row by row, as the theorems below state it. *)

Section RowContents.
Variables (sg : SpaceGroup) (loop : Loop) (indices : list Z).
Variables (unmerged uses_status_flag : bool).

(** The value of row [row] of the loop under the tag of index [ix]. *)
Definition source_cell (row : nat) (ix : Z) : string :=
  nth (Z.to_nat (Z.of_nat (row * length (tags loop)) + ix)) (values loop)
      EmptyString.

(** The indices read from row [row]; (0, 0, 0) when they cannot be read. *)
Definition hkl_of_row (row : nat) : Hkl :=
  match read_hkl loop indices (Z.of_nat (row * length (tags loop))) with
  | Ok hkl => hkl
  | _ => (0, 0, 0)
  end.

(** The leading cells of a row: the indices as read in merged mode; the
    moved indices, the isym and the batch number 1 in unmerged mode. *)
Definition leading_cells (row : nat) : list float :=
  if unmerged then
    let '((h, k, l), isym) := move_to_asu X sg (hkl_of_row row) in
    [float_of_int h; float_of_int k; float_of_int l; float_of_int isym; F1]
  else
    let '(h, k, l) := hkl_of_row row in
    [float_of_int h; float_of_int k; float_of_int l].

(** The cells after the leading ones: one per resolved index from the
    fourth on, the first of them re-encoded as a flag when a status entry
    was resolved. *)
Definition trailing_cells (row : nat) : list float :=
  let ixs := drop 3 indices in
  if uses_status_flag then
    match ixs with
    | ix :: rest =>
        status_to_freeflag (source_cell row ix) ::
        map (fun ix => number_cell (source_cell row ix)) rest
    | [] => []
    end
  else map (fun ix => number_cell (source_cell row ix)) ixs.

Definition row_cells (row : nat) : list float :=
  leading_cells row ++ trailing_cells row.

(** The number of cells of a row: one per resolved index, and the two
    synthetic cells in unmerged mode. *)
Definition row_width : nat :=
  ((if unmerged then 2 else 0) + length indices)%nat.

(** The whole matrix of a loop of [n] rows. *)
Definition matrix (n : nat) : list float :=
  concat (map row_cells (seq 0 n)).
End RowContents.

(** *** The container handed to the writer *)

(** [loop->tags[0].substr(0, loop->tags[0].find('.') + 1)] *)
Definition category_prefix (tag0 : string) : string :=
  substr0 tag0 (size_cast (str_find "." tag0 + 1)).

(** The prefix computed for a loop, from its first tag. *)
Definition loop_prefix (loop : Loop) : string :=
  category_prefix (hd EmptyString (tags loop)).

Definition selected_loop (rb : ReflnBlock) : option Loop :=
  match refln_loop rb with
  | Some l => Some l
  | None => diffrn_refln_loop rb
  end.

(** [force_unmerged || !rb.refln_loop] *)
Definition unmerged_mode (self : CifToMtz) (rb : ReflnBlock) : bool :=
  force_unmerged self ||
  negb (match refln_loop rb with Some _ => true | None => false end).

(** [convert_block_to_mtz] up to the call of the writer. *)
Definition build_mtz (self : CifToMtz) (rb : ReflnBlock) : Res Mtz :=
  let mtz_title := match title self with Some t => t | None => EmptyString end in
  let mtz_datasets :=
    [mkDataset "HKL_base" None; mkDataset "unknown" (Some (rb_wavelength rb))] in
  match selected_loop rb with
  | None => fail ("_refln category not found in mmCIF block: " +:+ block_name rb)
  | Some loop =>
      tag0 ← vec_get (tags loop) 0;
      let prefix := category_prefix tag0 in
      let unmerged := unmerged_mode self rb in
      r ← resolve loop prefix unmerged (spec_entries self);
      cols ← (if unmerged then unmerged_setup (rb_spacegroup rb) (r_columns r)
              else Ok (r_columns r));
      let mtz_batches := if unmerged then [mkBatch (rb_cell rb)] else [] in
      let cols := set_idx cols in
      let nrefl := int_cast (loop_length loop) in
      let size := size_cast (Z.of_nat (length cols) * size_cast nrefl) in
      '(mtz_data, _) ←
        convert_rows (rb_spacegroup rb) loop (r_indices r) unmerged (uses_status r)
          (length (values loop)) 0 (replicate (Z.to_nat size) F0, 0);
      Ok (mkMtz mtz_title (history self) (rb_cell rb) (rb_spacegroup rb)
            mtz_datasets cols mtz_batches nrefl mtz_data)
  end.

(** The columns of the container for the columns the resolver kept. *)
Definition container_columns (unmerged : bool) (cols : list Column.t)
    : list Column.t :=
  set_idx (if unmerged
           then take 3 cols ++ isym_column :: batch_column :: drop 3 cols
           else cols).

(** The files written so far, in order, with their content. *)
Definition World : Type := list (string * Mtz).

(** [CifToMtz::convert_block_to_mtz]: a std::runtime_error of the writer is
    caught here and ends the process with status 3. *)
Definition convert_block_to_mtz (self : CifToMtz) (rb : ReflnBlock)
    (mtz_path : string) (w : World) : Res unit * World :=
  match build_mtz self rb with
  | Ok mtz =>
      match write_to_file X mtz mtz_path with
      | Ok _ => (Ok (), w ++ [(mtz_path, mtz)])
      | Throw (RuntimeError _) => (Exit 3, w)
      | Throw e => (Throw e, w)
      | Exit c => (Exit c, w)
      | Undefined => (Undefined, w)
      end
  | Throw e => (Throw e, w)
  | Exit c => (Exit c, w)
  | Undefined => (Undefined, w)
  end.

(** *** The entry point, from the parsed blocks on *)

(** The options that select what is converted: [--dir], [--block] and the
    second positional argument. *)
Record Options : Type := mkOptions {
  opt_dir : option string;
  opt_block : option string;
  opt_mtz_path : string
}.

Fixpoint get_block_by_name (rblocks : list ReflnBlock) (name : string)
    : Res ReflnBlock :=
  match rblocks with
  | [] => fail ("block not found: " +:+ name)
  | rb :: rest =>
      if String.eqb (block_name rb) name then Ok rb
      else get_block_by_name rest name
  end.

(** The path of the file of a block in the [--dir] variant. *)
Definition block_path (dir : string) (rb : ReflnBlock) : string :=
  dir +:+ "/" +:+ block_name rb +:+ ".mtz".

(** [for (gemmi::ReflnBlock& rb : rblocks)] in the [--dir] variant; the
    result is the flag [ok]. *)
Fixpoint convert_all_blocks (self : CifToMtz) (dir : string)
    (rblocks : list ReflnBlock) (ok : bool) (w : World) : Res bool * World :=
  match rblocks with
  | [] => (Ok ok, w)
  | rb :: rest =>
      let path := block_path dir rb in
      match convert_block_to_mtz self rb path w with
      | (Ok _, w') => convert_all_blocks self dir rest ok w'
      | (Throw (RuntimeError _), w') => convert_all_blocks self dir rest false w'
      | (Throw e, w') => (Throw e, w')
      | (Exit c, w') => (Exit c, w')
      | (Undefined, w') => (Undefined, w')
      end
  end.

(** The conversion part of the entry point: [Ok c] is [return c], [Exit c]
    a call of std::exit, [Throw e] an exception nothing catches. *)
Definition main_convert (self : CifToMtz) (opts : Options)
    (rblocks : list ReflnBlock) (w : World) : Res Z * World :=
  match opt_dir opts with
  | Some dir =>
      match convert_all_blocks self dir rblocks true w with
      | (Ok ok, w') => if ok then (Ok 0, w') else (Ok 1, w')
      | (Throw (RuntimeError _), w') => (Ok 1, w')
      | (Throw e, w') => (Throw e, w')
      | (Exit c, w') => (Exit c, w')
      | (Undefined, w') => (Undefined, w')
      end
  | None =>
      let block :=
        match opt_block opts with
        | Some name => get_block_by_name rblocks name
        | None =>
            match rblocks with
            | rb :: _ => Ok rb
            | [] => Throw (OtherException "vector::at")
            end
        end in
      match block with
      | Ok rb =>
          match convert_block_to_mtz self rb (opt_mtz_path opts) w with
          | (Ok _, w') => (Ok 0, w')
          | (Throw (RuntimeError _), w') => (Ok 1, w')
          | (Throw e, w') => (Throw e, w')
          | (Exit c, w') => (Exit c, w')
          | (Undefined, w') => (Undefined, w')
          end
      | Throw (RuntimeError _) => (Ok 1, w)
      | Throw e => (Throw e, w)
      | Exit c => (Exit c, w)
      | Undefined => (Undefined, w)
      end
  end.

(** The converter run with [--unmerged]. *)
Definition with_unmerged (self : CifToMtz) : CifToMtz :=
  mkCifToMtz (spec_entries self) (verbose self) true (title self) (history self).

End Conversion.

Arguments mkBatch {UnitCell} _.
Arguments batch_cell {UnitCell} _.
Arguments mkMtz {UnitCell SpaceGroup} _ _ _ _ _ _ _ _ _.
Arguments mtz_title {UnitCell SpaceGroup} _.
Arguments mtz_history {UnitCell SpaceGroup} _.
Arguments cell {UnitCell SpaceGroup} _.
Arguments spacegroup {UnitCell SpaceGroup} _.
Arguments datasets {UnitCell SpaceGroup} _.
Arguments columns {UnitCell SpaceGroup} _.
Arguments batches {UnitCell SpaceGroup} _.
Arguments nreflections {UnitCell SpaceGroup} _.
Arguments data {UnitCell SpaceGroup} _.
Arguments mkReflnBlock {UnitCell SpaceGroup} _ _ _ _ _ _.
Arguments block_name {UnitCell SpaceGroup} _.
Arguments rb_cell {UnitCell SpaceGroup} _.
Arguments rb_spacegroup {UnitCell SpaceGroup} _.
Arguments rb_wavelength {UnitCell SpaceGroup} _.
Arguments refln_loop {UnitCell SpaceGroup} _.
Arguments diffrn_refln_loop {UnitCell SpaceGroup} _.
Arguments mkExternals {UnitCell SpaceGroup} _ _ _ _ _ _ _.
Arguments new_hkl_mover {UnitCell SpaceGroup} _ _.
Arguments unmerged_setup {UnitCell SpaceGroup} X sg cols.
Arguments tag_eqb {UnitCell SpaceGroup} _ _ _.
Arguments is_null {UnitCell SpaceGroup} _ _.
Arguments as_int {UnitCell SpaceGroup} _ _.
Arguments as_number {UnitCell SpaceGroup} _ _.
Arguments move_to_asu {UnitCell SpaceGroup} _ _ _.
Arguments write_to_file {UnitCell SpaceGroup} _ _ _.
Arguments find_tag {UnitCell SpaceGroup} X loop tag.
Arguments resolve_entry {UnitCell SpaceGroup} X loop prefix unmerged st entry.
Arguments resolve_from {UnitCell SpaceGroup} X loop prefix unmerged st entries.
Arguments resolve {UnitCell SpaceGroup} X loop prefix unmerged entries.
Arguments indices_present {UnitCell SpaceGroup} X loop prefix es.
Arguments read_hkl {UnitCell SpaceGroup} X loop indices i.
Arguments number_cell {UnitCell SpaceGroup} X v.
Arguments hkl_of_row {UnitCell SpaceGroup} X loop indices row.
Arguments leading_cells {UnitCell SpaceGroup} X sg loop indices unmerged row.
Arguments trailing_cells {UnitCell SpaceGroup} X loop indices uses_status_flag row.
Arguments row_cells {UnitCell SpaceGroup} X sg loop indices unmerged uses_status_flag row.
Arguments matrix {UnitCell SpaceGroup} X sg loop indices unmerged uses_status_flag n.
Arguments store_index {UnitCell SpaceGroup} X loop indices i j st.
Arguments store_number {UnitCell SpaceGroup} X loop i ix st.
Arguments store_numbers {UnitCell SpaceGroup} X loop i ixs st.
Arguments convert_row {UnitCell SpaceGroup} X sg loop indices unmerged uses_status_flag i st.
Arguments convert_rows {UnitCell SpaceGroup} X sg loop indices unmerged uses_status_flag fuel i st.
Arguments selected_loop {UnitCell SpaceGroup} rb.
Arguments unmerged_mode {UnitCell SpaceGroup} self rb.
Arguments build_mtz {UnitCell SpaceGroup} X self rb.
Arguments convert_block_to_mtz {UnitCell SpaceGroup} X self rb mtz_path w.
Arguments get_block_by_name {UnitCell SpaceGroup} rblocks name.
Arguments block_path {UnitCell SpaceGroup} dir rb.
Arguments convert_all_blocks {UnitCell SpaceGroup} X self dir rblocks ok w.
Arguments main_convert {UnitCell SpaceGroup} X self opts rblocks w.

(** ** Stand-ins for the library routines

    Simple executable versions of the routines of [Externals], used to run
    the conversion on concrete blocks. The general results below do not
    depend on them: they hold for every [Externals]. *)

Module Ref.
(** A cell as its six parameters, in units that make them integers. *)
Definition UnitCell : Type := list Z.

(** The stand-in for a space group is its reduction table: the indices it
    moves, with the representative and the isym of each; every other
    triple is its own representative, with isym 1. *)
Definition SpaceGroup : Type := list (Hkl * (Hkl * Z)).

Definition hkl_eqb (a b : Hkl) : bool :=
  let '(h, k, l) := a in
  let '(h', k', l') := b in
  (h =? h') && (k =? k') && (l =? l').

(** Modelled from the spec: UnmergedHklMover is declared in the library's
    headers, which are not part of the sources at hand; the reduction
    service is total and deterministic, and is replaced here by a fixed,
    hand-computed reduction table. (The stand-in mover can be made for
    every table.) *)
Fixpoint move_to_asu (sg : SpaceGroup) (hkl : Hkl) : Hkl * Z :=
  match sg with
  | [] => (hkl, 1)
  | (from, to) :: rest => if hkl_eqb from hkl then to else move_to_asu rest hkl
  end.

(** Modelled from the spec: cif::is_null is declared in gemmi/cifdoc.hpp,
    which is not part of the sources at hand; the null markers of the
    format are the values "?" and ".". *)
Definition is_null (v : string) : bool :=
  String.eqb v "?" || String.eqb v ".".

Definition is_digit (c : ascii) : bool :=
  (48 <=? nat_of_ascii c)%nat && (nat_of_ascii c <=? 57)%nat.

Definition digit_value (c : ascii) : Z := Z.of_nat (nat_of_ascii c) - 48.

(** The number written by a string of digits, read after [acc]; [None]
    when another character occurs. *)
Fixpoint digits (acc : Z) (s : string) : option Z :=
  match s with
  | EmptyString => Some acc
  | String c r => if is_digit c then digits (acc * 10 + digit_value c) r else None
  end.

Definition unsigned_int (s : string) : option Z :=
  match s with
  | EmptyString => None
  | _ => digits 0 s
  end.

(** Modelled from the spec: cif::as_int is declared in gemmi/cifdoc.hpp,
    which is not part of the sources at hand; it reads the integer of an
    index cell (an optional sign and decimal digits) and throws on any
    other text. *)
Definition as_int (s : string) : Res Z :=
  let r :=
    match s with
    | String "-" r => option_map Z.opp (unsigned_int r)
    | String "+" r => unsigned_int r
    | _ => unsigned_int s
    end in
  match r with
  | Some n => Ok n
  | None => Throw (OtherException ("not an integer: " +:+ s))
  end.

(** The digits before and after the first "." of [s]. *)
Fixpoint split_point (s : string) : string * string :=
  match s with
  | EmptyString => (EmptyString, EmptyString)
  | String c r =>
      if Ascii.eqb c "." then (EmptyString, r)
      else let '(a, b) := split_point r in (String c a, b)
  end.

Definition unsigned_number (s : string) : float :=
  let '(a, b) := split_point s in
  match unsigned_int (a +:+ b) with
  | Some m =>
      SFdiv 24 128 (float_of_int m)
        (float_of_int (10 ^ Z.of_nat (String.length b)))
  | None => NAN
  end.

(** Modelled from the spec: cif::as_number is declared in gemmi/numb.hpp,
    which is not part of the sources at hand; a decimal number (an optional
    sign, digits, an optional fraction) is read to the cell value, and a
    text that is not a number gives NaN. *)
Definition as_number (s : string) : float :=
  match s with
  | String "-" r => SFopp (unsigned_number r)
  | String "+" r => unsigned_number r
  | _ => unsigned_number s
  end.

(** Modelled from the spec: Mtz::write_to_file is declared in gemmi/mtz.hpp,
    which is not part of the sources at hand; writing either succeeds or
    fails with an error; here it fails exactly on the paths of
    [unwritable]. *)
Definition write_to_file (unwritable : list string)
    (mtz : Mtz UnitCell SpaceGroup) (path : string) : Res unit :=
  if existsb (String.eqb path) unwritable
  then Throw (RuntimeError ("Cannot open file for writing: " +:+ path))
  else Ok ().

Definition externals (unwritable : list string) : Externals UnitCell SpaceGroup :=
  mkExternals String.eqb is_null as_int as_number (fun _ => Ok ()) move_to_asu
              (write_to_file unwritable).

(** The converter as the entry point sets it up without options. *)
Definition cif2mtz : CifToMtz := mkCifToMtz default_entries false false None [].

Definition P1_cell : UnitCell := [50; 60; 70; 90; 90; 90].
End Ref.


(** ** The words of a spec line *)

(** A string without any of the separators of a spec line. *)
Fixpoint no_sep (s : string) : bool :=
  match s with
  | EmptyString => true
  | String c r => negb (is_sep c) && no_sep r
  end.

(** A word: not empty, and without separator. *)
Definition is_word (s : string) : bool :=
  negb (String.eqb s EmptyString) && no_sep s.

(** A string of separators only. *)
Fixpoint is_blank (s : string) : bool :=
  match s with
  | EmptyString => true
  | String c r => is_sep c && is_blank r
  end.

(** ** Tables whose alternatives are consecutive *)

(** A list of labels without the run of [a] it starts with. *)
Fixpoint after_run (a : string) (ls : list string) : list string :=
  match ls with
  | [] => []
  | b :: rest => if String.eqb a b then after_run a rest else ls
  end.

(** The entries that share a label are consecutive: once another label
    has followed a label, that label does not come again. *)
Fixpoint grouped (ls : list string) : bool :=
  match ls with
  | [] => true
  | a :: rest => negb (existsb (String.eqb a) (after_run a rest)) && grouped rest
  end.

(** ** Lists of columns *)

(** No two neighbouring columns of a list bear the same label. *)
Definition neighbours_differ (cols : list Column.t) : Prop :=
  forall (i : nat) c c',
    cols !! i = Some c -> cols !! S i = Some c' ->
    Column.label c <> Column.label c'.

(** ** The entry point, from the parsed command line on *)

Section EntryPoint.
Context {UnitCell SpaceGroup : Type}.
Variable X : Externals UnitCell SpaceGroup.

(** The options and positional arguments of a run, as OptParser gives them
    once [require_positional_args] has accepted their number. *)
Record CommandLine : Type := mkCommandLine {
  cl_print_spec : bool;          (* --print-spec *)
  cl_spec : option string;       (* --spec=FILE *)
  cl_verbose : bool;             (* --verbose *)
  cl_unmerged : bool;            (* --unmerged *)
  cl_title : option string;      (* --title *)
  cl_history : list string;      (* every -H, in the order given *)
  cl_cif_path : string;          (* the first positional argument *)
  cl_select : Options            (* --dir, --block, the second argument *)
}.

(** The two routines that read files; neither header is part of the
    sources at hand.
    - [read_spec_file path]: the lines of the spec file;
    - [read_blocks path]: [as_refln_blocks(read_cif_gz(path).blocks)]. *)
Variable read_spec_file : string -> Res (list string).
Variable read_blocks : string -> Res (list (ReflnBlock UnitCell SpaceGroup)).

(** The first [try] block of the entry point: the table of the run. *)
Definition setup_spec (cl : CommandLine) : Res (list Entry) :=
  match cl_spec cl with
  | Some path => spec_lines ← read_spec_file path; load_spec spec_lines
  | None => load_spec default_spec
  end.

(** The entry point. What [--print-spec] prints on stdout is not part of
    the model. *)
Definition gemmi_main (cl : CommandLine) (w : World UnitCell SpaceGroup)
    : Res Z * World UnitCell SpaceGroup :=
  if cl_print_spec cl then (Ok 0, w)
  else
    match setup_spec cl with
    | Ok entries =>
        let cif2mtz :=
          mkCifToMtz entries (cl_verbose cl) (cl_unmerged cl) (cl_title cl)
                     (cl_history cl) in
        match read_blocks (cl_cif_path cl) with
        | Ok rblocks => main_convert X cif2mtz (cl_select cl) rblocks w
        | Throw (RuntimeError _) => (Ok 1, w)
        | Throw e => (Throw e, w)
        | Exit c => (Exit c, w)
        | Undefined => (Undefined, w)
        end
    | Throw (RuntimeError _) => (Ok 2, w)
    | Throw e => (Throw e, w)
    | Exit c => (Exit c, w)
    | Undefined => (Undefined, w)
    end.

(** Whether a call returned. *)
Definition returned {A} (r : Res A) : bool :=
  match r with
  | Ok _ => true
  | _ => false
  end.

(** The file a block gives in the [--dir] variant, when its container can
    be built. *)
Definition file_of_block (self : CifToMtz) (dir : string)
    (rb : ReflnBlock UnitCell SpaceGroup)
    : option (string * Mtz UnitCell SpaceGroup) :=
  match build_mtz X self rb with
  | Ok mtz => Some (block_path dir rb, mtz)
  | _ => None
  end.
(** A file written for a block of [blocks]: its container was built from
    the block, and its path is the one the options give for it. *)
Definition written_for (self : CifToMtz) (opts : Options)
    (blocks : list (ReflnBlock UnitCell SpaceGroup))
    (file : string * Mtz UnitCell SpaceGroup) : Prop :=
  exists rb,
    In rb blocks /\
    build_mtz X self rb = Ok (snd file) /\
    fst file = match opt_dir opts with
               | Some dir => block_path dir rb
               | None => opt_mtz_path opts
               end.
End EntryPoint.

(** ** Concrete blocks and tables *)

Module Scenario.
Definition block (name : string) (sg : Ref.SpaceGroup)
    (refln diffrn : option Loop) : ReflnBlock Ref.UnitCell Ref.SpaceGroup :=
  mkReflnBlock name Ref.P1_cell sg (SFone 53 1024) refln diffrn.

(** The entries of a table given by its lines. *)
Definition table (lines : list string) : list Entry :=
  match load_spec lines with
  | Ok es => es
  | _ => []
  end.

Definition converter (entries : list Entry) (unmerged : bool) : CifToMtz :=
  mkCifToMtz entries false unmerged None [].

(** Amplitudes with their sigmas, one row. *)
Definition fp_tags : list string :=
  ["_refln.index_h"; "_refln.index_k"; "_refln.index_l";
   "_refln.F_meas_au"; "_refln.F_meas_sigma_au"].
Definition fp_loop : Loop := mkLoop fp_tags ["1"; "2"; "3"; "100.0"; "5.0"].
Definition fp_block := block "fp" [] (Some fp_loop) None.

(** The same with a null amplitude, and with a null index. *)
Definition null_fp_block :=
  block "fp" [] (Some (mkLoop fp_tags ["1"; "2"; "3"; "?"; "5.0"])) None.

(** The same without the tag index_k. *)
Definition no_k_loop : Loop :=
  mkLoop ["_refln.index_h"; "_refln.index_l"; "_refln.F_meas_au";
          "_refln.F_meas_sigma_au"]
         ["1"; "3"; "100.0"; "5.0"].
Definition no_k_block := block "fp" [] (Some no_k_loop) None.

(** Unmerged intensities, two rows; the space group moves (-1, 0, 2) to
    (1, 0, 2) with isym 3. *)
Definition friedel : Ref.SpaceGroup := [((-1, 0, 2), ((1, 0, 2), 3))].
Definition diffrn_loop : Loop :=
  mkLoop ["_diffrn_refln.index_h"; "_diffrn_refln.index_k";
          "_diffrn_refln.index_l"; "_diffrn_refln.intensity_net";
          "_diffrn_refln.intensity_sigma"]
         ["-1"; "0"; "2"; "12.5"; "1.5";
          "1"; "0"; "2"; "13.0"; "?"].
Definition diffrn_block := block "unm" friedel None (Some diffrn_loop).
Definition diffrn_resolved : Resolved :=
  mkResolved
    [Column.mk 0 "H" "H" 0; Column.mk 0 "H" "K" 0; Column.mk 0 "H" "L" 0;
     Column.mk 1 "J" "I" 0; Column.mk 1 "Q" "SIGI" 0]
    [0; 1; 2; 3; 4] false.

(** A merged loop with the status but without pdbx_r_free_flag. *)
Definition status_loop : Loop :=
  mkLoop ["_refln.index_h"; "_refln.index_k"; "_refln.index_l";
          "_refln.status"; "_refln.F_meas_au"]
         ["1"; "2"; "3"; "o"; "100.0";
          "2"; "2"; "3"; "?"; "."].
Definition status_block := block "st" [] (Some status_loop) None.
Definition status_resolved : Resolved :=
  mkResolved
    [Column.mk 0 "H" "H" 0; Column.mk 0 "H" "K" 0; Column.mk 0 "H" "L" 0;
     Column.mk 0 "I" "FreeR_flag" 0; Column.mk 1 "F" "FP" 0]
    [0; 1; 2; 3; 4] true.

(** A table given with [--spec] that lists the status after the amplitude,
    and a merged loop with both. *)
Definition late_status_table : list Entry :=
  Eval vm_compute in
    table ["index_h H H 0"; "index_k K H 0"; "index_l L H 0";
           "F_meas_au FP F 1"; "status FreeR_flag s 0"].
Definition late_status_loop : Loop :=
  mkLoop ["_refln.index_h"; "_refln.index_k"; "_refln.index_l";
          "_refln.F_meas_au"; "_refln.status"]
         ["1"; "2"; "3"; "100.0"; "o"].
Definition late_status_block := block "ls" [] (Some late_status_loop) None.

(** A table in which two entries with the label I are separated by the
    status entry, and a loop with the three tags. *)
Definition separated_table : list Entry :=
  Eval vm_compute in
    table ["index_h H H 0"; "index_k K H 0"; "index_l L H 0";
           "intensity_meas I J 1"; "status FreeR_flag s 0";
           "intensity_net I J 1"].
Definition separated_loop : Loop :=
  mkLoop ["_refln.index_h"; "_refln.index_k"; "_refln.index_l";
          "_refln.intensity_meas"; "_refln.status"; "_refln.intensity_net"]
         ["1"; "2"; "3"; "10.0"; "o"; "11.0"].
Definition separated_block := block "sep" [] (Some separated_loop) None.

(** Three blocks for the [--dir] variant. *)
Definition block_a := block "a" [] (Some fp_loop) None.
Definition block_b := block "b" [] (Some fp_loop) None.
Definition block_c := block "c" [] (Some fp_loop) None.
Definition dir_options : Options := mkOptions (Some "out") None EmptyString.

(** The container of [fp_loop] under the default table. *)
Definition fp_mtz : Mtz Ref.UnitCell Ref.SpaceGroup :=
  mkMtz EmptyString [] Ref.P1_cell []
    [mkDataset "HKL_base" None; mkDataset "unknown" (Some (SFone 53 1024))]
    [Column.mk 0 "H" "H" 0; Column.mk 0 "H" "K" 1; Column.mk 0 "H" "L" 2;
     Column.mk 1 "F" "FP" 3; Column.mk 1 "Q" "SIGFP" 4]
    [] 1 (map float_of_int [1; 2; 3; 100; 5]).
End Scenario.


(** ** Further concrete cases *)

Module Cases.
(** Routines that read tags, integers and numbers as the stand-ins do, but
    have no mover and move every triple to (0, 0, 0). *)
Definition other_routines : Externals Ref.UnitCell Ref.SpaceGroup :=
  mkExternals String.eqb Ref.is_null Ref.as_int Ref.as_number
    (fun _ => Throw (RuntimeError "no mover"))
    (fun _ _ => ((0, 0, 0), 0))
    (Ref.write_to_file []).

(** A table that lists the intensity before the Miller indices, and an
    unmerged loop of one row. *)
Definition intensity_first_table : list Entry :=
  Eval vm_compute in
    Scenario.table ["intensity_net I J 1"; "index_h H H 0"; "index_k K H 0";
                    "index_l L H 0"].
Definition intensity_first_loop : Loop :=
  mkLoop ["_diffrn_refln.index_h"; "_diffrn_refln.index_k";
          "_diffrn_refln.index_l"; "_diffrn_refln.intensity_net"]
         ["-1"; "0"; "2"; "7"].
Definition intensity_first_block :=
  Scenario.block "first" [] None (Some intensity_first_loop).

(** A table whose two alternatives bear the label of a synthetic
    column. *)
Definition batch_label_table : list Entry :=
  Eval vm_compute in
    Scenario.table ["index_h H H 0"; "index_k K H 0"; "index_l L H 0";
                    "intensity_net BATCH J 1"; "intensity_sigma BATCH J 1"].

(** A table with the intensity only. *)
Definition intensity_table : list Entry :=
  Eval vm_compute in Scenario.table ["intensity_net I J 1"].

(** The containers of the status block and of the unmerged block under the
    default table. *)
Definition status_mtz : Mtz Ref.UnitCell Ref.SpaceGroup :=
  Eval vm_compute in
    match build_mtz (Ref.externals []) Ref.cif2mtz Scenario.status_block with
    | Ok mtz => mtz
    | _ => Scenario.fp_mtz
    end.
Definition diffrn_mtz : Mtz Ref.UnitCell Ref.SpaceGroup :=
  Eval vm_compute in
    match build_mtz (Ref.externals []) Ref.cif2mtz Scenario.diffrn_block with
    | Ok mtz => mtz
    | _ => Scenario.fp_mtz
    end.

(** A run without options on a file with the amplitudes block. *)
Definition plain_run : CommandLine :=
  mkCommandLine false None false false None [] "in.cif"
    (mkOptions None None "out.mtz").
Definition no_spec_file (path : string) : Res (list string) :=
  Throw (RuntimeError ("Cannot open " +:+ path)).
Definition one_block_file (path : string)
    : Res (list (ReflnBlock Ref.UnitCell Ref.SpaceGroup)) :=
  Ok [Scenario.fp_block].
End Cases.
(** * Properties *)

Lemma bind_Ok {A B} (f : A -> Res B) (a : A) : (Ok a ≫= f) = f a.
Proof. reflexivity. Qed.

Lemma bind_inv_Ok {A B} (f : A -> Res B) (m : Res A) (b : B) :
  (m ≫= f) = Ok b -> exists a, m = Ok a /\ f a = Ok b.
Proof. destruct m; simpl; try discriminate. eauto. Qed.

(** Steps over the calls that have returned. *)
Ltac ok := repeat rewrite bind_Ok; cbv beta iota.

Section Theory.
Context {UnitCell SpaceGroup : Type}.
Variable X : Externals UnitCell SpaceGroup.

(** *** The resolver *)

Lemma resolve_from_app loop prefix unmerged st es1 es2 :
  resolve_from X loop prefix unmerged st (es1 ++ es2) =
  (resolve_from X loop prefix unmerged st es1 ≫=
     fun st' => resolve_from X loop prefix unmerged st' es2).
Proof.
  revert st. induction es1 as [|e es1 IH]; intros st; simpl; [reflexivity|].
  destruct (resolve_entry X loop prefix unmerged st e); simpl; auto.
Qed.

(** The only way an iteration does not reach the next entry. *)
Lemma resolve_entry_outcome loop prefix unmerged st e :
  (exists st', resolve_entry X loop prefix unmerged st e = Ok st') \/
  (col_type e = "H"%char /\
   find_tag X loop (prefix +:+ refln_tag e) = -1 /\
   resolve_entry X loop prefix unmerged st e =
     Throw (RuntimeError ("Miller index tag not found: " +:+ (prefix +:+ refln_tag e)))).
Proof.
  unfold resolve_entry.
  destruct (find_tag X loop (prefix +:+ refln_tag e) =? -1) eqn:Hf; simpl.
  - destruct (Ascii.eqb (col_type e) "H") eqn:Hh; [right|left; eauto].
    apply Ascii.eqb_eq in Hh. apply Z.eqb_eq in Hf. auto.
  - left. destruct (back_has_label _ _); eauto.
    destruct (unmerged && _); eauto.
Qed.

(** What an iteration does for an entry whose tag is in the loop. *)
Lemma resolve_entry_found loop prefix unmerged st e :
  find_tag X loop (prefix +:+ refln_tag e) <> -1 ->
  resolve_entry X loop prefix unmerged st e =
    Ok (if back_has_label (r_columns st) (col_label e) then st
        else if unmerged && Ascii.eqb (col_type e) "s" then st
        else push_column st e (find_tag X loop (prefix +:+ refln_tag e))).
Proof.
  intros Hf. unfold resolve_entry. apply Z.eqb_neq in Hf. rewrite Hf. simpl.
  destruct (back_has_label _ _); [reflexivity|].
  destruct (unmerged && _); reflexivity.
Qed.

(** What an iteration does for an entry whose tag is not in the loop. *)
Lemma resolve_entry_absent loop prefix unmerged st e :
  find_tag X loop (prefix +:+ refln_tag e) = -1 ->
  col_type e <> "H"%char ->
  resolve_entry X loop prefix unmerged st e = Ok st.
Proof.
  intros Hf Hty. unfold resolve_entry. rewrite Hf. simpl.
  apply Ascii.eqb_neq in Hty. rewrite Hty. reflexivity.
Qed.

(** A run of the resolver only appends, as many indices as columns, and the
    label of an appended column is the label of one of the entries walked. *)
Lemma resolve_from_extends loop prefix unmerged es :
  forall st r,
    resolve_from X loop prefix unmerged st es = Ok r ->
    exists cs ixs,
      r_columns r = r_columns st ++ cs /\
      r_indices r = r_indices st ++ ixs /\
      length cs = length ixs /\
      Forall (fun c => exists e, In e es /\ Column.label c = col_label e) cs.
Proof.
  induction es as [|e es IH]; intros st r H; simpl in H.
  - injection H as <-. exists [], []. rewrite !app_nil_r. auto.
  - apply bind_inv_Ok in H as (st' & He & H).
    destruct (IH _ _ H) as (cs & ixs & Hc & Hi & Hlen & Hall).
    assert (Hall' : Forall (fun c => exists e0, In e0 (e :: es) /\
                                  Column.label c = col_label e0) cs).
    { eapply Forall_impl; [exact Hall|].
      intros c (e0 & ? & ?). exists e0. split; [right|]; auto. }
    unfold resolve_entry in He.
    destruct (negb _).
    + destruct (back_has_label _ _); [injection He as <-; eauto 10|].
      destruct (unmerged && _); [injection He as <-; eauto 10|].
      injection He as <-. simpl in Hc, Hi.
      exists (column_of_entry e :: cs), (find_tag X loop (prefix +:+ refln_tag e) :: ixs).
      rewrite Hc, Hi, <- !app_assoc. simpl. repeat split; auto.
      constructor; [|exact Hall']. exists e. split; [left|]; reflexivity.
    + destruct (Ascii.eqb _ _); [discriminate|]. injection He as <-. eauto 10.
Qed.

Lemma resolve_from_total loop prefix unmerged es :
  forall st, indices_present X loop prefix es ->
    exists r, resolve_from X loop prefix unmerged st es = Ok r.
Proof.
  induction es as [|e es IH]; intros st Hp; simpl; [eauto|].
  destruct (resolve_entry_outcome loop prefix unmerged st e)
    as [[st' Hok]|(Hty & Hf & _)].
  - rewrite Hok. simpl. apply IH. intros e0 Hin. apply Hp. right. exact Hin.
  - exfalso. apply (Hp e); [left; reflexivity|assumption|assumption].
Qed.

Lemma indices_present_app loop prefix es1 es2 :
  indices_present X loop prefix (es1 ++ es2) ->
  indices_present X loop prefix es1 /\ indices_present X loop prefix es2.
Proof.
  intros H. split; intros e Hin; apply H; apply in_or_app; auto.
Qed.

Lemma back_has_label_snoc cols c lbl :
  back_has_label (cols ++ [c]) lbl = String.eqb (Column.label c) lbl.
Proof. unfold back_has_label. rewrite last_snoc. reflexivity. Qed.

Lemma back_has_label_true cols lbl :
  back_has_label cols lbl = true ->
  exists cs c, cols = cs ++ [c] /\ Column.label c = lbl.
Proof.
  unfold back_has_label. intros H.
  destruct (last cols) as [c|] eqn:Hl; [|discriminate].
  apply last_Some in Hl as [cs ->]. exists cs, c. split; [reflexivity|].
  apply String.eqb_eq. exact H.
Qed.

(** No column bears a label that no entry walked had. *)
Lemma with_label_fresh lbl (es : list Entry) (cs : list Column.t) :
  (forall e, In e es -> col_label e <> lbl) ->
  Forall (fun c => exists e, In e es /\ Column.label c = col_label e) cs ->
  with_label lbl cs = [].
Proof.
  intros Hfresh Hall. unfold with_label. induction Hall as [|c cs (e & Hin & Hl) _ IH].
  - reflexivity.
  - rewrite filter_cons. destruct (decide (Column.label c = lbl)) as [E|_]; [|exact IH].
    exfalso. apply (Hfresh e Hin). congruence.
Qed.

Lemma resolve_from_missing_index loop prefix unmerged es :
  forall st e,
    In e es -> col_type e = "H"%char ->
    find_tag X loop (prefix +:+ refln_tag e) = -1 ->
    exists e', In e' es /\ col_type e' = "H"%char /\
      find_tag X loop (prefix +:+ refln_tag e') = -1 /\
      resolve_from X loop prefix unmerged st es =
        Throw (RuntimeError
                 ("Miller index tag not found: " +:+ (prefix +:+ refln_tag e'))).
Proof.
  induction es as [|e0 es IH]; intros st e Hin Hty Hfind; [destruct Hin|].
  simpl. destruct (resolve_entry_outcome loop prefix unmerged st e0)
    as [[st' Hok]|(Hty0 & Hf0 & Hthrow)].
  - rewrite Hok. simpl. destruct Hin as [->|Hin].
    + exfalso. unfold resolve_entry in Hok. rewrite Hfind, Hty in Hok.
      simpl in Hok. discriminate.
    + destruct (IH st' e Hin Hty Hfind) as (e' & ? & ? & ? & ?).
      exists e'. auto.
  - exists e0. rewrite Hthrow. simpl. auto.
Qed.

(** C4. If an entry of type 'H' of the spec table has no matching tag in the
    reflection loop of the block, the conversion of the block ends with the
    error [Miller index tag not found: <tag>], where <tag> is the qualified
    tag of such an entry (the first one in table order), and nothing is
    written: the files are those that were there before. *)
Theorem C4_missing_index_tag_fails self rb loop e path w :
  selected_loop rb = Some loop ->
  tags loop <> [] ->
  In e (spec_entries self) ->
  col_type e = "H"%char ->
  find_tag X loop (loop_prefix loop +:+ refln_tag e) = -1 ->
  exists e',
    In e' (spec_entries self) /\ col_type e' = "H"%char /\
    find_tag X loop (loop_prefix loop +:+ refln_tag e') = -1 /\
    convert_block_to_mtz X self rb path w =
      (Throw (RuntimeError ("Miller index tag not found: " +:+
                            (loop_prefix loop +:+ refln_tag e'))), w).
Proof.
  intros Hsel Htags Hin Hty Hfind.
  destruct (resolve_from_missing_index loop (loop_prefix loop)
              (unmerged_mode self rb) (spec_entries self)
              resolved_init e Hin Hty Hfind) as (e' & Hin' & Hty' & Hf' & Hres).
  exists e'. repeat split; auto.
  unfold convert_block_to_mtz, build_mtz. rewrite Hsel.
  destruct (tags loop) as [|t0 ts] eqn:Ht; [congruence|].
  assert (Hp : loop_prefix loop = category_prefix t0).
  { unfold loop_prefix. rewrite Ht. reflexivity. }
  rewrite Hp in *.
  unfold resolve. cbn [vec_get]. simpl. rewrite Hres. reflexivity.
Qed.

(** *** The container *)

Lemma build_mtz_inv self rb mtz :
  build_mtz X self rb = Ok mtz ->
  exists loop r cols d k,
    selected_loop rb = Some loop /\
    tags loop <> [] /\
    resolve X loop (loop_prefix loop) (unmerged_mode self rb) (spec_entries self) = Ok r /\
    (if unmerged_mode self rb then unmerged_setup X (rb_spacegroup rb) (r_columns r)
     else Ok (r_columns r)) = Ok cols /\
    convert_rows X (rb_spacegroup rb) loop (r_indices r) (unmerged_mode self rb)
      (uses_status r) (length (values loop)) 0
      (replicate (Z.to_nat (size_cast (Z.of_nat (length (set_idx cols)) *
                                       size_cast (int_cast (loop_length loop))))) F0, 0)
      = Ok (d, k) /\
    mtz = mkMtz (match title self with Some t => t | None => EmptyString end)
            (history self) (rb_cell rb) (rb_spacegroup rb)
            [mkDataset "HKL_base" None; mkDataset "unknown" (Some (rb_wavelength rb))]
            (set_idx cols)
            (if unmerged_mode self rb then [mkBatch (rb_cell rb)] else [])
            (int_cast (loop_length loop)) d.
Proof.
  unfold build_mtz. intros H.
  destruct (selected_loop rb) as [loop|]; [|discriminate].
  apply bind_inv_Ok in H as (tag0 & Ht & H).
  apply bind_inv_Ok in H as (r & Hr & H).
  apply bind_inv_Ok in H as (cols & Hc & H).
  apply bind_inv_Ok in H as ([d k] & Hrows & H).
  injection H as <-.
  assert (Htags : tags loop <> []).
  { intros E. rewrite E in Ht. discriminate. }
  assert (Hp : category_prefix tag0 = loop_prefix loop).
  { unfold loop_prefix. destruct (tags loop); [congruence|].
    simpl in Ht. injection Ht as ->. reflexivity. }
  rewrite Hp in Hr.
  exists loop, r, cols, d, k. repeat split; auto.
Qed.

Lemma add_unmerged_columns_inv (cols cols' : list Column.t) :
  add_unmerged_columns cols = Ok cols' ->
  (3 <= length cols)%nat /\
  cols' = take 3 cols ++ isym_column :: batch_column :: drop 3 cols.
Proof.
  unfold add_unmerged_columns, emplace_at. intros H.
  apply bind_inv_Ok in H as (c1 & H1 & H2).
  destruct (3 <=? length cols)%nat eqn:Hlen; [|discriminate].
  apply Nat.leb_le in Hlen. injection H1 as <-.
  destruct (4 <=? _)%nat; [|discriminate]. injection H2 as <-.
  split; [assumption|].
  do 3 (destruct cols as [|? cols]; [simpl in Hlen; lia|]). reflexivity.
Qed.

Lemma unmerged_setup_inv sg (cols cols' : list Column.t) :
  unmerged_setup X sg cols = Ok cols' ->
  add_unmerged_columns cols = Ok cols'.
Proof.
  unfold unmerged_setup. intros H.
  apply bind_inv_Ok in H as (c & Hc & H).
  apply bind_inv_Ok in H as (u & _ & H). injection H as <-. exact Hc.
Qed.

Lemma add_unmerged_columns_Ok (cols : list Column.t) :
  (3 <= length cols)%nat ->
  add_unmerged_columns cols =
    Ok (take 3 cols ++ isym_column :: batch_column :: drop 3 cols).
Proof.
  intros Hlen.
  do 3 (destruct cols as [|? cols]; [simpl in Hlen; lia|]). reflexivity.
Qed.

Lemma length_set_idx cols : length (set_idx cols) = length cols.
Proof. unfold set_idx. apply length_imap. Qed.

Lemma lookup_set_idx cols (i : nat) :
  set_idx cols !! i =
  (fun c => Column.mk (Column.dataset_id c) (Column.type c) (Column.label c)
                      (Z.of_nat i)) <$> cols !! i.
Proof. unfold set_idx. apply list_lookup_imap. Qed.

(** C6. A block without a merged loop is converted in unmerged mode whether
    or not the flag was given: [unmerged] is true exactly when the flag is
    set or the block has no merged loop; without a merged loop the container
    is the one built with the flag, and it carries the M/ISYM column at
    position 3 and one batch record. *)
Theorem C6_unmerged_detection self rb :
  (unmerged_mode self rb = true <->
   force_unmerged self = true \/ refln_loop rb = None) /\
  (refln_loop rb = None ->
   build_mtz X self rb = build_mtz X (with_unmerged self) rb /\
   forall mtz, build_mtz X self rb = Ok mtz ->
     columns mtz !! 3%nat = Some (Column.mk 1 "Y" "M/ISYM" 3) /\
     length (batches mtz) = 1%nat).
Proof.
  split.
  - unfold unmerged_mode. destruct (force_unmerged self), (refln_loop rb);
      simpl; split; intros H; auto; try discriminate.
    destruct H; discriminate.
  - intros Hnone.
    assert (Hu : unmerged_mode self rb = true).
    { unfold unmerged_mode. rewrite Hnone. apply orb_true_r. }
    split.
    + unfold build_mtz. rewrite Hu.
      replace (unmerged_mode (with_unmerged self) rb) with true by reflexivity.
      reflexivity.
    + intros mtz Hb.
      apply build_mtz_inv in Hb
        as (loop & r & cols & d & k & _ & _ & _ & Hc & _ & ->).
      rewrite Hu in *. apply unmerged_setup_inv in Hc.
      apply add_unmerged_columns_inv in Hc as [Hlen ->].
      simpl. split; [|reflexivity].
      destruct (r_columns r) as [|c0 [|c1 [|c2 rest]]]; simpl in Hlen; try lia.
      reflexivity.
Qed.

(** *** The status flag *)

(** C7 (amended). The flag is decided by one character, the first of the
    string or, when the first is a quote (single or double), the second: 'o'
    gives 1.0 and 'f' gives 0.0, whatever follows; any other deciding
    character, and a string that has none, gives NaN. *)
Theorem C7_status_to_freeflag_by_first_char :
  (forall r, status_to_freeflag (String "o" r) = F1) /\
  (forall r, status_to_freeflag (String "f" r) = F0) /\
  (forall q r, is_quote q -> status_to_freeflag (String q (String "o" r)) = F1) /\
  (forall q r, is_quote q -> status_to_freeflag (String q (String "f" r)) = F0) /\
  (forall c r, ~ is_quote c -> c <> "o"%char -> c <> "f"%char ->
     status_to_freeflag (String c r) = NAN) /\
  (forall q c r, is_quote q -> c <> "o"%char -> c <> "f"%char ->
     status_to_freeflag (String q (String c r)) = NAN) /\
  (forall q, is_quote q -> status_to_freeflag (String q EmptyString) = NAN) /\
  status_to_freeflag EmptyString = NAN.
Proof.
  assert (Hne : forall a b : ascii, a <> b -> Ascii.eqb a b = false).
  { intros a b. apply Ascii.eqb_neq. }
  repeat split; try reflexivity.
  - intros q r [-> | ->]; reflexivity.
  - intros q r [-> | ->]; reflexivity.
  - intros c r Hq Ho Hf. unfold status_to_freeflag, str_at. simpl.
    rewrite (Hne c "'"%char), (Hne c "034"%char) by (unfold is_quote in Hq; tauto).
    simpl. rewrite (Hne c "o"%char), (Hne c "f"%char) by assumption. reflexivity.
  - intros q c r Hq Ho Hf. unfold status_to_freeflag, str_at.
    destruct Hq as [-> | ->]; simpl;
      rewrite (Hne c "o"%char), (Hne c "f"%char) by assumption; reflexivity.
  - intros q [-> | ->]; reflexivity.
Qed.

(** The resolver on a table cut in three: what comes before a group of
    entries, the group, and what comes after. *)
Lemma resolve_split loop prefix unmerged pre mid post :
  indices_present X loop prefix (pre ++ mid ++ post) ->
  (forall st, exists st', resolve_from X loop prefix unmerged st mid = Ok st') ->
  exists st st' r cs2 ixs2,
    resolve X loop prefix unmerged pre = Ok st /\
    resolve_from X loop prefix unmerged st mid = Ok st' /\
    resolve X loop prefix unmerged (pre ++ mid ++ post) = Ok r /\
    r_columns r = r_columns st' ++ cs2 /\
    r_indices r = r_indices st' ++ ixs2 /\
    length (r_columns st) = length (r_indices st) /\
    Forall (fun c => exists e, In e pre /\ Column.label c = col_label e) (r_columns st) /\
    Forall (fun c => exists e, In e post /\ Column.label c = col_label e) cs2.
Proof.
  intros Hp Hmid.
  apply indices_present_app in Hp as [Hpre Hp].
  apply indices_present_app in Hp as [_ Hpost].
  destruct (resolve_from_total loop prefix unmerged pre resolved_init Hpre) as [st Hst].
  destruct (Hmid st) as [st' Hst'].
  destruct (resolve_from_total loop prefix unmerged post st' Hpost) as [r Hr].
  destruct (resolve_from_extends _ _ _ _ _ _ Hst) as (cs0 & ixs0 & Hc0 & Hi0 & Hl0 & Ha0).
  destruct (resolve_from_extends _ _ _ _ _ _ Hr) as (cs2 & ixs2 & Hc2 & Hi2 & _ & Ha2).
  exists st, st', r, cs2, ixs2. simpl in Hc0, Hi0.
  repeat split; auto.
  - unfold resolve in *. rewrite resolve_from_app, Hst. simpl.
    rewrite resolve_from_app, Hst'. simpl. exact Hr.
  - rewrite Hc0, Hi0. exact Hl0.
  - rewrite Hc0. exact Ha0.
Qed.

Lemma back_has_label_fresh lbl (es : list Entry) (cs : list Column.t) :
  (forall e, In e es -> col_label e <> lbl) ->
  Forall (fun c => exists e, In e es /\ Column.label c = col_label e) cs ->
  back_has_label cs lbl = false.
Proof.
  intros Hfresh Hall. destruct (back_has_label cs lbl) eqn:Hb; [|reflexivity].
  apply back_has_label_true in Hb as (cs' & c & -> & Hl).
  apply Forall_app in Hall as [_ Hc]. inversion Hc as [|? ? (e & Hin & He) _]; subst.
  exfalso. apply (Hfresh e Hin). congruence.
Qed.

Lemma with_label_app lbl (a b : list Column.t) :
  with_label lbl (a ++ b) = with_label lbl a ++ with_label lbl b.
Proof. unfold with_label. apply filter_app. Qed.

Lemma with_label_column_of_entry e :
  with_label (col_label e) [column_of_entry e] = [column_of_entry e].
Proof.
  unfold with_label. rewrite filter_cons. simpl.
  destruct (decide (col_label e = col_label e)); [reflexivity|congruence].
Qed.

(** Two consecutive alternatives for a label that no other entry bears,
    in the resolver: when only the tag of [e2] is in the loop and [e2] is
    not a status entry met in unmerged mode, the resolved columns hold
    exactly one column with the label, made from [e2] and paired with the
    index of the tag of [e2]; when both tags are in the loop and [e1] is not
    a status entry met in unmerged mode, they hold exactly one, made from
    [e1] and paired with the index of the tag of [e1]. *)
Lemma consecutive_alternatives_resolved loop prefix unmerged pre e1 e2 post :
  col_label e1 = col_label e2 ->
  (forall e, In e (pre ++ post) -> col_label e <> col_label e1) ->
  indices_present X loop prefix (pre ++ [e1; e2] ++ post) ->
  find_tag X loop (prefix +:+ refln_tag e2) <> -1 ->
  let chosen :=
    if find_tag X loop (prefix +:+ refln_tag e1) =? -1 then e2 else e1 in
  unmerged = false \/ col_type chosen <> "s"%char ->
  exists r cs1 cs2,
    resolve X loop prefix unmerged (pre ++ [e1; e2] ++ post) = Ok r /\
    r_columns r = cs1 ++ [column_of_entry chosen] ++ cs2 /\
    r_indices r !! length cs1 =
      Some (find_tag X loop (prefix +:+ refln_tag chosen)) /\
    with_label (col_label e1) (r_columns r) = [column_of_entry chosen].
Proof.
  intros Hlbl Hfresh Hp Hf2 chosen Hmode.
  assert (Hs : forall e, unmerged = false \/ col_type e <> "s"%char ->
                 unmerged && Ascii.eqb (col_type e) "s" = false).
  { intros e [-> | Hne]; [reflexivity|].
    apply Ascii.eqb_neq in Hne. rewrite Hne. apply andb_false_r. }
  assert (Hfresh_pre : forall e, In e pre -> col_label e <> col_label e1).
  { intros e Hin. apply Hfresh, in_or_app. auto. }
  assert (Hfresh_post : forall e, In e post -> col_label e <> col_label e1).
  { intros e Hin. apply Hfresh, in_or_app. auto. }
  assert (Hstep : forall st, back_has_label (r_columns st) (col_label e1) = false ->
            resolve_from X loop prefix unmerged st [e1; e2] =
              Ok (push_column st chosen
                    (find_tag X loop (prefix +:+ refln_tag chosen)))).
  { intros st Hb. subst chosen. simpl.
    destruct (find_tag X loop (prefix +:+ refln_tag e1) =? -1) eqn:Hf1.
    - apply Z.eqb_eq in Hf1. rewrite resolve_entry_absent; auto.
      + simpl. rewrite resolve_entry_found by assumption.
        rewrite <- Hlbl, Hb, (Hs e2 Hmode). reflexivity.
      + intros Hty. apply (Hp e1); auto. apply in_or_app. right. left. reflexivity.
    - apply Z.eqb_neq in Hf1. rewrite resolve_entry_found by assumption.
      rewrite Hb, (Hs e1 Hmode). simpl.
      rewrite resolve_entry_found by assumption. simpl.
      rewrite back_has_label_snoc. simpl. rewrite Hlbl, String.eqb_refl.
      reflexivity. }
  destruct (resolve_split loop prefix unmerged pre [e1; e2] post Hp)
    as (st & st' & r & cs2 & ixs2 & Hst & Hst' & Hr & Hc & Hi & Hlen & Hapre & Hapost).
  { intros st. destruct (resolve_from_total loop prefix unmerged [e1; e2] st); eauto.
    intros e Hin. apply Hp. apply in_or_app. right. apply in_or_app. auto. }
  rewrite Hstep in Hst' by (apply (back_has_label_fresh _ pre); assumption).
  injection Hst' as <-. simpl in Hc, Hi.
  exists r, (r_columns st), cs2. repeat split.
  - exact Hr.
  - rewrite Hc, <- app_assoc. reflexivity.
  - rewrite Hi, Hlen, <- app_assoc. apply list_lookup_middle. reflexivity.
  - rewrite Hc, !with_label_app.
    rewrite (with_label_fresh _ pre (r_columns st)),
      (with_label_fresh _ post cs2) by assumption.
    replace (col_label e1) with (col_label chosen)
      by (subst chosen; destruct (_ =? _); congruence).
    rewrite with_label_column_of_entry. reflexivity.
Qed.

(** C10 (amended). In a table that holds three consecutive entries [e1],
    [e2], [e3] whose tags are all in the loop, with [e1] and [e3] sharing a
    label that [e2] does not bear, and in which no entry of type 'H' lacks
    its tag: in merged mode, or when none of the three is a status entry,
    the resolved columns hold two columns with the shared label, with the
    column of [e2] between them and the column of [e3] as the second; the
    table resolves without error. *)
Theorem C10_separated_duplicates_both_kept loop prefix unmerged pre e1 e2 e3 post :
  col_label e1 = col_label e3 ->
  col_label e2 <> col_label e1 ->
  indices_present X loop prefix (pre ++ [e1; e2; e3] ++ post) ->
  find_tag X loop (prefix +:+ refln_tag e1) <> -1 ->
  find_tag X loop (prefix +:+ refln_tag e2) <> -1 ->
  find_tag X loop (prefix +:+ refln_tag e3) <> -1 ->
  unmerged = false \/
    (col_type e1 <> "s"%char /\ col_type e2 <> "s"%char /\ col_type e3 <> "s"%char) ->
  exists r cs1 c cs2,
    resolve X loop prefix unmerged (pre ++ [e1; e2; e3] ++ post) = Ok r /\
    r_columns r = cs1 ++ [c; column_of_entry e2; column_of_entry e3] ++ cs2 /\
    Column.label c = col_label e1 /\
    Column.label (column_of_entry e3) = col_label e1.
Proof.
  intros Hlbl Hne Hp Hf1 Hf2 Hf3 Hmode.
  assert (Hs : forall e, unmerged = false \/ col_type e <> "s"%char ->
                 unmerged && Ascii.eqb (col_type e) "s" = false).
  { intros e [-> | Hn]; [reflexivity|].
    apply Ascii.eqb_neq in Hn. rewrite Hn. apply andb_false_r. }
  assert (Hs1 := Hs e1). assert (Hs2 := Hs e2). assert (Hs3 := Hs e3).
  assert (Hstep : forall st, exists cs c,
            Column.label c = col_label e1 /\
            resolve_from X loop prefix unmerged st [e1; e2; e3] =
              Ok (push_column (push_column
                    (mkResolved (cs ++ [c])
                       (r_indices (if back_has_label (r_columns st) (col_label e1)
                                   then st
                                   else push_column st e1
                                          (find_tag X loop (prefix +:+ refln_tag e1))))
                       (uses_status (if back_has_label (r_columns st) (col_label e1)
                                   then st
                                   else push_column st e1
                                          (find_tag X loop (prefix +:+ refln_tag e1)))))
                    e2 (find_tag X loop (prefix +:+ refln_tag e2)))
                    e3 (find_tag X loop (prefix +:+ refln_tag e3)))).
  { intros st. simpl. rewrite resolve_entry_found by assumption.
    rewrite Hs1 by tauto. simpl.
    destruct (back_has_label (r_columns st) (col_label e1)) eqn:Hb.
    - apply back_has_label_true in Hb as (cs & c & Hcs & Hc).
      exists cs, c. split; [exact Hc|].
      rewrite resolve_entry_found by assumption. rewrite Hcs at 1.
      rewrite back_has_label_snoc, Hc.
      replace (String.eqb (col_label e1) (col_label e2)) with false
        by (symmetry; apply String.eqb_neq; congruence).
      rewrite Hs2 by tauto. simpl.
      rewrite resolve_entry_found by assumption. simpl.
      rewrite back_has_label_snoc. simpl.
      replace (String.eqb (col_label e2) (col_label e3)) with false
        by (symmetry; apply String.eqb_neq; congruence).
      rewrite Hs3 by tauto. rewrite <- Hcs. destruct st; reflexivity.
    - exists (r_columns st), (column_of_entry e1). split; [reflexivity|].
      rewrite resolve_entry_found by assumption. simpl.
      rewrite back_has_label_snoc. simpl.
      replace (String.eqb (col_label e1) (col_label e2)) with false
        by (symmetry; apply String.eqb_neq; congruence).
      rewrite Hs2 by tauto. simpl.
      rewrite resolve_entry_found by assumption. simpl.
      rewrite back_has_label_snoc. simpl.
      replace (String.eqb (col_label e2) (col_label e3)) with false
        by (symmetry; apply String.eqb_neq; congruence).
      rewrite Hs3 by tauto. reflexivity. }
  destruct (resolve_split loop prefix unmerged pre [e1; e2; e3] post Hp)
    as (st & st' & r & cs2 & ixs2 & Hst & Hst' & Hr & Hc & _).
  { intros st. destruct (Hstep st) as (cs & c & _ & H). eauto. }
  destruct (Hstep st) as (cs & c & Hlc & Hstep').
  rewrite Hstep' in Hst'. injection Hst' as <-. simpl in Hc.
  exists r, cs, c, cs2. repeat split.
  - exact Hr.
  - rewrite Hc, <- !app_assoc. reflexivity.
  - exact Hlc.
  - simpl. symmetry. exact Hlbl.
Qed.

(** *** The rows *)

Lemma find_index_range p l :
  find_index p l = -1 \/ 0 <= find_index p l < Z.of_nat (length l).
Proof.
  induction l as [|t l IH]; simpl; [left; reflexivity|].
  destruct (p t); [right; lia|].
  destruct (find_index p l =? -1) eqn:E; [left; reflexivity|].
  apply Z.eqb_neq in E. right. lia.
Qed.

(** The indices the resolver keeps are positions of tags of the loop. *)
Lemma resolve_from_indices_range loop prefix unmerged es :
  forall st r,
    resolve_from X loop prefix unmerged st es = Ok r ->
    Forall (fun ix => 0 <= ix < Z.of_nat (length (tags loop))) (r_indices st) ->
    Forall (fun ix => 0 <= ix < Z.of_nat (length (tags loop))) (r_indices r).
Proof.
  induction es as [|e es IH]; intros st r H Hst; simpl in H.
  - injection H as <-. exact Hst.
  - apply bind_inv_Ok in H as (st' & He & H). apply (IH _ _ H).
    unfold resolve_entry in He.
    destruct (find_tag X loop (prefix +:+ refln_tag e) =? -1) eqn:Hf; simpl in He.
    + destruct (Ascii.eqb _ _); [discriminate|]. injection He as <-. exact Hst.
    + destruct (back_has_label _ _); [injection He as <-; exact Hst|].
      destruct (unmerged && _); [injection He as <-; exact Hst|].
      injection He as <-. simpl. apply Forall_app. split; [exact Hst|].
      constructor; [|constructor]. apply Z.eqb_neq in Hf.
      unfold find_tag in *.
      destruct (find_index_range (fun t => tag_eqb X t (prefix +:+ refln_tag e))
                  (tags loop)); [contradiction|assumption].
Qed.

Lemma store_at (done todo : list float) (y x : float) :
  Z.of_nat (length done) < INT_MAX ->
  store x (done ++ y :: todo, Z.of_nat (length done)) =
    Ok ((done ++ [x]) ++ todo, Z.of_nat (length (done ++ [x]))).
Proof.
  intros Hk. unfold store.
  replace (0 <=? Z.of_nat (length done)) with true by (symmetry; apply Z.leb_le; lia).
  replace (Z.of_nat (length done) <? Z.of_nat (length (done ++ y :: todo))) with true
    by (symmetry; apply Z.ltb_lt; rewrite length_app; simpl; lia).
  replace (Z.of_nat (length done) <? INT_MAX) with true
    by (symmetry; apply Z.ltb_lt; exact Hk).
  simpl. rewrite Nat2Z.id, insert_app_r_alt by lia.
  rewrite Nat.sub_diag. simpl. rewrite <- app_assoc, length_app. simpl.
  f_equal. f_equal. lia.
Qed.

Lemma vec_get_lookup {A} (l : list A) (j : nat) (x : A) :
  l !! j = Some x -> vec_get l (Z.of_nat j) = Ok x.
Proof.
  intros H. unfold vec_get.
  replace (0 <=? Z.of_nat j) with true by (symmetry; apply Z.leb_le; lia).
  rewrite Nat2Z.id, H. reflexivity.
Qed.

Lemma source_cell_get loop (n row : nat) (ix : Z) :
  length (values loop) = (n * length (tags loop))%nat ->
  (row < n)%nat ->
  0 <= ix < Z.of_nat (length (tags loop)) ->
  vec_get (values loop) (Z.of_nat (row * length (tags loop)) + ix) =
    Ok (source_cell loop row ix).
Proof.
  intros Hv Hrow Hix. unfold vec_get, source_cell.
  replace (0 <=? _) with true by (symmetry; apply Z.leb_le; lia).
  set (p := Z.to_nat (Z.of_nat (row * length (tags loop)) + ix)).
  assert (Hp : (p < length (values loop))%nat).
  { subst p. rewrite Hv. nia. }
  destruct (lookup_lt_is_Some_2 _ _ Hp) as [v Hl].
  rewrite Hl. f_equal. symmetry. apply nth_lookup_Some with (d := EmptyString).
  exact Hl.
Qed.

Lemma read_value_at loop indices (n row j : nat) ix :
  length (values loop) = (n * length (tags loop))%nat ->
  (row < n)%nat ->
  Forall (fun ix => 0 <= ix < Z.of_nat (length (tags loop))) indices ->
  indices !! j = Some ix ->
  read_value loop indices (Z.of_nat (row * length (tags loop))) (Z.of_nat j) =
    Ok (source_cell loop row ix).
Proof.
  intros Hvalues Hrow Hrange Hj. unfold read_value. rewrite (vec_get_lookup _ _ _ Hj). simpl.
  apply (source_cell_get loop n); auto.
  rewrite Forall_lookup in Hrange. exact (Hrange j ix Hj).
Qed.

Lemma store_numbers_ok loop (n row : nat) ixs :
  length (values loop) = (n * length (tags loop))%nat ->
  (row < n)%nat ->
  forall done todo,
    Forall (fun ix => 0 <= ix < Z.of_nat (length (tags loop))) ixs ->
    (length ixs <= length todo)%nat ->
    Z.of_nat (length done) + Z.of_nat (length ixs) <= INT_MAX ->
    store_numbers X loop (Z.of_nat (row * length (tags loop))) ixs
                  (done ++ todo, Z.of_nat (length done)) =
      Ok ((done ++ map (fun ix => number_cell X (source_cell loop row ix)) ixs)
            ++ drop (length ixs) todo,
          Z.of_nat (length (done ++ map (fun ix => number_cell X (source_cell loop row ix)) ixs))).
Proof.
  intros Hvalues Hrow.
  induction ixs as [|ix ixs IH]; intros done todo Hr Hlen Hmax; simpl.
  - rewrite app_nil_r. reflexivity.
  - inversion Hr as [|? ? Hix Hr']; subst.
    destruct todo as [|y todo]; [simpl in Hlen; lia|].
    unfold store_number. rewrite (source_cell_get loop n) by assumption.
    ok. rewrite store_at by (simpl in Hmax; lia). ok.
    rewrite IH; [|assumption|simpl in Hlen; lia|rewrite length_app; simpl in *; lia].
    rewrite <- !app_assoc. reflexivity.
Qed.

Lemma convert_row_ok sg loop indices unmerged us (n row : nat) hkl done todo :
  length (values loop) = (n * length (tags loop))%nat ->
  (row < n)%nat ->
  Forall (fun ix => 0 <= ix < Z.of_nat (length (tags loop))) indices ->
  read_hkl X loop indices (Z.of_nat (row * length (tags loop))) = Ok hkl ->
  (3 <= length indices)%nat ->
  (us = true -> 4 <= length indices)%nat ->
  let cells := row_cells X sg loop indices unmerged us row in
  (length cells <= length todo)%nat ->
  Z.of_nat (length done) + Z.of_nat (length cells) <= INT_MAX ->
  convert_row X sg loop indices unmerged us (Z.of_nat (row * length (tags loop)))
              (done ++ todo, Z.of_nat (length done)) =
    Ok ((done ++ cells) ++ drop (length cells) todo,
        Z.of_nat (length (done ++ cells))).
Proof.
  intros Hvalues Hrow Hrange Hhkl H3 H4 cells Hlen Hmax.
  assert (Hh : hkl_of_row X loop indices row = hkl).
  { unfold hkl_of_row. rewrite Hhkl. reflexivity. }
  subst cells. unfold row_cells, leading_cells, trailing_cells in *.
  rewrite Hh in *. clear Hh.
  set (i := Z.of_nat (row * length (tags loop))) in *.
  destruct indices as [|i0 [|i1 [|i2 rest]]]; simpl in H3; try lia.
  pose proof (read_value_at loop _ n row 0 i0 Hvalues Hrow Hrange eq_refl) as R0.
  pose proof (read_value_at loop _ n row 1 i1 Hvalues Hrow Hrange eq_refl) as R1.
  pose proof (read_value_at loop _ n row 2 i2 Hvalues Hrow Hrange eq_refl) as R2.
  fold i in R0, R1, R2.
  change (Z.of_nat 0) with 0 in R0. change (Z.of_nat 1) with 1 in R1.
  change (Z.of_nat 2) with 2 in R2.
  unfold read_hkl in Hhkl. rewrite R0, bind_Ok in Hhkl.
  apply bind_inv_Ok in Hhkl as (h & A0 & Hhkl).
  rewrite R1, bind_Ok in Hhkl.
  apply bind_inv_Ok in Hhkl as (k & A1 & Hhkl).
  rewrite R2, bind_Ok in Hhkl.
  apply bind_inv_Ok in Hhkl as (l & A2 & Hhkl).
  injection Hhkl as <-.
  assert (Hrest : Forall (fun ix => 0 <= ix < Z.of_nat (length (tags loop))) rest).
  { do 3 (apply Forall_cons in Hrange as [_ Hrange]). exact Hrange. }
  change (drop 3 (i0 :: i1 :: i2 :: rest)) with rest in *.
  unfold convert_row.
  assert (Hlead : forall (lead : list float) (st : Res (Cursor * Z)),
    st = Ok (((done ++ lead) ++ drop (length lead) todo,
              Z.of_nat (length (done ++ lead))), 3) ->
    (length lead <= length todo)%nat ->
    forall tl, tl = (if us then
              match rest with
              | ix :: rest' =>
                  status_to_freeflag (source_cell loop row ix) ::
                  map (fun ix => number_cell X (source_cell loop row ix)) rest'
              | [] => []
              end
            else map (fun ix => number_cell X (source_cell loop row ix)) rest) ->
    (length (lead ++ tl) <= length todo)%nat ->
    Z.of_nat (length done) + Z.of_nat (length (lead ++ tl)) <= INT_MAX ->
    (st ≫= fun '(st, j) =>
      (if us then
         s ← read_value loop (i0 :: i1 :: i2 :: rest) i j;
         st ← store (status_to_freeflag s) st; Ok (st, j + 1)
       else Ok (st, j)) ≫= fun '(st, j) =>
      if Z.of_nat (length (i0 :: i1 :: i2 :: rest)) <? j then Undefined
      else store_numbers X loop i (drop (Z.to_nat j) (i0 :: i1 :: i2 :: rest)) st) =
    Ok ((done ++ lead ++ tl) ++ drop (length (lead ++ tl)) todo,
        Z.of_nat (length (done ++ lead ++ tl)))).
  { intros lead st -> Hl tl -> Hlt Hm. ok.
    rewrite length_app in Hlt, Hm.
    destruct us.
    - destruct rest as [|i3 rest']; [specialize (H4 eq_refl); simpl in H4; lia|].
      pose proof (read_value_at loop _ n row 3 i3 Hvalues Hrow Hrange eq_refl) as R3.
      fold i in R3. change (Z.of_nat 3) with 3 in R3. rewrite R3. ok.
      destruct (drop (length lead) todo) as [|y todo'] eqn:Hd.
      { apply (f_equal length) in Hd. rewrite length_drop in Hd. simpl in *. lia. }
      rewrite store_at by (rewrite length_app; simpl in *; lia). ok.
      replace (Z.of_nat (length (i0 :: i1 :: i2 :: i3 :: rest')) <? 3 + 1) with false
        by (symmetry; apply Z.ltb_ge; simpl length; lia).
      change (drop (Z.to_nat (3 + 1)) (i0 :: i1 :: i2 :: i3 :: rest')) with rest'.
      assert (Hd' : todo' = drop (S (length lead)) todo).
      { rewrite <- (Nat.add_1_r (length lead)), <- drop_drop, Hd. reflexivity. }
      subst i. rewrite (store_numbers_ok loop n row _ Hvalues Hrow).
      + rewrite <- !app_assoc. simpl. rewrite Hd', drop_drop, !length_app. simpl.
        rewrite length_map. repeat f_equal; lia.
      + apply Forall_cons in Hrest as [_ Hrest]. exact Hrest.
      + apply (f_equal length) in Hd. rewrite length_drop in Hd. simpl in *.
        rewrite length_map in *. lia.
      + rewrite !length_app. simpl in *. rewrite length_map in *. lia.
    - ok.
      replace (Z.of_nat (length (i0 :: i1 :: i2 :: rest)) <? 3) with false
        by (symmetry; apply Z.ltb_ge; simpl length; lia).
      change (drop (Z.to_nat 3) (i0 :: i1 :: i2 :: rest)) with rest.
      subst i. rewrite (store_numbers_ok loop n row _ Hvalues Hrow).
      + rewrite <- !app_assoc, drop_drop, !length_app, !length_map.
        repeat f_equal; lia.
      + exact Hrest.
      + rewrite length_drop, length_map in *. lia.
      + rewrite length_app, length_map in *. lia. }
  destruct unmerged.
  - destruct (move_to_asu X sg (h, k, l)) as [[[h' k'] l'] isym] eqn:Hmv.
    assert (Hlen' := Hlen). assert (Hmax' := Hmax).
    rewrite !length_app in Hlen', Hmax'. simpl in Hlen', Hmax'.
    destruct todo as [|t0 [|t1 [|t2 [|t3 [|t4 todo]]]]]; simpl in Hlen'; try lia.
    apply (Hlead [float_of_int h'; float_of_int k'; float_of_int l';
                  float_of_int isym; F1]); auto; [|simpl; lia].
    unfold read_hkl. rewrite R0. ok. rewrite A0. ok. rewrite R1. ok.
    rewrite A1. ok. rewrite R2. ok. rewrite A2. ok. rewrite Hmv.
    rewrite store_at by lia. ok.
    rewrite (store_at (done ++ [_])) by (rewrite length_app; simpl; lia). ok.
    rewrite (store_at ((done ++ [_]) ++ [_])) by (rewrite !length_app; simpl; lia).
    ok.
    rewrite (store_at (((done ++ [_]) ++ [_]) ++ [_]))
      by (rewrite !length_app; simpl; lia). ok.
    rewrite (store_at ((((done ++ [_]) ++ [_]) ++ [_]) ++ [_]))
      by (rewrite !length_app; simpl; lia). ok.
    rewrite <- !app_assoc. reflexivity.
  - assert (Hlen' := Hlen). assert (Hmax' := Hmax).
    rewrite !length_app in Hlen', Hmax'. simpl in Hlen', Hmax'.
    destruct todo as [|t0 [|t1 [|t2 todo]]]; simpl in Hlen'; try lia.
    apply (Hlead [float_of_int h; float_of_int k; float_of_int l]); auto;
      [|simpl; lia].
    unfold store_index. rewrite R0. ok. rewrite A0. ok.
    rewrite store_at by lia. ok. rewrite R1. ok. rewrite A1. ok.
    rewrite (store_at (done ++ [_])) by (rewrite length_app; simpl; lia). ok.
    rewrite R2. ok. rewrite A2. ok.
    rewrite (store_at ((done ++ [_]) ++ [_])) by (rewrite !length_app; simpl; lia).
    ok. rewrite <- !app_assoc. reflexivity.
Qed.

Lemma length_row_cells sg loop indices unmerged us row :
  (3 <= length indices)%nat ->
  (us = true -> 4 <= length indices)%nat ->
  length (row_cells X sg loop indices unmerged us row) = row_width indices unmerged.
Proof.
  intros H3 H4. unfold row_cells, leading_cells, trailing_cells, row_width.
  rewrite length_app.
  assert (Hd : length (drop 3 indices) = (length indices - 3)%nat)
    by apply length_drop.
  assert (Hl : length (if unmerged
                then let '(h, k, l, isym) := move_to_asu X sg (hkl_of_row X loop indices row) in
                     [float_of_int h; float_of_int k; float_of_int l; float_of_int isym; F1]
                else let '(h, k, l) := hkl_of_row X loop indices row in
                     [float_of_int h; float_of_int k; float_of_int l]) =
               ((if unmerged then 2 else 0) + 3)%nat).
  { destruct unmerged.
    - destruct (move_to_asu X sg _) as [[[? ?] ?] ?]. reflexivity.
    - destruct (hkl_of_row X loop indices row) as [[? ?] ?]. reflexivity. }
  rewrite Hl. destruct us.
  - specialize (H4 eq_refl). destruct (drop 3 indices) as [|ix rest];
      simpl in *; [lia|]. rewrite length_map. lia.
  - rewrite length_map. lia.
Qed.

(** The loop over the rows fills the matrix row after row. *)
Lemma convert_rows_ok sg loop indices unmerged us (n : nat) :
  length (values loop) = (n * length (tags loop))%nat ->
  (0 < length (tags loop))%nat ->
  Forall (fun ix => 0 <= ix < Z.of_nat (length (tags loop))) indices ->
  (3 <= length indices)%nat ->
  (us = true -> 4 <= length indices)%nat ->
  (forall row, (row < n)%nat -> exists hkl,
     read_hkl X loop indices (Z.of_nat (row * length (tags loop))) = Ok hkl) ->
  forall (c row : nat) fuel done todo,
    (row + c = n)%nat ->
    (c <= fuel)%nat ->
    length todo = (c * row_width indices unmerged)%nat ->
    Z.of_nat (length done) + Z.of_nat (c * row_width indices unmerged) <= INT_MAX ->
    convert_rows X sg loop indices unmerged us fuel
      (Z.of_nat (row * length (tags loop))) (done ++ todo, Z.of_nat (length done)) =
    Ok (done ++ concat (map (row_cells X sg loop indices unmerged us) (seq row c)),
        Z.of_nat (length (done ++
          concat (map (row_cells X sg loop indices unmerged us) (seq row c))))).
Proof.
  intros Hv HT Hr H3 H4 Hhkl.
  induction c as [|c IH]; intros row fuel done todo Hn Hfuel Htodo Hmax.
  - destruct todo; [|discriminate]. simpl. rewrite !app_nil_r.
    assert (Hi : (Z.of_nat (row * length (tags loop)) <?
                  Z.of_nat (length (values loop))) = false).
    { apply Z.ltb_ge. rewrite Hv. replace row with n by lia. lia. }
    destruct fuel; simpl; rewrite Hi; reflexivity.
  - destruct fuel as [|fuel]; [lia|].
    assert (Hi : (Z.of_nat (row * length (tags loop)) <?
                  Z.of_nat (length (values loop))) = true).
    { apply Z.ltb_lt. rewrite Hv. apply Nat2Z.inj_lt. nia. }
    simpl convert_rows. rewrite Hi.
    destruct (Hhkl row) as [hkl Hh]; [lia|].
    pose proof (length_row_cells sg loop indices unmerged us row H3 H4) as Hw.
    rewrite (convert_row_ok sg loop indices unmerged us n row hkl);
      [|assumption|lia|assumption|assumption|assumption|assumption
       |rewrite Hw, Htodo; simpl; lia|rewrite Hw; simpl in Hmax; lia].
    ok.
    replace (Z.of_nat (row * length (tags loop)) + Z.of_nat (length (tags loop)))
      with (Z.of_nat (S row * length (tags loop))) by lia.
    rewrite IH; [|lia|lia|rewrite length_drop, Hw, Htodo; simpl; lia
                 |rewrite length_app, Hw; simpl in Hmax; lia].
    simpl seq. simpl map. simpl concat. rewrite <- !app_assoc. reflexivity.
Qed.

Lemma resolve_lengths loop prefix unmerged es r :
  resolve X loop prefix unmerged es = Ok r ->
  length (r_columns r) = length (r_indices r) /\
  Forall (fun ix => 0 <= ix < Z.of_nat (length (tags loop))) (r_indices r).
Proof.
  intros H. split.
  - destruct (resolve_from_extends _ _ _ _ _ _ H) as (cs & ixs & -> & -> & Hl & _).
    simpl. exact Hl.
  - apply (resolve_from_indices_range _ _ _ _ _ _ H). constructor.
Qed.

Lemma int_cast_small z : 0 <= z <= INT_MAX -> int_cast z = z.
Proof.
  unfold int_cast, INT_MAX. intros H.
  rewrite Z.mod_small; lia.
Qed.

Lemma size_cast_small z : 0 <= z <= INT_MAX -> size_cast z = z.
Proof.
  unfold size_cast, INT_MAX. intros H. apply Z.mod_small. lia.
Qed.

(** The container of a well-formed loop of [n] rows whose index cells read
    as integers: the columns the resolver kept (with the two synthetic ones
    in unmerged mode), [n] reflections and the matrix of the rows. *)
Theorem build_mtz_ok self rb loop r (n : nat) :
  selected_loop rb = Some loop ->
  resolve X loop (loop_prefix loop) (unmerged_mode self rb) (spec_entries self) = Ok r ->
  (3 <= length (r_indices r))%nat ->
  (uses_status r = true -> 4 <= length (r_indices r))%nat ->
  (unmerged_mode self rb = true -> new_hkl_mover X (rb_spacegroup rb) = Ok ()) ->
  length (values loop) = (n * length (tags loop))%nat ->
  Z.of_nat (n * row_width (r_indices r) (unmerged_mode self rb)) <= INT_MAX ->
  (forall row, (row < n)%nat -> exists hkl,
     read_hkl X loop (r_indices r) (Z.of_nat (row * length (tags loop))) = Ok hkl) ->
  build_mtz X self rb =
    Ok (mkMtz (match title self with Some t => t | None => EmptyString end)
          (history self) (rb_cell rb) (rb_spacegroup rb)
          [mkDataset "HKL_base" None; mkDataset "unknown" (Some (rb_wavelength rb))]
          (container_columns (unmerged_mode self rb) (r_columns r))
          (if unmerged_mode self rb then [mkBatch (rb_cell rb)] else [])
          (Z.of_nat n)
          (matrix X (rb_spacegroup rb) loop (r_indices r) (unmerged_mode self rb)
             (uses_status r) n)).
Proof.
  intros Hsel Hres H3 H4 Hmv Hv Hmax Hhkl.
  destruct (resolve_lengths _ _ _ _ _ Hres) as [Hlen Hrange].
  assert (HT : (0 < length (tags loop))%nat).
  { destruct (r_indices r) as [|ix ?]; [simpl in H3; lia|].
    apply Forall_cons in Hrange as [Hix _]. lia. }
  unfold build_mtz. rewrite Hsel.
  assert (Hget : vec_get (tags loop) 0 = Ok (hd EmptyString (tags loop))).
  { destruct (tags loop); [simpl in HT; lia|reflexivity]. }
  rewrite Hget. ok. fold (loop_prefix loop). rewrite Hres. ok.
  set (u := unmerged_mode self rb) in *.
  set (cols := if u then take 3 (r_columns r) ++ isym_column :: batch_column
                                 :: drop 3 (r_columns r)
               else r_columns r).
  assert (Hcols : (if u then unmerged_setup X (rb_spacegroup rb) (r_columns r)
                   else Ok (r_columns r)) = Ok cols).
  { subst cols. destruct u; [|reflexivity].
    unfold unmerged_setup. rewrite add_unmerged_columns_Ok by lia. ok.
    rewrite Hmv by reflexivity. reflexivity. }
  rewrite Hcols. ok.
  assert (Hw : length (set_idx cols) = row_width (r_indices r) u).
  { rewrite length_set_idx. subst cols. unfold row_width. destruct u; [|lia].
    rewrite length_app. simpl. rewrite length_take, length_drop. lia. }
  assert (Hn : loop_length loop = Z.of_nat n).
  { unfold loop_length. rewrite Hv, Nat2Z.inj_mul. apply Z.div_mul. lia. }
  assert (Hwpos : (3 <= row_width (r_indices r) u)%nat).
  { unfold row_width. lia. }
  assert (Hnmax : 0 <= Z.of_nat n <= INT_MAX) by nia.
  rewrite Hn, Hw, (int_cast_small _ Hnmax), (size_cast_small _ Hnmax).
  rewrite size_cast_small by lia.
  replace (Z.to_nat (Z.of_nat (row_width (r_indices r) u) * Z.of_nat n))
    with (n * row_width (r_indices r) u)%nat by lia.
  pose proof (convert_rows_ok (rb_spacegroup rb) loop (r_indices r) u (uses_status r)
                n Hv HT Hrange H3 H4 Hhkl n 0%nat (length (values loop)) []
                (replicate (n * row_width (r_indices r) u) F0)) as Hrows.
  cbn [app length Nat.mul Nat.add] in Hrows. change (Z.of_nat 0) with 0 in Hrows.
  rewrite Hrows.
  - ok. reflexivity.
  - reflexivity.
  - rewrite Hv. nia.
  - apply length_replicate.
  - lia.
Qed.

(** *** Integers as cells *)







(** *** Rows of the matrix *)

Lemma concat_rows_lookup {A} (f : nat -> list A) (w n row j : nat) :
  (forall r, length (f r) = w) ->
  (row < n)%nat -> (j < w)%nat ->
  concat (map f (seq 0 n)) !! (row * w + j)%nat = f row !! j.
Proof.
  intros Hw Hrow Hj.
  assert (Hlen : forall a c, length (concat (map f (seq a c))) = (c * w)%nat).
  { intros a c. revert a. induction c as [|c IH]; intros a; simpl; [reflexivity|].
    rewrite length_app, Hw, IH. reflexivity. }
  replace n with (row + S (n - row - 1))%nat by lia.
  rewrite seq_app, map_app, concat_app. simpl.
  rewrite lookup_app_r; rewrite Hlen; [|lia].
  replace (row * w + j - row * w)%nat with j by lia.
  apply lookup_app_l. rewrite Hw. exact Hj.
Qed.

Lemma length_matrix sg loop indices unmerged us n :
  (3 <= length indices)%nat ->
  (us = true -> 4 <= length indices)%nat ->
  length (matrix X sg loop indices unmerged us n) =
    (n * row_width indices unmerged)%nat.
Proof.
  intros H3 H4. unfold matrix. generalize 0%nat.
  induction n as [|n IH]; intros a; simpl; [reflexivity|].
  rewrite length_app, IH, length_row_cells by assumption. reflexivity.
Qed.

(** In unmerged mode no status column is resolved. *)
Lemma resolve_from_unmerged_no_status loop prefix es :
  forall st r,
    resolve_from X loop prefix true st es = Ok r ->
    uses_status st = false -> uses_status r = false.
Proof.
  induction es as [|e es IH]; intros st r H Hst; simpl in H.
  - injection H as <-. exact Hst.
  - apply bind_inv_Ok in H as (st' & He & H). apply (IH _ _ H).
    unfold resolve_entry in He. destruct (negb _).
    + destruct (back_has_label _ _); [injection He as <-; exact Hst|].
      destruct (Ascii.eqb (col_type e) "s") eqn:Hs; simpl in He.
      * injection He as <-; exact Hst.
      * injection He as <-. unfold push_column. simpl. rewrite Hs. exact Hst.
    + destruct (Ascii.eqb _ _); [discriminate|]. injection He as <-. exact Hst.
Qed.

(** A table that starts with three entries of type 'H' with different
    neighbouring labels resolves, if at all, to their three columns first,
    paired with the indices of their tags. *)
Lemma resolve_index_entries_first loop prefix unmerged eh ek el rest r :
  resolve X loop prefix unmerged (eh :: ek :: el :: rest) = Ok r ->
  col_type eh = "H"%char -> col_type ek = "H"%char -> col_type el = "H"%char ->
  col_label eh <> col_label ek -> col_label ek <> col_label el ->
  exists cs ixs,
    r_columns r =
      column_of_entry eh :: column_of_entry ek :: column_of_entry el :: cs /\
    r_indices r =
      find_tag X loop (prefix +:+ refln_tag eh) ::
      find_tag X loop (prefix +:+ refln_tag ek) ::
      find_tag X loop (prefix +:+ refln_tag el) :: ixs.
Proof.
  intros Hres Th Tk Tl Lhk Lkl. unfold resolve in Hres.
  assert (Hfound : forall st e, col_type e = "H"%char ->
            forall st', resolve_entry X loop prefix unmerged st e = Ok st' ->
            st' = if back_has_label (r_columns st) (col_label e) then st
                  else push_column st e (find_tag X loop (prefix +:+ refln_tag e))).
  { intros st e Te st' He.
    destruct (resolve_entry_outcome loop prefix unmerged st e)
      as [_|(_ & _ & Hthrow)]; [|congruence].
    unfold resolve_entry in He. rewrite Te in He.
    destruct (negb _); [|discriminate].
    destruct (back_has_label _ _); [congruence|].
    rewrite andb_false_r in He. congruence. }
  simpl in Hres.
  apply bind_inv_Ok in Hres as (s1 & H1 & Hres).
  apply bind_inv_Ok in Hres as (s2 & H2 & Hres).
  apply bind_inv_Ok in Hres as (s3 & H3 & Hres).
  apply (Hfound _ _ Th) in H1. simpl in H1. subst s1.
  apply (Hfound _ _ Tk) in H2. unfold push_column at 1 in H2.
  cbn [r_columns] in H2. rewrite back_has_label_snoc in H2. simpl in H2.
  replace (String.eqb (col_label eh) (col_label ek)) with false in H2
    by (symmetry; apply String.eqb_neq; exact Lhk).
  subst s2.
  apply (Hfound _ _ Tl) in H3. unfold push_column at 1 in H3.
  cbn [r_columns] in H3. rewrite back_has_label_snoc in H3. simpl in H3.
  replace (String.eqb (col_label ek) (col_label el)) with false in H3
    by (symmetry; apply String.eqb_neq; exact Lkl).
  subst s3.
  destruct (resolve_from_extends _ _ _ _ _ _ Hres) as (cs & ixs & Hc & Hi & _).
  exists cs, ixs. rewrite Hc, Hi. split; reflexivity.
Qed.

Lemma matrix_row sg loop indices unmerged us (n row j : nat) :
  (3 <= length indices)%nat ->
  (us = true -> 4 <= length indices)%nat ->
  (row < n)%nat -> (j < row_width indices unmerged)%nat ->
  matrix X sg loop indices unmerged us n !! (row * row_width indices unmerged + j)%nat =
    row_cells X sg loop indices unmerged us row !! j.
Proof.
  intros H3 H4 Hrow Hj. unfold matrix. apply concat_rows_lookup; auto.
  intros r. apply length_row_cells; assumption.
Qed.

(** The triple [read_hkl] gives for a row: the integers [as_int] reads
    from the cells of the row under the first three indices. *)
Lemma read_hkl_source_cells loop indices (n row : nat) h k l :
  length (values loop) = (n * length (tags loop))%nat ->
  (row < n)%nat ->
  Forall (fun ix => 0 <= ix < Z.of_nat (length (tags loop))) indices ->
  read_hkl X loop indices (Z.of_nat (row * length (tags loop))) = Ok (h, k, l) ->
  exists i0 i1 i2,
    take 3 indices = [i0; i1; i2] /\
    as_int X (source_cell loop row i0) = Ok h /\
    as_int X (source_cell loop row i1) = Ok k /\
    as_int X (source_cell loop row i2) = Ok l.
Proof.
  intros HV Hrow Hrange Hread. unfold read_hkl in Hread.
  apply bind_inv_Ok in Hread as (s0 & R0 & Hread).
  apply bind_inv_Ok in Hread as (h' & A0 & Hread).
  apply bind_inv_Ok in Hread as (s1 & R1 & Hread).
  apply bind_inv_Ok in Hread as (k' & A1 & Hread).
  apply bind_inv_Ok in Hread as (s2 & R2 & Hread).
  apply bind_inv_Ok in Hread as (l' & A2 & Hread).
  injection Hread as -> -> ->.
  destruct indices as [|i0 [|i1 [|i2 rest]]]; try discriminate.
  exists i0, i1, i2. split; [reflexivity|].
  pose proof (read_value_at loop _ n row 0 i0 HV Hrow Hrange eq_refl) as V0.
  pose proof (read_value_at loop _ n row 1 i1 HV Hrow Hrange eq_refl) as V1.
  pose proof (read_value_at loop _ n row 2 i2 HV Hrow Hrange eq_refl) as V2.
  change (Z.of_nat 0) with 0 in V0. change (Z.of_nat 1) with 1 in V1.
  change (Z.of_nat 2) with 2 in V2.
  rewrite V0 in R0. rewrite V1 in R1. rewrite V2 in R2.
  injection R0 as <-. injection R1 as <-. injection R2 as <-. auto.
Qed.

(** C2 (amended). Let a block be converted in unmerged mode, its loop be
    well formed with [n] rows (as many values as [n] times the tags), the
    resolver keep [m] columns, at least three, the mover of the space group
    be made, the cells of every row under the first three resolved columns
    read as integers, and [n * (m + 2)] be in the range of the [int]
    counter of the cells. Then the conversion builds a container, the one
    the writer is handed, with [m + 2] columns: M/ISYM (type Y, dataset 1)
    at index 3 and BATCH (type B, dataset 1) at index 4, after the first
    three resolved columns and before the others; it has one batch record,
    [n] reflections and [n * (m + 2)] cells, and each row of its matrix
    starts with the triple that the symmetry reduction gives for the
    integers read from the cells of the row under the first three resolved
    columns, the isym the reduction returned, and the batch number 1. The
    first three resolved columns are those of the Miller indices when the
    table starts with their three entries (type 'H', different
    neighbouring labels), as the default table does: then the first three
    columns of the container are theirs and the integers moved are those
    read under their tags. For another table they are whatever its first
    three resolved entries are. *)
Theorem C2_unmerged_container self rb loop r (n m : nat) :
  selected_loop rb = Some loop ->
  unmerged_mode self rb = true ->
  resolve X loop (loop_prefix loop) true (spec_entries self) = Ok r ->
  length (r_columns r) = m ->
  (3 <= m)%nat ->
  new_hkl_mover X (rb_spacegroup rb) = Ok () ->
  length (values loop) = (n * length (tags loop))%nat ->
  Z.of_nat (n * (m + 2)) <= INT_MAX ->
  (forall row, (row < n)%nat -> exists hkl,
     read_hkl X loop (r_indices r) (Z.of_nat (row * length (tags loop))) = Ok hkl) ->
  exists mtz,
    build_mtz X self rb = Ok mtz /\
    (forall path w, write_to_file X mtz path = Ok () ->
       convert_block_to_mtz X self rb path w = (Ok (), w ++ [(path, mtz)])) /\
    length (columns mtz) = (m + 2)%nat /\
    columns mtz !! 3%nat = Some (Column.mk 1 "Y" "M/ISYM" 3) /\
    columns mtz !! 4%nat = Some (Column.mk 1 "B" "BATCH" 4) /\
    (forall j c, r_columns r !! j = Some c ->
       columns mtz !! (if (j <? 3)%nat then j else j + 2)%nat =
         Some (Column.mk (Column.dataset_id c) (Column.type c) (Column.label c)
                 (Z.of_nat (if (j <? 3)%nat then j else j + 2)%nat))) /\
    (forall eh ek el rest,
       spec_entries self = eh :: ek :: el :: rest ->
       col_type eh = "H"%char -> col_type ek = "H"%char -> col_type el = "H"%char ->
       col_label eh <> col_label ek -> col_label ek <> col_label el ->
       take 3 (columns mtz) =
         [Column.mk (dataset_id eh) "H" (col_label eh) 0;
          Column.mk (dataset_id ek) "H" (col_label ek) 1;
          Column.mk (dataset_id el) "H" (col_label el) 2] /\
       take 3 (r_indices r) =
         [find_tag X loop (loop_prefix loop +:+ refln_tag eh);
          find_tag X loop (loop_prefix loop +:+ refln_tag ek);
          find_tag X loop (loop_prefix loop +:+ refln_tag el)]) /\
    length (batches mtz) = 1%nat /\
    nreflections mtz = Z.of_nat n /\
    length (data mtz) = (n * (m + 2))%nat /\
    (forall row hkl, (row < n)%nat ->
       read_hkl X loop (r_indices r) (Z.of_nat (row * length (tags loop))) = Ok hkl ->
       let '((h, k, l), isym) := move_to_asu X (rb_spacegroup rb) hkl in
       take 5 (drop (row * (m + 2)) (data mtz)) =
         [float_of_int h; float_of_int k; float_of_int l; float_of_int isym; F1]) /\
    (forall row, (row < n)%nat ->
       exists i0 i1 i2 h0 k0 l0,
         take 3 (r_indices r) = [i0; i1; i2] /\
         as_int X (source_cell loop row i0) = Ok h0 /\
         as_int X (source_cell loop row i1) = Ok k0 /\
         as_int X (source_cell loop row i2) = Ok l0 /\
         let '((h, k, l), isym) := move_to_asu X (rb_spacegroup rb) (h0, k0, l0) in
         take 5 (drop (row * (m + 2)) (data mtz)) =
           [float_of_int h; float_of_int k; float_of_int l; float_of_int isym; F1]).
Proof.
  intros Hsel Hu Hres Hm H3 Hmover Hv Hmax Hhkl.
  destruct (resolve_lengths _ _ _ _ _ Hres) as [Hlen Hrange].
  assert (Hus : uses_status r = false).
  { apply (resolve_from_unmerged_no_status _ _ _ _ _ Hres). reflexivity. }
  assert (H3' : (3 <= length (r_indices r))%nat) by lia.
  assert (H4' : (uses_status r = true -> 4 <= length (r_indices r))%nat).
  { rewrite Hus. discriminate. }
  assert (Hw : row_width (r_indices r) true = (m + 2)%nat).
  { unfold row_width. lia. }
  pose proof (build_mtz_ok self rb loop r n Hsel) as Hb.
  rewrite Hu in Hb. specialize (Hb Hres H3' H4' (fun _ => Hmover) Hv).
  rewrite Hw in Hb. specialize (Hb Hmax Hhkl).
  eexists. split; [exact Hb|]. cbn [columns batches nreflections data].
  assert (Hfirst : forall eh ek el rest,
    spec_entries self = eh :: ek :: el :: rest ->
    col_type eh = "H"%char -> col_type ek = "H"%char -> col_type el = "H"%char ->
    col_label eh <> col_label ek -> col_label ek <> col_label el ->
    take 3 (container_columns true (r_columns r)) =
      [Column.mk (dataset_id eh) "H" (col_label eh) 0;
       Column.mk (dataset_id ek) "H" (col_label ek) 1;
       Column.mk (dataset_id el) "H" (col_label el) 2] /\
    take 3 (r_indices r) =
      [find_tag X loop (loop_prefix loop +:+ refln_tag eh);
       find_tag X loop (loop_prefix loop +:+ refln_tag ek);
       find_tag X loop (loop_prefix loop +:+ refln_tag el)]).
  { intros eh ek el rest Hspec Th Tk Tl Lhk Lkl. rewrite Hspec in Hres.
    destruct (resolve_index_entries_first _ _ _ _ _ _ _ _ Hres Th Tk Tl Lhk Lkl)
      as (cs & ixs & Hc & Hi).
    rewrite Hc, Hi. unfold column_of_entry. rewrite Th, Tk, Tl.
    split; reflexivity. }
  assert (Hrows : forall row hkl, (row < n)%nat ->
    read_hkl X loop (r_indices r) (Z.of_nat (row * length (tags loop))) = Ok hkl ->
    let '((h, k, l), isym) := move_to_asu X (rb_spacegroup rb) hkl in
    take 5 (drop (row * (m + 2))
              (matrix X (rb_spacegroup rb) loop (r_indices r) true (uses_status r) n)) =
      [float_of_int h; float_of_int k; float_of_int l; float_of_int isym; F1]).
  { intros row hkl Hrow Hh.
    destruct (move_to_asu X (rb_spacegroup rb) hkl) as [[[h k] l] isym] eqn:Hmv.
    assert (Hcells : exists tl,
      row_cells X (rb_spacegroup rb) loop (r_indices r) true (uses_status r) row =
      [float_of_int h; float_of_int k; float_of_int l; float_of_int isym; F1] ++ tl).
    { unfold row_cells, leading_cells, hkl_of_row. rewrite Hh, Hmv. eauto. }
    destruct Hcells as [tl Hcells].
    apply list_eq. intros j.
    destruct (decide (j < 5)%nat) as [Hj|Hj].
    + rewrite lookup_take_lt, lookup_drop by exact Hj.
      rewrite <- Hw, matrix_row, Hcells by (assumption || lia).
      apply lookup_app_l. simpl. exact Hj.
    + rewrite lookup_take_ge by lia. symmetry. apply lookup_ge_None_2. simpl. lia. }
  assert (Hcells : forall row, (row < n)%nat ->
    exists i0 i1 i2 h0 k0 l0,
      take 3 (r_indices r) = [i0; i1; i2] /\
      as_int X (source_cell loop row i0) = Ok h0 /\
      as_int X (source_cell loop row i1) = Ok k0 /\
      as_int X (source_cell loop row i2) = Ok l0 /\
      let '((h, k, l), isym) := move_to_asu X (rb_spacegroup rb) (h0, k0, l0) in
      take 5 (drop (row * (m + 2))
                (matrix X (rb_spacegroup rb) loop (r_indices r) true (uses_status r) n)) =
        [float_of_int h; float_of_int k; float_of_int l; float_of_int isym; F1]).
  { intros row Hrow. destruct (Hhkl row Hrow) as [[[h0 k0] l0] Hh].
    destruct (read_hkl_source_cells loop (r_indices r) n row h0 k0 l0 Hv Hrow Hrange Hh)
      as (i0 & i1 & i2 & Ht & A0 & A1 & A2).
    exists i0, i1, i2, h0, k0, l0.
    split; [exact Ht|]. split; [exact A0|]. split; [exact A1|]. split; [exact A2|].
    exact (Hrows row (h0, k0, l0) Hrow Hh). }
  destruct (r_columns r) as [|c0 [|c1 [|c2 rest]]] eqn:Hrc; simpl in Hm; try lia.
  split.
  { intros path w Hwr. unfold convert_block_to_mtz. rewrite Hb, Hwr. reflexivity. }
  split.
  { unfold container_columns. rewrite length_set_idx. simpl. rewrite drop_0. lia. }
  split; [reflexivity|]. split; [reflexivity|].
  split.
  { intros j c Hj. unfold container_columns. rewrite lookup_set_idx.
    change (drop 3 (c0 :: c1 :: c2 :: rest)) with rest.
    destruct j as [|[|[|j]]]; simpl in Hj |- *;
      try (injection Hj as <-; reflexivity).
    replace (j + 2)%nat with (S (S j)) by lia. simpl. rewrite Hj. reflexivity. }
  split; [exact Hfirst|].
  split; [reflexivity|]. split; [reflexivity|].
  split; [rewrite length_matrix, Hw by assumption; reflexivity|].
  split; [exact Hrows|exact Hcells].
Qed.

Lemma length_leading_cells sg loop indices unmerged row :
  length (leading_cells X sg loop indices unmerged row) =
    ((if unmerged then 2 else 0) + 3)%nat.
Proof.
  unfold leading_cells. destruct unmerged.
  - destruct (move_to_asu X sg _) as [[[? ?] ?] ?]. reflexivity.
  - destruct (hkl_of_row X loop indices row) as [[? ?] ?]. reflexivity.
Qed.


(** The cell after the leading ones that belongs to the resolved index of
    position [j]: the flag of the status when a status entry was resolved
    and [j] is 3, the number otherwise. *)
Lemma trailing_cells_lookup loop indices us row (j : nat) ix :
  (3 <= j)%nat ->
  (us = true -> 4 <= length indices)%nat ->
  indices !! j = Some ix ->
  trailing_cells X loop indices us row !! (j - 3)%nat =
    Some (if us && (j =? 3)%nat then status_to_freeflag (source_cell loop row ix)
          else number_cell X (source_cell loop row ix)).
Proof.
  intros Hj H4 Hix. unfold trailing_cells.
  assert (Hd : drop 3 indices !! (j - 3)%nat = Some ix).
  { rewrite lookup_drop. replace (3 + (j - 3))%nat with j by lia. exact Hix. }
  destruct us; simpl.
  - destruct (drop 3 indices) as [|ix0 rest] eqn:Hdrop.
    { apply (f_equal length) in Hdrop. rewrite length_drop in Hdrop.
      specialize (H4 eq_refl). simpl in Hdrop. lia. }
    destruct (j =? 3)%nat eqn:Hj3.
    + apply Nat.eqb_eq in Hj3. subst j. simpl in Hd |- *. congruence.
    + apply Nat.eqb_neq in Hj3.
      destruct (j - 3)%nat as [|q] eqn:Hq; [lia|]. simpl in Hd |- *.
      rewrite list_lookup_fmap, Hd. reflexivity.
  - rewrite list_lookup_fmap, Hd. reflexivity.
Qed.


(** *** The default table on the amplitudes scenario *)

Lemma find_index_ext (p q : string -> bool) l :
  (forall t, In t l -> p t = q t) -> find_index p l = find_index q l.
Proof.
  induction l as [|t l IH]; intros H; simpl; [reflexivity|].
  rewrite (H t) by (left; reflexivity).
  rewrite IH by (intros t' Hin; apply H; right; exact Hin). reflexivity.
Qed.

(** The resolver depends on the routines only through the lookups of the
    qualified tags of the table. *)
Lemma resolve_from_ext (X' : Externals UnitCell SpaceGroup) loop prefix unmerged es :
  (forall e, In e es ->
     find_tag X loop (prefix +:+ refln_tag e) =
     find_tag X' loop (prefix +:+ refln_tag e)) ->
  forall st,
    resolve_from X loop prefix unmerged st es =
    resolve_from X' loop prefix unmerged st es.
Proof.
  induction es as [|e es IH]; intros H st; simpl; [reflexivity|].
  unfold resolve_entry. rewrite (H e) by (left; reflexivity).
  destruct (negb _).
  - destruct (back_has_label _ _); [apply IH; auto with datatypes|].
    destruct (unmerged && _); simpl; apply IH; auto with datatypes.
  - destruct (Ascii.eqb _ _); [reflexivity|]. simpl. apply IH. auto with datatypes.
Qed.

(** C1. With the default table, a block whose merged loop has the tags
    index_h, index_k, index_l, F_meas_au, F_meas_sigma_au (of category
    _refln) and the one row 1, 2, 3, 100.0, 5.0 gives, when the flag for
    unmerged output is not set and the library routines read these tags and
    values as written (the tag comparison is equality on them, as_int reads
    the three indices, neither of the two other values is null, and
    as_number reads them as 100 and 5), the container with exactly the
    columns H, K, L, FP, SIGFP of types H, H, H, F, Q, one reflection, and
    the matrix 1, 2, 3, 100, 5; this container is what is written. *)
Theorem C1_default_spec_amplitudes self rb :
  spec_entries self = default_entries ->
  force_unmerged self = false ->
  refln_loop rb = Some Scenario.fp_loop ->
  (forall e t, In e default_entries -> In t (tags Scenario.fp_loop) ->
     tag_eqb X t ("_refln." +:+ refln_tag e) =
     String.eqb t ("_refln." +:+ refln_tag e)) ->
  as_int X "1" = Ok 1 -> as_int X "2" = Ok 2 -> as_int X "3" = Ok 3 ->
  is_null X "100.0" = false -> is_null X "5.0" = false ->
  as_number X "100.0" = float_of_int 100 ->
  as_number X "5.0" = float_of_int 5 ->
  exists mtz,
    build_mtz X self rb = Ok mtz /\
    (forall path w, write_to_file X mtz path = Ok () ->
       convert_block_to_mtz X self rb path w = (Ok (), w ++ [(path, mtz)])) /\
    columns mtz =
      [Column.mk 0 "H" "H" 0; Column.mk 0 "H" "K" 1; Column.mk 0 "H" "L" 2;
       Column.mk 1 "F" "FP" 3; Column.mk 1 "Q" "SIGFP" 4] /\
    nreflections mtz = 1 /\
    data mtz = map float_of_int [1; 2; 3; 100; 5].
Proof.
  intros Hspec Hforce Hloop Htag A1 A2 A3 N1 N2 V1 V2.
  assert (Hsel : selected_loop rb = Some Scenario.fp_loop).
  { unfold selected_loop. rewrite Hloop. reflexivity. }
  assert (Hu : unmerged_mode self rb = false).
  { unfold unmerged_mode. rewrite Hforce, Hloop. reflexivity. }
  set (X' := mkExternals String.eqb (is_null X) (as_int X) (as_number X)
               (new_hkl_mover X) (move_to_asu X) (write_to_file X)).
  set (r0 := mkResolved
                [Column.mk 0 "H" "H" 0; Column.mk 0 "H" "K" 0;
                 Column.mk 0 "H" "L" 0; Column.mk 1 "F" "FP" 0;
                 Column.mk 1 "Q" "SIGFP" 0]
                [0; 1; 2; 3; 4] false).
  assert (Hres : resolve X Scenario.fp_loop (loop_prefix Scenario.fp_loop) false
                   default_entries = Ok r0).
  { unfold resolve. rewrite (resolve_from_ext X').
    - vm_compute. reflexivity.
    - intros e Hin. unfold find_tag. apply find_index_ext. intros t Ht.
      simpl tag_eqb.
      change (loop_prefix Scenario.fp_loop) with "_refln.".
      apply Htag; assumption. }
  rewrite <- Hspec in Hres at 1.
  assert (Hh : read_hkl X Scenario.fp_loop (r_indices r0)
                 (Z.of_nat (0 * length (tags Scenario.fp_loop))) = Ok (1, 2, 3)).
  { unfold read_hkl.
    replace (read_value Scenario.fp_loop (r_indices r0)
               (Z.of_nat (0 * length (tags Scenario.fp_loop))) 0)
      with (@Ok string "1") by reflexivity.
    replace (read_value Scenario.fp_loop (r_indices r0)
               (Z.of_nat (0 * length (tags Scenario.fp_loop))) 1)
      with (@Ok string "2") by reflexivity.
    replace (read_value Scenario.fp_loop (r_indices r0)
               (Z.of_nat (0 * length (tags Scenario.fp_loop))) 2)
      with (@Ok string "3") by reflexivity.
    ok. rewrite A1. ok. rewrite A2. ok. rewrite A3. reflexivity. }
  pose proof (build_mtz_ok self rb Scenario.fp_loop r0 1 Hsel) as Hb.
  rewrite Hu in Hb. specialize (Hb Hres).
  assert (Hb' := Hb ltac:(simpl; lia) ltac:(discriminate) ltac:(discriminate)
                    eq_refl ltac:(vm_compute; discriminate)
                    ltac:(intros row Hrow; assert (row = 0%nat) as -> by lia; eauto)).
  clear Hb. eexists. split; [exact Hb'|]. split.
  - intros path w Hw. unfold convert_block_to_mtz. rewrite Hb', Hw. reflexivity.
  - cbn [columns nreflections data]. repeat split.
    unfold matrix. cbn [seq map concat]. rewrite app_nil_r.
    unfold row_cells, leading_cells, hkl_of_row. rewrite Hh.
    unfold trailing_cells. cbn [uses_status r0].
    change (drop 3 (r_indices r0)) with [3; 4]. cbn [map].
    change (source_cell Scenario.fp_loop 0 3) with "100.0".
    change (source_cell Scenario.fp_loop 0 4) with "5.0".
    unfold number_cell. rewrite N1, N2, V1, V2. reflexivity.
Qed.

(** *** The loop over the blocks *)

Lemma convert_all_blocks_app self dir pre post ok w :
  convert_all_blocks X self dir (pre ++ post) ok w =
  match convert_all_blocks X self dir pre ok w with
  | (Ok ok', w') => convert_all_blocks X self dir post ok' w'
  | other => other
  end.
Proof.
  revert ok w. induction pre as [|rb pre IH]; intros ok w; simpl; [reflexivity|].
  destruct (convert_block_to_mtz X self rb (block_path dir rb) w) as [[[]|[]| |] w'];
    auto.
Qed.

(** C9 (amended). With [--dir], when the loop over the blocks has reached a
    block whose container is built and whose file the writer fails to write
    with a std::runtime_error, the process ends at once with status 3: the
    files are those written for the blocks before it, and no later block is
    converted. A std::runtime_error of the conversion itself is what stops
    one block only: the loop goes on with the next block with [ok] false,
    and a loop that ends with [ok] false makes the run return 1. Without
    [--dir] the failure of the writer ends the process with status 3 as
    well. *)
Theorem C9_write_failure_ends_the_run self opts dir pre rb post mtz what ok w w' :
  opt_dir opts = Some dir ->
  convert_all_blocks X self dir pre true w = (Ok ok, w') ->
  build_mtz X self rb = Ok mtz ->
  write_to_file X mtz (block_path dir rb) = Throw (RuntimeError what) ->
  main_convert X self opts (pre ++ rb :: post) w = (Exit 3, w') /\
  (forall rb' rest what' ok0 w0,
     build_mtz X self rb' = Throw (RuntimeError what') ->
     convert_all_blocks X self dir (rb' :: rest) ok0 w0 =
     convert_all_blocks X self dir rest false w0) /\
  (forall blocks w0 w1,
     convert_all_blocks X self dir blocks true w0 = (Ok false, w1) ->
     main_convert X self opts blocks w0 = (Ok 1, w1)) /\
  (forall opts' rest path w0,
     opt_dir opts' = None -> opt_block opts' = None -> opt_mtz_path opts' = path ->
     write_to_file X mtz path = Throw (RuntimeError what) ->
     main_convert X self opts' (rb :: rest) w0 = (Exit 3, w0)).
Proof.
  intros Hdir Hpre Hb Hw. repeat split.
  - unfold main_convert. rewrite Hdir, convert_all_blocks_app, Hpre. simpl.
    unfold convert_block_to_mtz. rewrite Hb, Hw. reflexivity.
  - intros rb' rest what' ok0 w0 Hb'. simpl.
    unfold convert_block_to_mtz. rewrite Hb'. reflexivity.
  - intros blocks w0 w1 H. unfold main_convert. rewrite Hdir, H. reflexivity.
  - intros opts' rest path w0 Hd Hn Hp Hw'. unfold main_convert.
    rewrite Hd, Hn, Hp. unfold convert_block_to_mtz. rewrite Hb, Hw'. reflexivity.
Qed.

(** *** What a built container tells about the first row *)



(** Where the flag encoding is applied. When a status entry was resolved
    (in merged mode: in unmerged mode none is), the cell of the resolved
    position 3 of every row is the flag of its source cell, and the cell of
    every later resolved position is the number of its source cell,
    whichever of the resolved columns came from the status entry. *)
Theorem status_encoding_position self rb loop r (n : nat) :
  selected_loop rb = Some loop ->
  unmerged_mode self rb = false ->
  resolve X loop (loop_prefix loop) false (spec_entries self) = Ok r ->
  uses_status r = true ->
  (4 <= length (r_indices r))%nat ->
  length (values loop) = (n * length (tags loop))%nat ->
  Z.of_nat (n * length (r_indices r)) <= INT_MAX ->
  (forall row, (row < n)%nat -> exists hkl,
     read_hkl X loop (r_indices r) (Z.of_nat (row * length (tags loop))) = Ok hkl) ->
  exists mtz,
    build_mtz X self rb = Ok mtz /\
    forall (row j : nat) ix,
      (row < n)%nat -> (3 <= j)%nat ->
      r_indices r !! j = Some ix ->
      data mtz !! (row * length (r_indices r) + j)%nat =
        Some (if (j =? 3)%nat then status_to_freeflag (source_cell loop row ix)
              else number_cell X (source_cell loop row ix)).
Proof.
  intros Hsel Hu Hres Hus H4 Hv Hmax Hhkl.
  pose proof (build_mtz_ok self rb loop r n Hsel) as Hb.
  rewrite Hu in Hb.
  assert (Hw : row_width (r_indices r) false = length (r_indices r)) by reflexivity.
  specialize (Hb Hres ltac:(lia) (fun _ => H4) ltac:(discriminate) Hv).
  rewrite Hw in Hb. specialize (Hb Hmax Hhkl).
  eexists. split; [exact Hb|]. cbn [data].
  intros row j ix Hrow Hj Hix.
  assert (Hjlt : (j < length (r_indices r))%nat)
    by (eapply lookup_lt_Some; exact Hix).
  rewrite <- Hw, matrix_row; [|lia|auto|assumption|rewrite Hw; assumption].
  unfold row_cells.
  rewrite lookup_app_r; rewrite length_leading_cells; [|simpl; lia].
  replace (j - (0 + 3))%nat with (j - 3)%nat by lia.
  rewrite (trailing_cells_lookup loop _ _ row j ix Hj (fun _ => H4) Hix).
  rewrite Hus. reflexivity.
Qed.

(** *** Consecutive alternatives in the container *)

Lemma with_label_reindex_nil lbl (g : nat -> Column.t -> Column.t) cols :
  (forall i c, Column.label (g i c) = Column.label c) ->
  with_label lbl cols = [] ->
  with_label lbl (imap g cols) = [].
Proof.
  revert g. induction cols as [|x l IH]; intros g Hg H; [reflexivity|].
  unfold with_label in *. simpl imap. rewrite filter_cons in H |- *.
  rewrite Hg.
  destruct (decide (Column.label x = lbl)); [discriminate|].
  apply IH; [|exact H]. intros i c. apply Hg.
Qed.

(** The one column of a list with a label, once the positions are
    assigned. *)
Lemma with_label_reindex_one lbl cols :
  forall (k : nat) c,
    with_label lbl cols = [c] ->
    exists i : nat,
      cols !! i = Some c /\
      with_label lbl
        (imap (fun j x => Column.mk (Column.dataset_id x) (Column.type x)
                            (Column.label x) (Z.of_nat (k + j))) cols) =
        [Column.mk (Column.dataset_id c) (Column.type c) (Column.label c)
           (Z.of_nat (k + i))].
Proof.
  induction cols as [|x l IH]; intros k c H; [discriminate|].
  unfold with_label in H. rewrite filter_cons in H.
  destruct (decide (Column.label x = lbl)) as [Hx|Hx].
  - injection H as -> Hl. exists 0%nat. split; [reflexivity|].
    unfold with_label. simpl imap. rewrite filter_cons. simpl.
    destruct (decide (Column.label c = lbl)); [|contradiction].
    f_equal. apply with_label_reindex_nil; [reflexivity|exact Hl].
  - destruct (IH (S k) c H) as (i & Hi & Hw). exists (S i).
    split; [exact Hi|].
    unfold with_label in *. simpl imap. rewrite filter_cons. simpl.
    destruct (decide (Column.label x = lbl)); [contradiction|].
    replace (Z.of_nat (k + S i)) with (Z.of_nat (S k + i)) by (f_equal; lia).
    rewrite <- Hw. f_equal. apply imap_ext. intros j y _. simpl.
    f_equal. f_equal. lia.
Qed.

(** C5 (amended). Let the table of a conversion hold two consecutive
    entries [e1], [e2] that share a label no other entry bears, let no
    entry of type 'H' lack its tag in the loop of the block, and let the
    tag of [e2] be in the loop. Let [chosen] be [e2] when the tag of [e1]
    is not in the loop and [e1] when it is, and let it not be a status
    entry met in unmerged mode; in unmerged mode let the label be neither
    M/ISYM nor BATCH, the labels of the synthetic columns. Then the
    resolver selects [chosen]: the resolved columns hold exactly one column
    with the label, made from [chosen] and paired with the index of its
    tag. Every container built from the block holds exactly one column
    with the label (not zero, not two): it has the dataset and the type of
    the column of [chosen] and records its position. Such a container is
    built whenever the loop is well formed with [n] rows, the resolver
    keeps at least three columns (four with a status column), the mover is
    made in unmerged mode, the cells under the first three resolved columns
    read as integers and the cells are within the range of the [int]
    counter. *)
Theorem C5_consecutive_alternatives self rb loop pre e1 e2 post :
  selected_loop rb = Some loop ->
  spec_entries self = pre ++ [e1; e2] ++ post ->
  col_label e1 = col_label e2 ->
  (forall e, In e (pre ++ post) -> col_label e <> col_label e1) ->
  indices_present X loop (loop_prefix loop) (pre ++ [e1; e2] ++ post) ->
  find_tag X loop (loop_prefix loop +:+ refln_tag e2) <> -1 ->
  let chosen :=
    if find_tag X loop (loop_prefix loop +:+ refln_tag e1) =? -1 then e2 else e1 in
  unmerged_mode self rb = false \/ col_type chosen <> "s"%char ->
  (unmerged_mode self rb = true ->
     col_label e1 <> "M/ISYM" /\ col_label e1 <> "BATCH") ->
  exists r cs1 cs2,
    resolve X loop (loop_prefix loop) (unmerged_mode self rb) (spec_entries self)
      = Ok r /\
    r_columns r = cs1 ++ [column_of_entry chosen] ++ cs2 /\
    r_indices r !! length cs1 =
      Some (find_tag X loop (loop_prefix loop +:+ refln_tag chosen)) /\
    with_label (col_label e1) (r_columns r) = [column_of_entry chosen] /\
    (forall mtz,
       build_mtz X self rb = Ok mtz ->
       exists i : nat,
         columns mtz !! i =
           Some (Column.mk (Column.dataset_id (column_of_entry chosen))
                   (Column.type (column_of_entry chosen)) (col_label e1)
                   (Z.of_nat i)) /\
         with_label (col_label e1) (columns mtz) =
           [Column.mk (Column.dataset_id (column_of_entry chosen))
              (Column.type (column_of_entry chosen)) (col_label e1)
              (Z.of_nat i)]) /\
    (forall n : nat,
       (3 <= length (r_indices r))%nat ->
       (uses_status r = true -> 4 <= length (r_indices r))%nat ->
       (unmerged_mode self rb = true -> new_hkl_mover X (rb_spacegroup rb) = Ok ()) ->
       length (values loop) = (n * length (tags loop))%nat ->
       Z.of_nat (n * row_width (r_indices r) (unmerged_mode self rb)) <= INT_MAX ->
       (forall row, (row < n)%nat -> exists hkl,
          read_hkl X loop (r_indices r) (Z.of_nat (row * length (tags loop))) = Ok hkl) ->
       exists mtz,
         build_mtz X self rb = Ok mtz /\
         (forall path w, write_to_file X mtz path = Ok () ->
            convert_block_to_mtz X self rb path w = (Ok (), w ++ [(path, mtz)]))).
Proof.
  intros Hsel Hspec Hlbl Hfresh Hp Hf2 chosen Hmode Hsyn.
  destruct (consecutive_alternatives_resolved loop (loop_prefix loop)
              (unmerged_mode self rb) pre e1 e2 post Hlbl Hfresh Hp Hf2 Hmode)
    as (r & cs1 & cs2 & Hr & Hc & Hi & Hl).
  fold chosen in Hc, Hi, Hl. rewrite <- Hspec in Hr.
  assert (Hchosen : col_label chosen = col_label e1).
  { subst chosen. destruct (_ =? _); congruence. }
  exists r, cs1, cs2.
  split; [exact Hr|]. split; [exact Hc|]. split; [exact Hi|]. split; [exact Hl|].
  split.
  - intros mtz Hb.
    destruct (build_mtz_inv _ _ _ Hb)
      as (loop0 & r0 & cols & d & k & Hsel0 & _ & Hr0 & Hcols & _ & ->).
    rewrite Hsel in Hsel0. injection Hsel0 as <-.
    rewrite Hr in Hr0. injection Hr0 as <-.
    cbn [columns].
    assert (Hone : with_label (col_label e1) cols = [column_of_entry chosen]).
    { destruct (unmerged_mode self rb) eqn:Hu.
      - destruct (Hsyn eq_refl) as [Hisym Hbatch].
        apply unmerged_setup_inv in Hcols.
        apply add_unmerged_columns_inv in Hcols as [_ ->].
        rewrite with_label_app.
        assert (Htail : with_label (col_label e1)
                          (isym_column :: batch_column :: drop 3 (r_columns r)) =
                        with_label (col_label e1) (drop 3 (r_columns r))).
        { unfold with_label. rewrite !filter_cons. simpl.
          destruct (decide ("M/ISYM" = col_label e1)); [congruence|].
          destruct (decide ("BATCH" = col_label e1)); [congruence|].
          reflexivity. }
        rewrite Htail, <- with_label_app, take_drop. exact Hl.
      - injection Hcols as <-. exact Hl. }
    destruct (with_label_reindex_one (col_label e1) cols 0 _ Hone)
      as (i & Hci & Hw).
    exists i. change (0 + i)%nat with i in Hw.
    assert (Hcl : Column.label (column_of_entry chosen) = col_label e1)
      by exact Hchosen.
    rewrite Hcl in Hw.
    split; [|exact Hw].
    rewrite lookup_set_idx, Hci. simpl. rewrite Hchosen. reflexivity.
  - intros n H3 H4 Hmv Hv Hmax Hhkl.
    pose proof (build_mtz_ok self rb loop r n Hsel Hr H3 H4 Hmv Hv Hmax Hhkl) as Hb.
    eexists. split; [exact Hb|].
    intros path w Hwr. unfold convert_block_to_mtz. rewrite Hb, Hwr. reflexivity.
Qed.
End Theory.

(** * The properties on concrete blocks *)

(** The table of the entry point is the one its loop over the lines of
    [default_spec] builds. *)
Example default_spec_loads : load_spec default_spec = Ok default_entries.
Proof. vm_compute. reflexivity. Qed.

Example fp_block_converts :
  build_mtz (Ref.externals []) Ref.cif2mtz Scenario.fp_block = Ok Scenario.fp_mtz.
Proof. vm_compute. reflexivity. Qed.

(** The amplitudes scenario of C1 with the stand-in routines. *)
Lemma C1_witness :
  exists mtz,
    build_mtz (Ref.externals []) Ref.cif2mtz Scenario.fp_block = Ok mtz /\
    (forall path w, write_to_file (Ref.externals []) mtz path = Ok () ->
       convert_block_to_mtz (Ref.externals []) Ref.cif2mtz Scenario.fp_block path w =
         (Ok (), w ++ [(path, mtz)])) /\
    columns mtz =
      [Column.mk 0 "H" "H" 0; Column.mk 0 "H" "K" 1; Column.mk 0 "H" "L" 2;
       Column.mk 1 "F" "FP" 3; Column.mk 1 "Q" "SIGFP" 4] /\
    nreflections mtz = 1 /\
    data mtz = map float_of_int [1; 2; 3; 100; 5].
Proof.
  apply (C1_default_spec_amplitudes (Ref.externals []) Ref.cif2mtz Scenario.fp_block);
    reflexivity.
Defined.

(** C2, as stated, fails for a table that does not start with the three
    entries of the Miller indices: with the table intensity_net, index_h,
    index_k, index_l and the row -1, 0, 2, 7 of a diffrn loop, the
    resolved columns are I, H, K, L; the two synthetic columns come after
    I, H, K and before L, and the triple handed to the symmetry reduction
    is (7, -1, 0), the intensity and the first two indices: the row of the
    container starts with 7, -1, 0, the isym 1 and the batch number 1. *)
Lemma C2_intensity_first_counterexample :
  unmerged_mode (Scenario.converter Cases.intensity_first_table false)
    Cases.intensity_first_block = true /\
  source_cell Cases.intensity_first_loop 0 0 = "-1" /\
  source_cell Cases.intensity_first_loop 0 1 = "0" /\
  source_cell Cases.intensity_first_loop 0 2 = "2" /\
  source_cell Cases.intensity_first_loop 0 3 = "7" /\
  exists r mtz,
    resolve (Ref.externals []) Cases.intensity_first_loop "_diffrn_refln." true
      Cases.intensity_first_table = Ok r /\
    map Column.label (r_columns r) = ["I"; "H"; "K"; "L"] /\
    r_indices r = [3; 0; 1; 2] /\
    build_mtz (Ref.externals [])
      (Scenario.converter Cases.intensity_first_table false)
      Cases.intensity_first_block = Ok mtz /\
    map Column.label (columns mtz) = ["I"; "H"; "K"; "M/ISYM"; "BATCH"; "L"] /\
    map Column.type (columns mtz) = ["J"; "H"; "H"; "Y"; "B"; "H"]%char /\
    nreflections mtz = 1 /\
    data mtz = map float_of_int [7; -1; 0; 1; 1; 2].
Proof.
  repeat (split; [reflexivity|]).
  eexists. eexists.
  split; [vm_compute; reflexivity|].
  split; [reflexivity|]. split; [reflexivity|].
  split; [vm_compute; reflexivity|].
  repeat split; reflexivity.
Qed.

(** An unmerged block of two rows: seven columns, and the first row starts
    with the moved indices 1, 0, 2, the isym 3 and the batch number 1. *)
Lemma C2_witness :
  exists mtz,
    build_mtz (Ref.externals []) Ref.cif2mtz Scenario.diffrn_block = Ok mtz /\
    length (columns mtz) = 7%nat /\
    columns mtz !! 3%nat = Some (Column.mk 1 "Y" "M/ISYM" 3) /\
    columns mtz !! 4%nat = Some (Column.mk 1 "B" "BATCH" 4) /\
    length (batches mtz) = 1%nat /\
    nreflections mtz = 2 /\
    take 5 (data mtz) = map float_of_int [1; 0; 2; 3; 1].
Proof.
  destruct (C2_unmerged_container (Ref.externals []) Ref.cif2mtz Scenario.diffrn_block
              Scenario.diffrn_loop Scenario.diffrn_resolved 2 5)
    as (mtz & Hb & _ & Hlen & H3 & H4 & _ & _ & Hbatch & Hn & _ & Hrows & _);
    try reflexivity.
  - lia.
  - vm_compute. discriminate.
  - intros row Hrow.
    destruct row as [|[|row]]; [exists (-1, 0, 2)|exists (1, 0, 2)|lia];
      reflexivity.
  - exists mtz. repeat split; try assumption.
    exact (Hrows 0%nat (-1, 0, 2) ltac:(lia) eq_refl).
Defined.



(** The amplitudes loop without the tag index_k: the conversion with the
    default table fails on a missing index tag and writes nothing. *)
Lemma C4_witness :
  exists e',
    In e' default_entries /\ col_type e' = "H"%char /\
    find_tag (Ref.externals []) Scenario.no_k_loop
      (loop_prefix Scenario.no_k_loop +:+ refln_tag e') = -1 /\
    convert_block_to_mtz (Ref.externals []) Ref.cif2mtz Scenario.no_k_block
      "out.mtz" [] =
      (Throw (RuntimeError ("Miller index tag not found: " +:+
                            (loop_prefix Scenario.no_k_loop +:+ refln_tag e'))), []).
Proof.
  apply (C4_missing_index_tag_fails (Ref.externals []) Ref.cif2mtz
           Scenario.no_k_block Scenario.no_k_loop (mkEntry "index_k" "K" "H" 0)).
  - reflexivity.
  - discriminate.
  - right. left. reflexivity.
  - reflexivity.
  - reflexivity.
Defined.

Example no_k_block_error :
  convert_block_to_mtz (Ref.externals []) Ref.cif2mtz Scenario.no_k_block
    "out.mtz" [] =
  (Throw (RuntimeError "Miller index tag not found: _refln.index_k"), []).
Proof. vm_compute. reflexivity. Qed.

(** C5, as stated, fails for the default table itself: its entries for
    pdbx_r_free_flag and status are consecutive and share the label
    FreeR_flag; with a loop that has the status but not pdbx_r_free_flag,
    converted in unmerged mode, no column bears the label. *)
Lemma C5_unmerged_status_counterexample :
  default_entries =
    take 3 default_entries ++
    [mkEntry "pdbx_r_free_flag" "FreeR_flag" "I" 0;
     mkEntry "status" "FreeR_flag" "s" 0] ++ drop 5 default_entries /\
  find_tag (Ref.externals []) Scenario.status_loop "_refln.pdbx_r_free_flag" = -1 /\
  find_tag (Ref.externals []) Scenario.status_loop "_refln.status" = 3 /\
  exists mtz,
    build_mtz (Ref.externals []) (Scenario.converter default_entries true)
      Scenario.status_block = Ok mtz /\
    map Column.label (columns mtz) = ["H"; "K"; "L"; "M/ISYM"; "BATCH"; "FP"] /\
    with_label "FreeR_flag" (columns mtz) = [].
Proof.
  repeat split; try reflexivity.
  eexists. split; [vm_compute; reflexivity|]. split; reflexivity.
Qed.

(** The same block in merged mode: the resolved columns and the container
    hold one column FreeR_flag, made from the status entry; in the
    container it is the column of position 3. *)
Lemma C5_witness :
  exists r,
    resolve (Ref.externals []) Scenario.status_loop "_refln." false default_entries
      = Ok r /\
    with_label "FreeR_flag" (r_columns r) = [Column.mk 0 "I" "FreeR_flag" 0] /\
    exists mtz (i : nat),
      build_mtz (Ref.externals []) Ref.cif2mtz Scenario.status_block = Ok mtz /\
      columns mtz !! i = Some (Column.mk 0 "I" "FreeR_flag" (Z.of_nat i)) /\
      with_label "FreeR_flag" (columns mtz) =
        [Column.mk 0 "I" "FreeR_flag" (Z.of_nat i)].
Proof.
  destruct (C5_consecutive_alternatives (Ref.externals []) Ref.cif2mtz
              Scenario.status_block Scenario.status_loop
              (take 3 default_entries)
              (mkEntry "pdbx_r_free_flag" "FreeR_flag" "I" 0)
              (mkEntry "status" "FreeR_flag" "s" 0)
              (drop 5 default_entries))
    as (r & cs1 & cs2 & Hr & Hc & Hi & Hl & Hcont & Hbuild).
  - reflexivity.
  - reflexivity.
  - reflexivity.
  - intros e Hin. simpl in Hin.
    repeat (destruct Hin as [<-|Hin]; [discriminate|]). destruct Hin.
  - intros e Hin Hty. simpl in Hin.
    repeat (destruct Hin as [<-|Hin];
            [first [discriminate Hty | vm_compute; discriminate]|]).
    destruct Hin.
  - vm_compute. discriminate.
  - left. reflexivity.
  - discriminate.
  - exists r. split; [exact Hr|]. split; [exact Hl|].
    assert (Hres : r = Scenario.status_resolved).
    { assert (E : resolve (Ref.externals []) Scenario.status_loop
                    (loop_prefix Scenario.status_loop)
                    (unmerged_mode Ref.cif2mtz Scenario.status_block)
                    (spec_entries Ref.cif2mtz) = Ok Scenario.status_resolved)
        by (vm_compute; reflexivity).
      rewrite Hr in E. injection E as ->. reflexivity. }
    subst r.
    destruct (Hbuild 2%nat) as (mtz & Hb & _).
    + simpl. lia.
    + intros _. simpl. lia.
    + discriminate.
    + reflexivity.
    + vm_compute. discriminate.
    + intros row Hrow.
      destruct row as [|[|row]]; [exists (1, 2, 3)|exists (2, 2, 3)|lia];
        reflexivity.
    + exists mtz. destruct (Hcont mtz Hb) as (i & Hi1 & Hi2).
      exists i. split; [exact Hb|]. split; [exact Hi1|exact Hi2].
Defined.

(** Why the label must not be the one of a synthetic column in unmerged
    mode: two alternatives labelled BATCH resolve to one column, and the
    container holds it beside the synthetic column BATCH. *)
Example synthetic_label_twice :
  exists r mtz,
    resolve (Ref.externals []) Scenario.diffrn_loop "_diffrn_refln." true
      Cases.batch_label_table = Ok r /\
    map Column.label (r_columns r) = ["H"; "K"; "L"; "BATCH"] /\
    build_mtz (Ref.externals []) (Scenario.converter Cases.batch_label_table false)
      Scenario.diffrn_block = Ok mtz /\
    map Column.label (columns mtz) = ["H"; "K"; "L"; "M/ISYM"; "BATCH"; "BATCH"] /\
    length (with_label "BATCH" (columns mtz)) = 2%nat.
Proof.
  eexists. eexists.
  split; [vm_compute; reflexivity|]. split; [reflexivity|].
  split; [vm_compute; reflexivity|]. split; reflexivity.
Qed.

(** C7, as stated, fails on strings that only start like a flag: they are
    neither 'o' nor 'f', quoted or not, and are not mapped to NaN. *)
Lemma C7_longer_string_counterexample :
  status_to_freeflag "ox" = F1 /\
  status_to_freeflag "f1" = F0 /\
  F1 <> NAN /\ F0 <> NAN.
Proof. repeat split; try reflexivity; discriminate. Qed.

(** C8, the failing input: a table that lists the status entry after the
    amplitude entry, and a merged loop with both. The status column is
    resolved at position 4, but the flag encoding is applied to the cell of
    position 3: the amplitude 100.0 and the status 'o' are both written as
    NaN, where the encoding at the position of the status column would
    give 100 and 1. *)
Lemma C8_status_encoding_at_position_3 :
  exists mtz,
    build_mtz (Ref.externals []) (Scenario.converter Scenario.late_status_table false)
      Scenario.late_status_block = Ok mtz /\
    map Column.label (columns mtz) = ["H"; "K"; "L"; "FP"; "FreeR_flag"] /\
    data mtz = [float_of_int 1; float_of_int 2; float_of_int 3; NAN; NAN] /\
    number_cell (Ref.externals []) "100.0" = float_of_int 100 /\
    status_to_freeflag "o" = F1.
Proof.
  eexists. split; [vm_compute; reflexivity|]. repeat split.
Qed.

(** C9, as stated, fails: with [--dir] and two blocks, when the file of the
    first cannot be written the process ends with status 3 and no file,
    although the second block converts and is written when it is converted
    on its own. *)
Lemma C9_sibling_not_converted_counterexample :
  main_convert (Ref.externals ["out/a.mtz"]) Ref.cif2mtz Scenario.dir_options
    [Scenario.block_a; Scenario.block_b] [] = (Exit 3, []) /\
  convert_block_to_mtz (Ref.externals ["out/a.mtz"]) Ref.cif2mtz Scenario.block_b
    "out/b.mtz" [] = (Ok (), [("out/b.mtz", Scenario.fp_mtz)]).
Proof. split; vm_compute; reflexivity. Qed.

(** Three blocks, the file of the second cannot be written: status 3, and
    only the file of the first block exists. *)
Lemma C9_witness :
  main_convert (Ref.externals ["out/b.mtz"]) Ref.cif2mtz Scenario.dir_options
    ([Scenario.block_a] ++ Scenario.block_b :: [Scenario.block_c]) [] =
  (Exit 3, [("out/a.mtz", Scenario.fp_mtz)]).
Proof.
  refine (proj1 (C9_write_failure_ends_the_run (Ref.externals ["out/b.mtz"])
                   Ref.cif2mtz Scenario.dir_options "out" [Scenario.block_a]
                   Scenario.block_b [Scenario.block_c] Scenario.fp_mtz
                   "Cannot open file for writing: out/b.mtz" true [] _
                   eq_refl _ _ _)).
  - vm_compute. reflexivity.
  - vm_compute. reflexivity.
  - vm_compute. reflexivity.
Defined.

(** C10, as stated, fails in unmerged mode when the entry between the two
    is the status entry: it is skipped, the second entry with the label I
    meets the column of the first as the last column, and one column I
    remains. *)
Lemma C10_unmerged_status_between_counterexample :
  find_tag (Ref.externals []) Scenario.separated_loop "_refln.intensity_meas" = 3 /\
  find_tag (Ref.externals []) Scenario.separated_loop "_refln.status" = 4 /\
  find_tag (Ref.externals []) Scenario.separated_loop "_refln.intensity_net" = 5 /\
  map col_label (drop 3 Scenario.separated_table) = ["I"; "FreeR_flag"; "I"] /\
  exists r,
    resolve (Ref.externals []) Scenario.separated_loop "_refln." true
      Scenario.separated_table = Ok r /\
    map Column.label (r_columns r) = ["H"; "K"; "L"; "I"] /\
    r_indices r = [0; 1; 2; 3].
Proof.
  repeat split; try reflexivity.
  eexists. split; [vm_compute; reflexivity|]. split; reflexivity.
Qed.

(** The same table and loop in merged mode: two columns I, with the column
    of the status entry between them. *)
Lemma C10_witness :
  exists r cs1 c cs2,
    resolve (Ref.externals []) Scenario.separated_loop "_refln." false
      Scenario.separated_table = Ok r /\
    r_columns r =
      cs1 ++ [c; Column.mk 0 "I" "FreeR_flag" 0; Column.mk 1 "J" "I" 0] ++ cs2 /\
    Column.label c = "I" /\
    Column.label (Column.mk 1 "J" "I" 0) = "I".
Proof.
  apply (C10_separated_duplicates_both_kept (Ref.externals [])
           Scenario.separated_loop "_refln." false
           (take 3 Scenario.separated_table)
           (mkEntry "intensity_meas" "I" "J" 1)
           (mkEntry "status" "FreeR_flag" "s" 0)
           (mkEntry "intensity_net" "I" "J" 1) []).
  - reflexivity.
  - discriminate.
  - intros e Hin Hty. simpl in Hin.
    repeat (destruct Hin as [<-|Hin];
            [first [discriminate Hty | vm_compute; discriminate]|]).
    destruct Hin.
  - vm_compute. discriminate.
  - vm_compute. discriminate.
  - vm_compute. discriminate.
  - left. reflexivity.
Defined.

(** A block with the diffrn loop only, converted without the flag: the mode
    is unmerged, and the container has the M/ISYM column and one batch. *)
Lemma C6_witness :
  unmerged_mode Ref.cif2mtz Scenario.diffrn_block = true /\
  exists mtz,
    build_mtz (Ref.externals []) Ref.cif2mtz Scenario.diffrn_block = Ok mtz /\
    columns mtz !! 3%nat = Some (Column.mk 1 "Y" "M/ISYM" 3) /\
    length (batches mtz) = 1%nat.
Proof.
  destruct (C6_unmerged_detection (Ref.externals []) Ref.cif2mtz Scenario.diffrn_block)
    as [Hmode Hnone].
  split; [apply Hmode; right; reflexivity|].
  destruct (Hnone eq_refl) as [_ Hcols].
  destruct (build_mtz (Ref.externals []) Ref.cif2mtz Scenario.diffrn_block)
    as [mtz| | |] eqn:Hb; try (vm_compute in Hb; discriminate Hb).
  exists mtz. split; [reflexivity|]. exact (Hcols mtz eq_refl).
Defined.

(** * Further properties of the program *)

(** ** The lines of a spec *)

Lemma split_tokens_word w cur s :
  no_sep w = true ->
  split_tokens cur (w +:+ s) =
  split_tokens (rev (list_ascii_of_string w) ++ cur) s.
Proof.
  revert cur. induction w as [|a w IH]; intros cur H; simpl in *; [reflexivity|].
  apply andb_true_iff in H as [Ha Hw]. apply negb_true_iff in Ha.
  rewrite Ha, IH by assumption. rewrite <- app_assoc. reflexivity.
Qed.

Lemma split_tokens_blank_nil b s :
  is_blank b = true -> split_tokens [] (b +:+ s) = split_tokens [] s.
Proof.
  induction b as [|a b IH]; intros H; simpl in *; [reflexivity|].
  apply andb_true_iff in H as [Ha Hb]. rewrite Ha. auto.
Qed.

Lemma split_tokens_blank_cons c cur b s :
  is_blank b = true -> b <> EmptyString ->
  split_tokens (c :: cur) (b +:+ s) =
  string_of_list_ascii (rev (c :: cur)) :: split_tokens [] s.
Proof.
  destruct b as [|a b]; intros H Hne; [congruence|]. simpl in *.
  apply andb_true_iff in H as [Ha Hb]. rewrite Ha.
  rewrite split_tokens_blank_nil by assumption. reflexivity.
Qed.

Lemma split_tokens_blank_end c cur b :
  is_blank b = true ->
  split_tokens (c :: cur) b = [string_of_list_ascii (rev (c :: cur))].
Proof.
  destruct b as [|a b]; intros H; [reflexivity|]. simpl in *.
  apply andb_true_iff in H as [Ha Hb]. rewrite Ha. f_equal.
  clear Ha. induction b as [|a' b IH]; [reflexivity|]. simpl in *.
  apply andb_true_iff in Hb as [Ha' Hb]. rewrite Ha'. auto.
Qed.

(** A word followed by separators is the next token. *)
Lemma split_tokens_next w b s :
  is_word w = true -> is_blank b = true -> b <> EmptyString ->
  split_tokens [] (w +:+ b +:+ s) = w :: split_tokens [] s.
Proof.
  unfold is_word. intros Hw Hb Hne.
  apply andb_true_iff in Hw as [Hw0 Hw].
  rewrite split_tokens_word by assumption. rewrite app_nil_r.
  destruct w as [|a w]; [discriminate|].
  simpl list_ascii_of_string. simpl rev.
  destruct (rev (list_ascii_of_string w) ++ [a]) as [|c cur] eqn:E.
  { destruct (rev (list_ascii_of_string w)); discriminate. }
  rewrite split_tokens_blank_cons by assumption.
  rewrite <- E. rewrite rev_app_distr, rev_involutive. simpl.
  rewrite string_of_list_ascii_of_string. reflexivity.
Qed.

Lemma add_spec_line_inv line e :
  add_spec_line line = Ok e ->
  split_str_into_multi line =
    [refln_tag e; col_label e; String (col_type e) EmptyString;
     String (if dataset_id e =? 0 then "0"%char else "1"%char) EmptyString] /\
  (dataset_id e = 0 \/ dataset_id e = 1).
Proof.
  unfold add_spec_line.
  destruct (split_str_into_multi line) as [|t0 [|t1 [|t2 [|t3 [|t4 ts]]]]];
    try discriminate.
  cbn [length Nat.eqb negb].
  destruct t2 as [|c [|c' t2]]; try discriminate.
  destruct t3 as [|d [|d' t3]]; try discriminate.
  cbn [String.length Nat.eqb negb orb str_at String.get].
  destruct (Ascii.eqb d "0") eqn:E0.
  - apply Ascii.eqb_eq in E0 as ->. cbn. intros [= <-]. cbn. auto.
  - destruct (Ascii.eqb d "1") eqn:E1; [|discriminate].
    apply Ascii.eqb_eq in E1 as ->. cbn. intros [= <-]. cbn. auto.
Qed.

(** X1. [add_spec_line] accepts a line exactly when it has four words of
    which the third is a single character and the fourth is "0" or "1";
    the entry then holds the first two words, that character and the
    dataset number 0 or 1. *)
Theorem X1_add_spec_line_accepts line e :
  add_spec_line line = Ok e <->
  split_str_into_multi line =
    [refln_tag e; col_label e; String (col_type e) EmptyString;
     String (if dataset_id e =? 0 then "0"%char else "1"%char) EmptyString] /\
  (dataset_id e = 0 \/ dataset_id e = 1).
Proof.
  split; [apply add_spec_line_inv|].
  unfold add_spec_line. intros [-> Hd]. destruct e as [t0 t1 c d]. cbn in *.
  destruct Hd as [-> | ->]; reflexivity.
Qed.

(** X2. A line made of a tag, a label, a type character and the digit 0 or
    1, separated by runs of blanks, tabs, carriage returns or newlines and
    possibly preceded and followed by such runs, is read as the entry of
    these four fields. *)
Theorem X2_add_spec_line_reads_four_words b0 t0 b1 t1 b2 c b3 (d : bool) b4 :
  is_blank b0 = true ->
  is_word t0 = true ->
  is_blank b1 = true -> b1 <> EmptyString ->
  is_word t1 = true ->
  is_blank b2 = true -> b2 <> EmptyString ->
  is_sep c = false ->
  is_blank b3 = true -> b3 <> EmptyString ->
  is_blank b4 = true ->
  add_spec_line (b0 +:+ t0 +:+ b1 +:+ t1 +:+ b2 +:+ String c b3 +:+
                 String (if d then "1" else "0")%char b4)
  = Ok (mkEntry t0 t1 c (if d then 1 else 0)).
Proof.
  intros H0 Ht0 H1 N1 Ht1 H2 N2 Hc H3 N3 H4.
  assert (Htok : split_str_into_multi
                   (b0 +:+ t0 +:+ b1 +:+ t1 +:+ b2 +:+ String c b3 +:+
                    String (if d then "1" else "0")%char b4)
                 = [t0; t1; String c EmptyString;
                    String (if d then "1" else "0")%char EmptyString]).
  { unfold split_str_into_multi.
    rewrite split_tokens_blank_nil by assumption.
    rewrite split_tokens_next by assumption.
    rewrite split_tokens_next by assumption.
    change (String c b3 +:+ String (if d then "1" else "0")%char b4)
      with (String c EmptyString +:+ b3 +:+ String (if d then "1" else "0")%char b4).
    rewrite split_tokens_next; [|unfold is_word; simpl; rewrite Hc; reflexivity|assumption..].
    do 3 f_equal.
    assert (Hd : is_sep (if d then "1" else "0")%char = false) by (destruct d; reflexivity).
    cbn [split_tokens]. rewrite Hd.
    apply split_tokens_blank_end. assumption. }
  unfold add_spec_line. rewrite Htok. destruct d; reflexivity.
Qed.

(** Every line either gives an entry or is refused with one of two
    errors, which quote the line. *)
Lemma add_spec_line_outcome line :
  (exists e, add_spec_line line = Ok e) \/
  length (split_str_into_multi line) <> 4%nat /\
    add_spec_line line = fail ("line should have 4 words: " +:+ line) \/
  length (split_str_into_multi line) = 4%nat /\
    add_spec_line line = fail ("incorrect line: " +:+ line).
Proof.
  unfold add_spec_line.
  destruct (split_str_into_multi line) as [|t0 [|t1 [|t2 [|t3 [|t4 ts]]]]];
    try (right; left; split; [simpl; lia|reflexivity]).
  cbn [length Nat.eqb negb].
  match goal with |- context [if ?b then _ else _] => destruct b end;
    [right; right; split; reflexivity|left; eauto].
Qed.

(** X3. The loop over the lines of a spec gives a table exactly when every
    line is accepted; the table has then one entry per line, in the order
    of the lines. *)
Theorem X3_load_spec_line_by_line lines es :
  load_spec lines = Ok es <->
  Forall2 (fun line e => add_spec_line line = Ok e) lines es.
Proof.
  revert es. induction lines as [|line rest IH]; intros es; simpl.
  - split; [intros [= <-]; constructor|intros H; inversion H; reflexivity].
  - split.
    + intros H. apply bind_inv_Ok in H as (e & He & H).
      apply bind_inv_Ok in H as (es' & Hes & [= <-]).
      constructor; [assumption|]. apply IH. assumption.
    + intros H. inversion H as [|? e ? es' He Hes]; subst.
      rewrite He. ok. apply IH in Hes. rewrite Hes. reflexivity.
Qed.

(** X4. When a spec is not loaded, the loop stopped at the first line that
    [add_spec_line] refuses, and the error is the one of that line: a
    std::runtime_error that says which of the two checks failed and quotes
    the line. *)
Theorem X4_load_spec_first_refused_line lines :
  (exists es, load_spec lines = Ok es) \/
  (exists pre line post es what,
     lines = pre ++ line :: post /\
     load_spec pre = Ok es /\
     (length (split_str_into_multi line) <> 4%nat /\
        what = "line should have 4 words: " +:+ line \/
      length (split_str_into_multi line) = 4%nat /\
        what = "incorrect line: " +:+ line) /\
     add_spec_line line = Throw (RuntimeError what) /\
     load_spec lines = Throw (RuntimeError what)).
Proof.
  induction lines as [|line rest IH]; [left; exists []; reflexivity|].
  destruct (add_spec_line_outcome line) as [[e He] | Hbad].
  - destruct IH as [[es Hes] | (pre & l & post & es & what & -> & Hpre & Hw & Hl & Hall)].
    + left. exists (e :: es). simpl. rewrite He. ok. rewrite Hes. reflexivity.
    + right. exists (line :: pre), l, post, (e :: es), what.
      repeat split; try assumption.
      * simpl. rewrite He. ok. rewrite Hpre. reflexivity.
      * simpl. rewrite He. ok. rewrite Hall. reflexivity.
  - right.
    assert (exists what,
      (length (split_str_into_multi line) <> 4%nat /\
         what = "line should have 4 words: " +:+ line \/
       length (split_str_into_multi line) = 4%nat /\
         what = "incorrect line: " +:+ line) /\
      add_spec_line line = Throw (RuntimeError what)) as (what & Hw & Hl).
    { destruct Hbad as [[Hn H] | [Hn H]]; eexists; (split; [|exact H]); auto. }
    exists [], line, rest, [], what. repeat split; try assumption.
    simpl. rewrite Hl. reflexivity.
Qed.

(** A spec is loaded or refused with a std::runtime_error. *)
Lemma load_spec_outcome lines :
  (exists es, load_spec lines = Ok es) \/
  (exists what, load_spec lines = Throw (RuntimeError what)).
Proof.
  induction lines as [|line rest IH]; [left; exists []; reflexivity|]. simpl.
  destruct (add_spec_line_outcome line) as [[e He] | [[_ H] | [_ H]]];
    rewrite ?He, ?H; [|right; eexists; reflexivity..].
  ok. destruct IH as [[es ->] | [what ->]]; [left|right]; eexists; reflexivity.
Qed.

Section Coverage.
Context {UnitCell SpaceGroup : Type}.
Variable X : Externals UnitCell SpaceGroup.

(** ** The resolver *)

(** X5. The resolver gives a result exactly when every entry of type 'H'
    of the table finds its tag in the loop: a missing tag of an entry of
    another type never makes it fail. *)
Theorem X5_resolver_succeeds_iff_indices_present loop prefix unmerged es :
  (exists r, resolve X loop prefix unmerged es = Ok r) <->
  indices_present X loop prefix es.
Proof.
  split.
  - intros [r Hr] e Hin Hty Hf.
    destruct (resolve_from_missing_index X loop prefix unmerged es resolved_init
                e Hin Hty Hf) as (e' & _ & _ & _ & Hthrow).
    unfold resolve in Hr. rewrite Hr in Hthrow. discriminate.
  - apply resolve_from_total.
Qed.

(** What the resolver appends for the entries it walks: the columns and
    the indices of a subsequence of them. *)
Lemma resolve_from_kept loop prefix unmerged es :
  forall st r,
    resolve_from X loop prefix unmerged st es = Ok r ->
    exists kept,
      sublist kept es /\
      r_columns r = r_columns st ++ map column_of_entry kept /\
      r_indices r =
        r_indices st ++ map (fun e => find_tag X loop (prefix +:+ refln_tag e)) kept /\
      Forall (fun e =>
                0 <= find_tag X loop (prefix +:+ refln_tag e)
                  < Z.of_nat (length (tags loop)) /\
                (unmerged = true -> col_type e <> "s"%char)) kept /\
      uses_status r =
        uses_status st || existsb (fun e => Ascii.eqb (col_type e) "s") kept.
Proof.
  induction es as [|e es IH]; intros st r H; simpl in H.
  - injection H as <-. exists []. rewrite !app_nil_r, orb_false_r.
    repeat split; constructor.
  - apply bind_inv_Ok in H as (st' & He & H).
    destruct (IH _ _ H) as (kept & Hsub & Hc & Hi & Hall & Hus).
    assert (Hskip : st' = st ->
      exists kept0, sublist kept0 (e :: es) /\
        r_columns r = r_columns st ++ map column_of_entry kept0 /\
        r_indices r =
          r_indices st ++ map (fun e => find_tag X loop (prefix +:+ refln_tag e)) kept0 /\
        Forall (fun e =>
                  0 <= find_tag X loop (prefix +:+ refln_tag e)
                    < Z.of_nat (length (tags loop)) /\
                  (unmerged = true -> col_type e <> "s"%char)) kept0 /\
        uses_status r =
          uses_status st || existsb (fun e => Ascii.eqb (col_type e) "s") kept0).
    { intros ->. exists kept. repeat split; auto. apply sublist_cons. exact Hsub. }
    unfold resolve_entry in He.
    destruct (find_tag X loop (prefix +:+ refln_tag e) =? -1) eqn:Hf; simpl in He.
    + destruct (Ascii.eqb _ _); [discriminate|]. injection He as <-. auto.
    + destruct (back_has_label _ _); [injection He as <-; auto|].
      destruct (unmerged && Ascii.eqb (col_type e) "s") eqn:Hs;
        [injection He as <-; auto|].
      injection He as <-. simpl in Hc, Hi, Hus.
      exists (e :: kept). rewrite Hc, Hi, Hus, <- !app_assoc. simpl.
      split; [apply sublist_skip; exact Hsub|].
      split; [reflexivity|]. split; [reflexivity|]. split.
      * constructor; [|exact Hall]. split.
        -- apply Z.eqb_neq in Hf. unfold find_tag in *.
           destruct (find_index_range
                       (fun t => tag_eqb X t (prefix +:+ refln_tag e)) (tags loop));
             [contradiction|assumption].
        -- intros ->. simpl in Hs. intros Hty. rewrite Hty in Hs. discriminate.
      * destruct (Ascii.eqb (col_type e) "s"); simpl;
          [rewrite orb_true_r|]; reflexivity.
Qed.

(** X6. The columns the resolver gives are those of a subsequence of the
    table, in the order of the table: each comes from an entry whose
    qualified tag is a tag of the loop (and, in unmerged mode, whose type
    is not 's'), and is paired with the position of that tag; the status
    encoding is switched on exactly when an entry of type 's' is among
    them. *)
Theorem X6_resolved_columns_follow_the_table loop prefix unmerged es r :
  resolve X loop prefix unmerged es = Ok r ->
  exists kept,
    sublist kept es /\
    r_columns r = map column_of_entry kept /\
    r_indices r = map (fun e => find_tag X loop (prefix +:+ refln_tag e)) kept /\
    Forall (fun e =>
              0 <= find_tag X loop (prefix +:+ refln_tag e)
                < Z.of_nat (length (tags loop)) /\
              (unmerged = true -> col_type e <> "s"%char)) kept /\
    uses_status r = existsb (fun e => Ascii.eqb (col_type e) "s") kept.
Proof.
  intros H. exact (resolve_from_kept loop prefix unmerged es resolved_init r H).
Qed.

Lemma neighbours_differ_snoc cols c :
  neighbours_differ cols ->
  back_has_label cols (Column.label c) = false ->
  neighbours_differ (cols ++ [c]).
Proof.
  intros Hn Hb i c1 c2 H1 H2.
  destruct (decide (S i < length cols)%nat) as [Hlt|Hge].
  - rewrite lookup_app_l in H1 by lia. rewrite lookup_app_l in H2 by lia.
    eapply Hn; eassumption.
  - assert (Hi : S i = length cols).
    { apply lookup_lt_Some in H2. rewrite length_app in H2. simpl in H2. lia. }
    rewrite lookup_app_l in H1 by lia.
    rewrite lookup_app_r in H2 by lia.
    replace (S i - length cols)%nat with 0%nat in H2 by lia.
    injection H2 as <-.
    unfold back_has_label in Hb.
    assert (Hlast : last cols = Some c1).
    { rewrite last_lookup. rewrite <- Hi. simpl. exact H1. }
    rewrite Hlast in Hb. apply String.eqb_neq in Hb. exact Hb.
Qed.

Lemma resolve_from_neighbours loop prefix unmerged es :
  forall st r,
    resolve_from X loop prefix unmerged st es = Ok r ->
    neighbours_differ (r_columns st) -> neighbours_differ (r_columns r).
Proof.
  induction es as [|e es IH]; intros st r H Hst; simpl in H.
  - injection H as <-. exact Hst.
  - apply bind_inv_Ok in H as (st' & He & H). apply (IH _ _ H).
    unfold resolve_entry in He. destruct (negb _).
    + destruct (back_has_label _ _) eqn:Hb; [injection He as <-; exact Hst|].
      destruct (unmerged && _); [injection He as <-; exact Hst|].
      injection He as <-. simpl. apply neighbours_differ_snoc; assumption.
    + destruct (Ascii.eqb _ _); [discriminate|]. injection He as <-. exact Hst.
Qed.

(** X7. No two neighbouring columns given by the resolver bear the same
    label, whatever the table and the loop. *)
Theorem X7_resolved_neighbours_differ_in_label loop prefix unmerged es r
    (i : nat) c c' :
  resolve X loop prefix unmerged es = Ok r ->
  r_columns r !! i = Some c ->
  r_columns r !! S i = Some c' ->
  Column.label c <> Column.label c'.
Proof.
  intros H. revert i c c'.
  apply (resolve_from_neighbours loop prefix unmerged es resolved_init r H).
  intros i c c' Hc. destruct i; discriminate.
Qed.

(** ** The rows, read back from a result *)

Lemma store_inv x d k d' k' :
  store x (d, k) = Ok (d', k') ->
  k' = k + 1 /\ length d' = length d /\
  0 <= k /\ k' <= Z.of_nat (length d) /\ k' <= INT_MAX.
Proof.
  unfold store. intros H.
  destruct ((0 <=? k) && (k <? Z.of_nat (length d)) && (k <? INT_MAX)) eqn:E;
    [|discriminate].
  injection H as <- <-.
  apply andb_true_iff in E as [E E3]. apply andb_true_iff in E as [E1 E2].
  apply Z.leb_le in E1. apply Z.ltb_lt in E2. apply Z.ltb_lt in E3.
  rewrite length_insert. lia.
Qed.

Lemma store_numbers_inv loop i ixs :
  forall d k d' k',
    store_numbers X loop i ixs (d, k) = Ok (d', k') ->
    k' = k + Z.of_nat (length ixs) /\ length d' = length d /\
    (ixs = [] -> d' = d) /\
    (ixs <> [] -> 0 <= k /\ k' <= Z.of_nat (length d) /\ k' <= INT_MAX).
Proof.
  induction ixs as [|ix ixs IH]; intros d k d' k' H; simpl in H.
  - injection H as <- <-. simpl.
    split; [lia|]. split; [reflexivity|]. split; [reflexivity|].
    intros Hne. congruence.
  - apply bind_inv_Ok in H as ([d1 k1] & H1 & H).
    unfold store_number in H1. apply bind_inv_Ok in H1 as (v & _ & H1).
    apply store_inv in H1 as (-> & Hl1 & ? & ? & ?).
    apply IH in H as (-> & Hl & _ & Hne).
    rewrite Hl, Hl1. simpl length.
    split; [lia|]. split; [reflexivity|]. split; [discriminate|]. intros _.
    destruct ixs as [|ix' ixs'].
    + simpl. lia.
    + destruct Hne as (? & ? & ?); [discriminate|]. rewrite Hl1 in *. lia.
Qed.

Lemma read_value_inv loop indices i j s :
  read_value loop indices i j = Ok s ->
  0 <= j < Z.of_nat (length indices).
Proof.
  unfold read_value, vec_get. intros H.
  apply bind_inv_Ok in H as (ix & H & _).
  destruct (0 <=? j) eqn:E; [|discriminate]. apply Z.leb_le in E.
  destruct (indices !! Z.to_nat j) eqn:El; [|discriminate].
  apply lookup_lt_Some in El. lia.
Qed.

Lemma read_hkl_inv loop indices i hkl :
  read_hkl X loop indices i = Ok hkl -> (3 <= length indices)%nat.
Proof.
  unfold read_hkl. intros H.
  apply bind_inv_Ok in H as (s0 & _ & H).
  apply bind_inv_Ok in H as (h & _ & H).
  apply bind_inv_Ok in H as (s1 & _ & H).
  apply bind_inv_Ok in H as (k & _ & H).
  apply bind_inv_Ok in H as (s2 & R2 & _).
  apply read_value_inv in R2. lia.
Qed.

(** A row that is written takes one cell per index (and the two synthetic
    cells in unmerged mode), all of them inside the matrix. *)
Lemma convert_row_inv sg loop indices unmerged us i d k d' k' :
  convert_row X sg loop indices unmerged us i (d, k) = Ok (d', k') ->
  k' = k + Z.of_nat (row_width indices unmerged) /\
  length d' = length d /\
  0 <= k /\ k' <= Z.of_nat (length d) /\ k' <= INT_MAX /\
  (3 <= length indices)%nat /\
  (us = true -> (4 <= length indices)%nat) /\
  exists hkl, read_hkl X loop indices i = Ok hkl.
Proof.
  unfold convert_row. intros H.
  apply bind_inv_Ok in H as ([[d1 k1] j1] & Hlead & H).
  apply bind_inv_Ok in H as ([[d2 k2] j2] & Hstat & H).
  assert (Hl : j1 = 3 /\ length d1 = length d /\ 0 <= k /\
               k1 = k + (if unmerged then 5 else 3) /\
               k1 <= Z.of_nat (length d) /\ k1 <= INT_MAX /\
               exists hkl, read_hkl X loop indices i = Ok hkl).
  { destruct unmerged.
    - apply bind_inv_Ok in Hlead as (hkl & Hread & Hlead).
      destruct (move_to_asu X sg hkl) as [[[h k0] l] isym].
      apply bind_inv_Ok in Hlead as ([da ka] & Ha & Hlead).
      apply bind_inv_Ok in Hlead as ([db kb] & Hb & Hlead).
      apply bind_inv_Ok in Hlead as ([dc kc] & Hc & Hlead).
      apply bind_inv_Ok in Hlead as ([dd kd] & Hd & Hlead).
      apply bind_inv_Ok in Hlead as ([de ke] & He & Hlead).
      injection Hlead as <- <- <-.
      apply store_inv in Ha as (-> & La & ? & ? & ?).
      apply store_inv in Hb as (-> & Lb & ? & ? & ?).
      apply store_inv in Hc as (-> & Lc & ? & ? & ?).
      apply store_inv in Hd as (-> & Ld & ? & ? & ?).
      apply store_inv in He as (-> & Le & ? & ? & ?).
      rewrite Ld, Lc, Lb, La in *.
      repeat split; try lia; eauto.
    - apply bind_inv_Ok in Hlead as ([da ka] & Ha & Hlead).
      apply bind_inv_Ok in Hlead as ([db kb] & Hb & Hlead).
      apply bind_inv_Ok in Hlead as ([dc kc] & Hc & Hlead).
      injection Hlead as <- <- <-.
      assert (Hr : exists hkl, read_hkl X loop indices i = Ok hkl).
      { unfold store_index, read_hkl in *.
        apply bind_inv_Ok in Ha as (s0 & R0 & Ha).
        apply bind_inv_Ok in Ha as (h & A0 & _).
        apply bind_inv_Ok in Hb as (s1 & R1 & Hb).
        apply bind_inv_Ok in Hb as (k0 & A1 & _).
        apply bind_inv_Ok in Hc as (s2 & R2 & Hc).
        apply bind_inv_Ok in Hc as (l & A2 & _).
        exists (h, k0, l). rewrite R0. ok. rewrite A0. ok. rewrite R1. ok.
        rewrite A1. ok. rewrite R2. ok. rewrite A2. reflexivity. }
      unfold store_index in Ha, Hb, Hc.
      apply bind_inv_Ok in Ha as (s0 & _ & Ha).
      apply bind_inv_Ok in Ha as (h & _ & Ha).
      apply bind_inv_Ok in Hb as (s1 & _ & Hb).
      apply bind_inv_Ok in Hb as (k0 & _ & Hb).
      apply bind_inv_Ok in Hc as (s2 & _ & Hc).
      apply bind_inv_Ok in Hc as (l & _ & Hc).
      apply store_inv in Ha as (-> & La & ? & ? & ?).
      apply store_inv in Hb as (-> & Lb & ? & ? & ?).
      apply store_inv in Hc as (-> & Lc & ? & ? & ?).
      rewrite Lb, La in *.
      repeat split; try lia; eauto. }
  destruct Hl as (-> & L1 & Hk & -> & Hk1 & Hk1' & Hhkl).
  assert (H3 : (3 <= length indices)%nat).
  { destruct Hhkl as [hkl Hhkl]. eapply read_hkl_inv. exact Hhkl. }
  assert (Hs : length d2 = length d /\
               j2 = 3 + (if us then 1 else 0) /\
               k2 = k + (if unmerged then 5 else 3) + (if us then 1 else 0) /\
               k2 <= Z.of_nat (length d) /\ k2 <= INT_MAX /\
               (us = true -> (4 <= length indices)%nat)).
  { destruct us.
    - apply bind_inv_Ok in Hstat as (s & Rs & Hstat).
      apply bind_inv_Ok in Hstat as ([ds ks] & Hst & Hstat).
      injection Hstat as <- <- <-.
      apply read_value_inv in Rs.
      apply store_inv in Hst as (-> & Ls & ? & ? & ?).
      rewrite L1 in *. repeat split; try lia.
    - injection Hstat as <- <- <-. repeat split; try lia; discriminate. }
  destruct Hs as (L2 & -> & -> & Hk2 & Hk2' & H4).
  destruct (Z.of_nat (length indices) <? 3 + (if us then 1 else 0)) eqn:E;
    [discriminate|].
  apply Z.ltb_ge in E.
  apply store_numbers_inv in H as (-> & L3 & _ & Hne).
  rewrite length_drop in *. rewrite L3, L2.
  assert (Hw : Z.of_nat (row_width indices unmerged) =
               (if unmerged then 2 else 0) + Z.of_nat (length indices)).
  { unfold row_width. destruct unmerged; lia. }
  rewrite Hw.
  split; [destruct unmerged, us; lia|].
  split; [reflexivity|]. split; [assumption|].
  destruct (drop (Z.to_nat (3 + (if us then 1 else 0))) indices) as [|ix0 rest] eqn:Ed.
  - apply (f_equal length) in Ed. rewrite length_drop in Ed. simpl in Ed.
    replace (length indices - Z.to_nat (3 + (if us then 1 else 0)))%nat
      with 0%nat by lia.
    repeat split; try lia; try assumption.
  - destruct Hne as (_ & Hb1 & Hb2); [discriminate|].
    rewrite L2 in Hb1.
    repeat split; try lia; try assumption.
Qed.

(** The rows that were written when the loop over the rows returns. *)
Lemma convert_rows_inv sg loop indices unmerged us :
  (0 < length (tags loop))%nat ->
  forall fuel i d k d' k',
    convert_rows X sg loop indices unmerged us fuel i (d, k) = Ok (d', k') ->
    exists m : nat,
      k' = k + Z.of_nat (m * row_width indices unmerged) /\
      length d' = length d /\
      (m = 0%nat -> d' = d) /\
      Z.of_nat (length (values loop)) <= i + Z.of_nat (m * length (tags loop)) /\
      ((0 < m)%nat ->
         i + Z.of_nat ((m - 1) * length (tags loop)) < Z.of_nat (length (values loop)) /\
         0 <= k /\ k' <= Z.of_nat (length d) /\ k' <= INT_MAX /\
         (3 <= length indices)%nat /\
         (us = true -> (4 <= length indices)%nat)) /\
      (forall q, (q < m)%nat -> exists hkl,
         read_hkl X loop indices (i + Z.of_nat (q * length (tags loop))) = Ok hkl).
Proof.
  intros HT. induction fuel as [|fuel IH]; intros i d k d' k' H; simpl in H.
  - destruct (i <? Z.of_nat (length (values loop))) eqn:E; [discriminate|].
    apply Z.ltb_ge in E. injection H as <- <-. exists 0%nat. simpl.
    repeat split; try lia; intros; lia.
  - destruct (i <? Z.of_nat (length (values loop))) eqn:E.
    + apply Z.ltb_lt in E.
      apply bind_inv_Ok in H as ([d1 k1] & Hrow & H).
      apply convert_row_inv in Hrow as (-> & L1 & Hk & Hk1 & Hk1' & H3 & H4 & Hhkl).
      apply IH in H as (m & -> & Lm & _ & Hend & Hpos & Hall).
      exists (S m). rewrite Lm, L1.
      split; [lia|]. split; [reflexivity|]. split; [discriminate|].
      split; [lia|]. split.
      * intros _. replace (S m - 1)%nat with m by lia.
        destruct m as [|m'].
        -- simpl. repeat split; try lia; assumption.
        -- destruct Hpos as (Hlt & ? & ? & ? & _); [lia|].
           replace (S m' - 1)%nat with m' in Hlt by lia.
           rewrite L1 in *. repeat split; try lia; assumption.
      * intros q Hq. destruct q as [|q'].
        -- simpl. rewrite Z.add_0_r. exact Hhkl.
        -- destruct (Hall q') as [hkl Hq']; [lia|]. exists hkl.
           rewrite <- Hq'. f_equal. lia.
    + apply Z.ltb_ge in E. injection H as <- <-. exists 0%nat. simpl.
      repeat split; try lia; intros; lia.
Qed.

(** ** The container, read back from a result *)

(** Whenever a container is built, the loop had whole rows, each row was
    written in full, and the container is the one [build_mtz_ok]
    describes. *)
Lemma build_mtz_complete self rb mtz :
  build_mtz X self rb = Ok mtz ->
  exists loop r (n : nat),
    selected_loop rb = Some loop /\
    tags loop <> [] /\
    resolve X loop (loop_prefix loop) (unmerged_mode self rb) (spec_entries self)
      = Ok r /\
    length (values loop) = (n * length (tags loop))%nat /\
    Z.of_nat (n * row_width (r_indices r) (unmerged_mode self rb)) <= INT_MAX /\
    (unmerged_mode self rb = true ->
       (3 <= length (r_indices r))%nat /\
       new_hkl_mover X (rb_spacegroup rb) = Ok ()) /\
    ((0 < n)%nat ->
       (3 <= length (r_indices r))%nat /\
       (uses_status r = true -> (4 <= length (r_indices r))%nat)) /\
    (forall row, (row < n)%nat -> exists hkl,
       read_hkl X loop (r_indices r) (Z.of_nat (row * length (tags loop))) = Ok hkl) /\
    mtz =
      mkMtz (match title self with Some t => t | None => EmptyString end)
        (history self) (rb_cell rb) (rb_spacegroup rb)
        [mkDataset "HKL_base" None; mkDataset "unknown" (Some (rb_wavelength rb))]
        (container_columns (unmerged_mode self rb) (r_columns r))
        (if unmerged_mode self rb then [mkBatch (rb_cell rb)] else [])
        (Z.of_nat n)
        (matrix X (rb_spacegroup rb) loop (r_indices r) (unmerged_mode self rb)
           (uses_status r) n).
Proof.
  intros H. pose proof H as H0.
  destruct (build_mtz_inv X _ _ _ H)
    as (loop & r & cols & d & k & Hsel & Htags & Hres & Hcols & Hrows & Hmtz).
  set (u := unmerged_mode self rb) in *.
  destruct (resolve_lengths X _ _ _ _ _ Hres) as [Hlen Hrange].
  assert (HT : (0 < length (tags loop))%nat).
  { destruct (tags loop); [congruence|simpl; lia]. }
  assert (Hcc : set_idx cols = container_columns u (r_columns r) /\
                length cols = row_width (r_indices r) u /\
                (u = true -> (3 <= length (r_indices r))%nat /\
                             new_hkl_mover X (rb_spacegroup rb) = Ok ())).
  { unfold container_columns, row_width. destruct u.
    - pose proof (unmerged_setup_inv X _ _ _ Hcols) as Ha.
      apply add_unmerged_columns_inv in Ha as [H3 ->].
      split; [reflexivity|]. split.
      + rewrite length_app. simpl. rewrite length_take, length_drop. lia.
      + intros _. split; [lia|].
        unfold unmerged_setup in Hcols.
        apply bind_inv_Ok in Hcols as (c & _ & Hcols).
        apply bind_inv_Ok in Hcols as ([] & Hmv & _). exact Hmv.
    - injection Hcols as <-. split; [reflexivity|]. split; [simpl; lia|].
      discriminate. }
  destruct Hcc as (Hcols' & Hw & Hu).
  rewrite length_set_idx, Hw in Hrows.
  apply convert_rows_inv in Hrows as (m & Hk & Ld & Hd0 & Hend & Hpos & Hall);
    [|exact HT].
  destruct m as [|m'].
  - (* no row *)
    assert (HV : length (values loop) = 0%nat) by (simpl in Hend; lia).
    exists loop, r, 0%nat. rewrite HV.
    split; [assumption|]. split; [assumption|]. split; [assumption|].
    split; [reflexivity|]. split; [unfold INT_MAX; simpl; lia|].
    split; [assumption|]. split; [lia|]. split; [intros; lia|].
    rewrite Hmtz, Hcols'. rewrite (Hd0 eq_refl).
    unfold loop_length. rewrite HV. simpl Z.of_nat. rewrite Z.div_0_l by lia.
    change (int_cast 0) with 0. change (size_cast 0) with 0.
    rewrite Z.mul_0_r. reflexivity.
  - (* at least one row *)
    destruct Hpos as (Hlast & _ & Hk' & Hmax & H3 & H4); [lia|].
    replace (S m' - 1)%nat with m' in Hlast by lia.
    rewrite length_replicate in Hk'. subst k.
    set (V := Z.of_nat (length (values loop))) in *.
    set (T := Z.of_nat (length (tags loop))) in *.
    set (w := Z.of_nat (row_width (r_indices r) u)) in *.
    assert (HTpos : 0 < T) by (subst T; lia).
    assert (Hw3 : 3 <= w) by (subst w; unfold row_width; lia).
    assert (Hfl : loop_length loop = V / T) by reflexivity.
    pose proof (Z.div_mod V T ltac:(lia)) as Hdm.
    pose proof (Z.mod_pos_bound V T HTpos) as Hmb.
    rewrite Nat2Z.inj_mul in Hlast, Hend, Hk', Hmax.
    fold T in Hlast, Hend. fold w in Hk', Hmax.
    rewrite Z.add_0_l in Hlast, Hend, Hk', Hmax.
    assert (Hlo : Z.of_nat m' <= V / T) by nia.
    assert (Hhi : V / T <= Z.of_nat (S m')) by nia.
    assert (Hsm : Z.of_nat (S m') * w <= INT_MAX) by lia.
    assert (Hfmax : 0 <= V / T <= INT_MAX) by (unfold INT_MAX in *; nia).
    rewrite Hfl, (int_cast_small _ Hfmax), (size_cast_small _ Hfmax) in Hk'.
    assert (Hprod : 0 <= w * (V / T) <= INT_MAX) by (unfold INT_MAX in *; nia).
    rewrite (size_cast_small _ Hprod) in Hk'.
    rewrite Z2Nat.id in Hk' by lia.
    assert (Hn : V / T = Z.of_nat (S m')) by nia.
    assert (HV : length (values loop) = (S m' * length (tags loop))%nat).
    { apply Nat2Z.inj. rewrite Nat2Z.inj_mul. fold V T. nia. }
    exists loop, r, (S m').
    split; [assumption|]. split; [assumption|]. split; [assumption|].
    split; [assumption|].
    split; [rewrite Nat2Z.inj_mul; fold w; lia|].
    split; [assumption|]. split; [intros _; split; assumption|].
    split; [exact Hall|].
    pose proof (build_mtz_ok X self rb loop r (S m') Hsel Hres H3 H4
                  (fun E => proj2 (Hu E)) HV) as Hb.
    fold u in Hb. rewrite H0 in Hb.
    assert (Hmx : Z.of_nat (S m' * row_width (r_indices r) u) <= INT_MAX).
    { rewrite Nat2Z.inj_mul. fold w. lia. }
    specialize (Hb Hmx Hall). injection Hb as ->. reflexivity.
Qed.

Lemma length_container_columns (u : bool) (cols : list Column.t) :
  (u = true -> (3 <= length cols)%nat) ->
  length (container_columns u cols) = ((if u then 2 else 0) + length cols)%nat.
Proof.
  intros H. unfold container_columns. rewrite length_set_idx. destruct u; [|reflexivity].
  specialize (H eq_refl). rewrite length_app. simpl.
  rewrite length_take, length_drop. lia.
Qed.

(** X8. Every container that is built is rectangular. The loop it was
    built from had whole rows only: as many values as the number of
    reflections times the number of tags. The matrix has exactly one cell
    per column and reflection, and their number is within the range of the
    [int] counter of the cells. This holds without any assumption on the
    loop or on the library routines: when the values are not a whole number
    of rows, or the counter would leave its range, the loop over the rows
    indexes outside a vector and the conversion has no defined result. *)
Theorem X8_container_is_rectangular self rb mtz loop :
  build_mtz X self rb = Ok mtz ->
  selected_loop rb = Some loop ->
  0 <= nreflections mtz /\
  Z.of_nat (length (values loop)) =
    nreflections mtz * Z.of_nat (length (tags loop)) /\
  Z.of_nat (length (data mtz)) =
    Z.of_nat (length (columns mtz)) * nreflections mtz /\
  Z.of_nat (length (data mtz)) <= INT_MAX.
Proof.
  intros H Hsel.
  destruct (build_mtz_complete _ _ _ H)
    as (loop' & r & n & Hsel' & Htags & Hres & HV & Hmax & Hu & Hpos & Hall & ->).
  rewrite Hsel in Hsel'. injection Hsel' as <-.
  destruct (resolve_lengths X _ _ _ _ _ Hres) as [Hlen _].
  cbn [nreflections data columns].
  assert (Hc : length (container_columns (unmerged_mode self rb) (r_columns r)) =
               row_width (r_indices r) (unmerged_mode self rb)).
  { rewrite length_container_columns.
    - unfold row_width. rewrite Hlen. reflexivity.
    - intros E. rewrite Hlen. apply Hu. exact E. }
  rewrite Hc. split; [lia|]. split; [rewrite HV; lia|].
  destruct n as [|n'].
  - unfold matrix. simpl. unfold INT_MAX. lia.
  - destruct Hpos as [H3 H4]; [lia|].
    rewrite length_matrix by assumption. split; [lia|exact Hmax].
Qed.

Lemma column_of_entry_type e : Column.type (column_of_entry e) <> "s"%char.
Proof.
  unfold column_of_entry. simpl.
  destruct (Ascii.eqb (col_type e) "s") eqn:E; [discriminate|].
  apply Ascii.eqb_neq. exact E.
Qed.

(** X9. In every container that is built, each column records its own
    position in [idx], and no column has the type 's': the type of the
    spec for the status is never written to a container. *)
Theorem X9_columns_know_their_position self rb mtz (i : nat) c :
  build_mtz X self rb = Ok mtz ->
  columns mtz !! i = Some c ->
  Column.idx c = Z.of_nat i /\ Column.type c <> "s"%char.
Proof.
  intros H Hc.
  destruct (build_mtz_complete _ _ _ H)
    as (loop & r & n & _ & _ & Hres & _ & _ & Hu & _ & _ & ->).
  cbn [columns] in Hc. unfold container_columns in Hc.
  rewrite lookup_set_idx in Hc.
  destruct (resolve_from_kept _ _ _ _ _ _ Hres) as (kept & _ & Hcols & _).
  simpl in Hcols.
  assert (Hty : forall c0, In c0 (r_columns r) -> Column.type c0 <> "s"%char).
  { rewrite Hcols. intros c0 Hin. apply in_map_iff in Hin as (e & <- & _).
    apply column_of_entry_type. }
  destruct ((if unmerged_mode self rb
             then take 3 (r_columns r) ++ isym_column :: batch_column
                    :: drop 3 (r_columns r)
             else r_columns r) !! i) as [c0|] eqn:E; [|discriminate].
  injection Hc as <-. split; [reflexivity|]. simpl.
  apply list_elem_of_lookup_2 in E.
  assert (Hty' : forall c1, c1 ∈ r_columns r -> Column.type c1 <> "s"%char).
  { intros c1 Hin. apply Hty. apply list_elem_of_In. exact Hin. }
  destruct (unmerged_mode self rb); [|apply Hty'; exact E].
  apply elem_of_app in E as [E|E].
  - apply elem_of_take in E as (q & Hq & _).
    apply Hty'. eapply list_elem_of_lookup_2. exact Hq.
  - apply elem_of_cons in E as [->|E]; [discriminate|].
    apply elem_of_cons in E as [->|E]; [discriminate|].
    apply list_elem_of_lookup_1 in E as [q Hq].
    rewrite lookup_drop in Hq.
    apply Hty'. eapply list_elem_of_lookup_2. exact Hq.
Qed.

(** X10. The cells of a built container after the indices. In every row,
    the cell of the resolved position [j >= 3] (two places further in
    unmerged mode, after M/ISYM and BATCH) is computed from the source cell
    of the row under the tag of that position: it is its flag when the
    status encoding is on and [j] is 3, and otherwise NaN when the source
    cell is null and the number read from it when not. *)
Theorem X10_cells_after_the_indices self rb mtz loop r (row j : nat) ix :
  build_mtz X self rb = Ok mtz ->
  selected_loop rb = Some loop ->
  resolve X loop (loop_prefix loop) (unmerged_mode self rb) (spec_entries self)
    = Ok r ->
  Z.of_nat row < nreflections mtz ->
  (3 <= j)%nat ->
  r_indices r !! j = Some ix ->
  data mtz !! (row * length (columns mtz)
               + ((if unmerged_mode self rb then 2 else 0) + j))%nat =
    Some (if uses_status r && (j =? 3)%nat
          then status_to_freeflag (source_cell loop row ix)
          else number_cell X (source_cell loop row ix)).
Proof.
  intros H Hsel Hres Hrow Hj Hix.
  destruct (build_mtz_complete _ _ _ H)
    as (loop' & r' & n & Hsel' & Htags & Hres' & HV & Hmax & Hu & Hpos & Hall & ->).
  rewrite Hsel in Hsel'. injection Hsel' as <-.
  rewrite Hres in Hres'. injection Hres' as <-.
  destruct (resolve_lengths X _ _ _ _ _ Hres) as [Hlen _].
  cbn [nreflections data columns] in *.
  destruct Hpos as [H3 H4]; [lia|].
  assert (Hjlt : (j < length (r_indices r))%nat)
    by (eapply lookup_lt_Some; exact Hix).
  rewrite length_container_columns by (intros _; lia).
  set (u := unmerged_mode self rb) in *.
  assert (Hw : ((if u then 2 else 0) + length (r_columns r))%nat =
               row_width (r_indices r) u).
  { unfold row_width. rewrite Hlen. reflexivity. }
  rewrite Hw.
  rewrite matrix_row; [|assumption|assumption|lia|unfold row_width; lia].
  unfold row_cells.
  rewrite lookup_app_r; rewrite length_leading_cells; [|lia].
  replace ((if u then 2 else 0) + j - ((if u then 2 else 0) + 3))%nat
    with (j - 3)%nat by lia.
  apply trailing_cells_lookup; assumption.
Qed.

(** The cell of an index in merged mode. *)
Lemma merged_leading_cell sg loop indices (n row j : nat) ix hkl :
  length (values loop) = (n * length (tags loop))%nat ->
  (row < n)%nat ->
  Forall (fun ix => 0 <= ix < Z.of_nat (length (tags loop))) indices ->
  read_hkl X loop indices (Z.of_nat (row * length (tags loop))) = Ok hkl ->
  (j < 3)%nat ->
  indices !! j = Some ix ->
  exists z,
    as_int X (source_cell loop row ix) = Ok z /\
    leading_cells X sg loop indices false row !! j = Some (float_of_int z).
Proof.
  intros HV Hrow Hrange Hread Hj Hix.
  unfold leading_cells, hkl_of_row. rewrite Hread.
  destruct hkl as [[h k] l].
  unfold read_hkl in Hread.
  apply bind_inv_Ok in Hread as (s0 & R0 & Hread).
  apply bind_inv_Ok in Hread as (h' & A0 & Hread).
  apply bind_inv_Ok in Hread as (s1 & R1 & Hread).
  apply bind_inv_Ok in Hread as (k' & A1 & Hread).
  apply bind_inv_Ok in Hread as (s2 & R2 & Hread).
  apply bind_inv_Ok in Hread as (l' & A2 & Hread).
  injection Hread as -> -> ->.
  pose proof (read_value_at loop indices n row j ix HV Hrow Hrange Hix) as Hv.
  destruct j as [|[|[|j]]]; [| | |lia].
  - change (Z.of_nat 0) with 0 in Hv. rewrite Hv in R0. injection R0 as <-. exists h. auto.
  - change (Z.of_nat 1) with 1 in Hv. rewrite Hv in R1.
    injection R1 as <-. exists k. auto.
  - change (Z.of_nat 2) with 2 in Hv. rewrite Hv in R2. injection R2 as <-. exists l. auto.
Qed.

(** X11. The index cells of a container built in merged mode. In every
    row, each of the first three cells is the integer that [as_int] reads
    from the source cell of the row under the tag of that resolved
    position, converted to a cell: the indices are written as read, the
    symmetry reduction is not applied. *)
Theorem X11_merged_index_cells self rb mtz loop r (row j : nat) ix :
  build_mtz X self rb = Ok mtz ->
  selected_loop rb = Some loop ->
  unmerged_mode self rb = false ->
  resolve X loop (loop_prefix loop) false (spec_entries self) = Ok r ->
  Z.of_nat row < nreflections mtz ->
  (j < 3)%nat ->
  r_indices r !! j = Some ix ->
  exists z,
    as_int X (source_cell loop row ix) = Ok z /\
    data mtz !! (row * length (columns mtz) + j)%nat = Some (float_of_int z).
Proof.
  intros H Hsel Hu Hres Hrow Hj Hix.
  destruct (build_mtz_complete _ _ _ H)
    as (loop' & r' & n & Hsel' & Htags & Hres' & HV & Hmax & _ & Hpos & Hall & ->).
  rewrite Hsel in Hsel'. injection Hsel' as <-.
  rewrite Hu in *.
  rewrite Hres in Hres'. injection Hres' as <-.
  destruct (resolve_lengths X _ _ _ _ _ Hres) as [Hlen Hrange].
  cbn [nreflections data columns] in *.
  destruct Hpos as [H3 H4]; [lia|].
  destruct (Hall row) as [hkl Hread]; [lia|].
  destruct (merged_leading_cell (rb_spacegroup rb) loop (r_indices r) n row j ix hkl
              HV ltac:(lia) Hrange Hread Hj Hix) as (z & Hz & Hcell).
  exists z. split; [exact Hz|].
  rewrite length_container_columns by discriminate. simpl.
  assert (Hw : length (r_columns r) = row_width (r_indices r) false).
  { unfold row_width. rewrite Hlen. reflexivity. }
  rewrite Hw.
  rewrite matrix_row; [|assumption|assumption|lia|unfold row_width; lia].
  unfold row_cells. rewrite lookup_app_l; [exact Hcell|].
  rewrite length_leading_cells. simpl. lia.
Qed.

(** ** What merged mode does not use *)

Section OtherRoutines.
Variable X' : Externals UnitCell SpaceGroup.
Hypothesis Htag : forall t q, tag_eqb X t q = tag_eqb X' t q.
Hypothesis Hnull : forall v, is_null X v = is_null X' v.
Hypothesis Hint : forall v, as_int X v = as_int X' v.
Hypothesis Hnum : forall v, as_number X v = as_number X' v.

Lemma store_index_agree loop indices i j st :
  store_index X loop indices i j st = store_index X' loop indices i j st.
Proof.
  unfold store_index. destruct (read_value loop indices i j); simpl; [|reflexivity..].
  rewrite Hint. reflexivity.
Qed.

Lemma store_numbers_agree loop i ixs :
  forall st, store_numbers X loop i ixs st = store_numbers X' loop i ixs st.
Proof.
  induction ixs as [|ix ixs IH]; intros st; simpl; [reflexivity|].
  unfold store_number, number_cell.
  destruct (vec_get (values loop) (i + ix)) as [v| | |]; simpl; [|reflexivity..].
  rewrite Hnull, Hnum.
  destruct (store _ st); simpl; auto.
Qed.

Lemma convert_row_merged_agree sg sg' loop indices us i st :
  convert_row X sg loop indices false us i st =
  convert_row X' sg' loop indices false us i st.
Proof.
  unfold convert_row.
  rewrite (store_index_agree loop indices i 0 st).
  destruct (store_index X' loop indices i 0 st) as [st0| | |]; [|reflexivity..]. ok.
  rewrite (store_index_agree loop indices i 1 st0).
  destruct (store_index X' loop indices i 1 st0) as [st1| | |]; [|reflexivity..]. ok.
  rewrite (store_index_agree loop indices i 2 st1).
  destruct (store_index X' loop indices i 2 st1) as [st2| | |]; [|reflexivity..]. ok.
  destruct us.
  - destruct (read_value loop indices i 3) as [s| | |]; [|reflexivity..]. ok.
    destruct (store (status_to_freeflag s) st2) as [st3| | |]; [|reflexivity..]. ok.
    destruct (_ <? _); [reflexivity|]. apply store_numbers_agree.
  - ok. destruct (_ <? _); [reflexivity|]. apply store_numbers_agree.
Qed.

Lemma convert_rows_merged_agree sg sg' loop indices us fuel :
  forall i st,
    convert_rows X sg loop indices false us fuel i st =
    convert_rows X' sg' loop indices false us fuel i st.
Proof.
  induction fuel as [|fuel IH]; intros i st; simpl; [reflexivity|].
  destruct (_ <? _); [|reflexivity].
  rewrite (convert_row_merged_agree sg sg').
  destruct (convert_row X' sg' loop indices false us i st); simpl; auto.
Qed.

(** X12. In merged mode the conversion does not use the symmetry service:
    two sets of library routines that agree on the comparison of tags, on
    the null test and on the reading of integers and numbers build the same
    container, or fail in the same way, whatever their movers do. *)
Theorem X12_merged_mode_does_not_use_the_mover self rb :
  unmerged_mode self rb = false ->
  build_mtz X self rb = build_mtz X' self rb.
Proof.
  intros Hu. unfold build_mtz. rewrite Hu.
  destruct (selected_loop rb) as [loop|]; [|reflexivity].
  destruct (vec_get (tags loop) 0) as [tag0| | |]; [|reflexivity..]. ok.
  unfold resolve.
  rewrite (resolve_from_ext X X' loop (category_prefix tag0) false (spec_entries self)).
  2:{ intros e _. unfold find_tag. apply find_index_ext. intros t _. apply Htag. }
  destruct (resolve_from X' loop _ false resolved_init (spec_entries self))
    as [r| | |]; [|reflexivity..]. ok.
  rewrite (convert_rows_merged_agree (rb_spacegroup rb) (rb_spacegroup rb)).
  reflexivity.
Qed.
End OtherRoutines.

(** ** Unmerged mode with too few columns *)

(** X13. In unmerged mode the two synthetic columns are inserted at the
    positions 3 and 4 of the columns of the resolver: when the resolver
    gives fewer than three columns, the first insertion is beyond the end
    of the vector and the conversion has no defined result. *)
Theorem X13_unmerged_insertion_needs_three_columns self rb loop r :
  selected_loop rb = Some loop ->
  tags loop <> [] ->
  unmerged_mode self rb = true ->
  resolve X loop (loop_prefix loop) true (spec_entries self) = Ok r ->
  (length (r_columns r) < 3)%nat ->
  build_mtz X self rb = Undefined.
Proof.
  intros Hsel Htags Hu Hres Hlen. unfold build_mtz. rewrite Hsel, Hu.
  assert (Hget : vec_get (tags loop) 0 = Ok (hd EmptyString (tags loop))).
  { destruct (tags loop); [congruence|reflexivity]. }
  rewrite Hget. ok. fold (loop_prefix loop). rewrite Hres. ok.
  unfold unmerged_setup, add_unmerged_columns, emplace_at.
  replace (3 <=? length (r_columns r))%nat with false
    by (symmetry; apply Nat.leb_gt; lia).
  reflexivity.
Qed.

(** ** The selection of a block by its name *)

(** X14. [get_block_by_name] gives the first block that bears the name,
    whatever comes after it, and fails with [block not found: <name>]
    exactly when no block bears it. *)
Theorem X14_get_block_by_name_gives_the_first
    (rblocks : list (ReflnBlock UnitCell SpaceGroup)) name :
  (forall rb,
     get_block_by_name rblocks name = Ok rb <->
     exists pre post,
       rblocks = pre ++ rb :: post /\ block_name rb = name /\
       Forall (fun b => block_name b <> name) pre) /\
  (get_block_by_name rblocks name = fail ("block not found: " +:+ name) <->
   Forall (fun b => block_name b <> name) rblocks).
Proof.
  induction rblocks as [|b rest [IHok IHfail]]; simpl.
  - split.
    + intros rb. split; [discriminate|].
      intros (pre & post & E & _). destruct pre; discriminate.
    + split; [constructor|reflexivity].
  - destruct (String.eqb (block_name b) name) eqn:E.
    + apply String.eqb_eq in E. split.
      * intros rb. split.
        -- intros [= <-]. exists [], rest. repeat split; auto.
        -- intros (pre & post & Hl & Hn & Hpre).
           destruct pre as [|p pre]; simpl in Hl.
           ++ injection Hl as -> _. reflexivity.
           ++ injection Hl as -> _. apply Forall_cons in Hpre as [Hp _].
              contradiction.
      * split; [discriminate|]. intros H. apply Forall_cons in H as [Hb _].
        contradiction.
    + apply String.eqb_neq in E. split.
      * intros rb. rewrite IHok. split.
        -- intros (pre & post & -> & Hn & Hpre).
           exists (b :: pre), post. repeat split; auto.
        -- intros (pre & post & Hl & Hn & Hpre).
           destruct pre as [|p pre]; simpl in Hl.
           ++ injection Hl as -> _. contradiction.
           ++ injection Hl as -> ->. apply Forall_cons in Hpre as [_ Hpre].
              exists pre, post. auto.
      * rewrite IHfail. split.
        -- intros H. constructor; assumption.
        -- intros H. apply Forall_cons in H as [_ H]. exact H.
Qed.

Lemma get_block_by_name_first
    (pre : list (ReflnBlock UnitCell SpaceGroup)) rb post name :
  block_name rb = name ->
  Forall (fun b => block_name b <> name) pre ->
  get_block_by_name (pre ++ rb :: post) name = Ok rb.
Proof.
  intros Hn Hpre. induction Hpre as [|b pre Hb _ IH]; simpl.
  - apply String.eqb_eq in Hn. rewrite Hn. reflexivity.
  - apply String.eqb_neq in Hb. rewrite Hb. exact IH.
Qed.

Lemma get_block_by_name_none
    (rblocks : list (ReflnBlock UnitCell SpaceGroup)) name :
  Forall (fun b => block_name b <> name) rblocks ->
  get_block_by_name rblocks name = fail ("block not found: " +:+ name).
Proof.
  intros H. induction H as [|b rest Hb _ IH]; simpl; [reflexivity|].
  apply String.eqb_neq in Hb. rewrite Hb. exact IH.
Qed.

(** X15. Without [--dir], a run with [--block=NAME] converts the first
    block that bears the name as a run without the option converts a file
    that starts with this block; when no block bears the name the run
    returns 1 and writes nothing. *)
Theorem X15_block_option_selects_the_first self name path
    (rblocks : list (ReflnBlock UnitCell SpaceGroup)) w :
  (Forall (fun b => block_name b <> name) rblocks ->
   main_convert X self (mkOptions None (Some name) path) rblocks w = (Ok 1, w)) /\
  (forall pre rb post,
     rblocks = pre ++ rb :: post ->
     block_name rb = name ->
     Forall (fun b => block_name b <> name) pre ->
     main_convert X self (mkOptions None (Some name) path) rblocks w =
     main_convert X self (mkOptions None None path) (rb :: post) w).
Proof.
  split.
  - intros H. unfold main_convert. simpl.
    rewrite get_block_by_name_none by assumption. reflexivity.
  - intros pre rb post -> Hn Hpre. unfold main_convert. simpl.
    rewrite get_block_by_name_first by assumption. reflexivity.
Qed.

(** ** The loop over the blocks *)

Lemma convert_all_blocks_outcome self dir blocks :
  Forall (fun rb =>
            (exists mtz, build_mtz X self rb = Ok mtz /\
                         write_to_file X mtz (block_path dir rb) = Ok ()) \/
            (exists what, build_mtz X self rb = Throw (RuntimeError what)))
         blocks ->
  forall ok w,
    convert_all_blocks X self dir blocks ok w =
      (Ok (ok && forallb (fun rb => returned (build_mtz X self rb)) blocks),
       w ++ omap (file_of_block X self dir) blocks).
Proof.
  intros H. induction H as [|rb rest Hrb _ IH]; intros ok w; simpl.
  - rewrite andb_true_r, app_nil_r. reflexivity.
  - unfold convert_block_to_mtz, file_of_block.
    destruct Hrb as [(mtz & Hb & Hw) | (what & Hb)]; rewrite Hb.
    + rewrite Hw. rewrite IH. simpl. rewrite <- app_assoc. reflexivity.
    + rewrite IH. simpl. rewrite andb_false_r. reflexivity.
Qed.

(** X16. A run with [--dir] over blocks each of which is either converted
    and written, or refused by the conversion with a std::runtime_error:
    every block is visited, the files written are those of the blocks that
    were converted, in the order of the blocks and one per block, each at
    <dir>/<block name>.mtz, and the run returns 0 when every block was
    converted and 1 otherwise. *)
Theorem X16_dir_run_converts_what_it_can self dir oblock opath
    (blocks : list (ReflnBlock UnitCell SpaceGroup)) w :
  Forall (fun rb =>
            (exists mtz, build_mtz X self rb = Ok mtz /\
                         write_to_file X mtz (block_path dir rb) = Ok ()) \/
            (exists what, build_mtz X self rb = Throw (RuntimeError what)))
         blocks ->
  main_convert X self (mkOptions (Some dir) oblock opath) blocks w =
    (Ok (if forallb (fun rb => returned (build_mtz X self rb)) blocks
         then 0 else 1),
     w ++ omap (file_of_block X self dir) blocks).
Proof.
  intros H. unfold main_convert. simpl.
  rewrite (convert_all_blocks_outcome self dir blocks H). simpl.
  destruct (forallb _ blocks); reflexivity.
Qed.

(** When the loop over the blocks ends with [ok] true, it started with
    [ok] true and every block was converted and written. *)
Lemma convert_all_blocks_all_done self dir blocks :
  forall ok w w',
    convert_all_blocks X self dir blocks ok w = (Ok true, w') ->
    ok = true /\
    Forall (fun rb => exists mtz,
              build_mtz X self rb = Ok mtz /\
              write_to_file X mtz (block_path dir rb) = Ok ()) blocks.
Proof.
  induction blocks as [|rb rest IH]; intros ok w w' H; simpl in H.
  - injection H as -> _. split; [reflexivity|constructor].
  - unfold convert_block_to_mtz in H.
    destruct (build_mtz X self rb) as [mtz|[]|c|] eqn:Hb; try discriminate.
    + destruct (write_to_file X mtz (block_path dir rb)) as [[]|[]|c|] eqn:Hw;
        try discriminate.
      apply IH in H as [-> Hrest]. split; [reflexivity|].
      constructor; [exists mtz; auto|exact Hrest].
    + apply IH in H as [Hf _]. discriminate.
Qed.

(** X21. What the status 0 of the conversion tells. With [--dir], every
    block of the file was converted and its file written: the files added
    are those of the blocks, one per block and in their order. Without
    [--dir], exactly one file was added, at the path given, and it holds
    the container of the block that was selected: the first block that
    bears the name given with [--block], or the first block of the file
    when the option is not given. *)
Theorem X21_status_0_means_every_file_was_written self opts
    (blocks : list (ReflnBlock UnitCell SpaceGroup)) w w' :
  main_convert X self opts blocks w = (Ok 0, w') ->
  match opt_dir opts with
  | Some dir =>
      Forall (fun rb => exists mtz,
                build_mtz X self rb = Ok mtz /\
                write_to_file X mtz (block_path dir rb) = Ok ()) blocks /\
      w' = w ++ omap (file_of_block X self dir) blocks /\
      length (omap (file_of_block X self dir) blocks) = length blocks
  | None =>
      exists rb mtz,
        match opt_block opts with
        | Some name =>
            exists pre post,
              blocks = pre ++ rb :: post /\ block_name rb = name /\
              Forall (fun b => block_name b <> name) pre
        | None => exists rest, blocks = rb :: rest
        end /\
        build_mtz X self rb = Ok mtz /\
        write_to_file X mtz (opt_mtz_path opts) = Ok () /\
        w' = w ++ [(opt_mtz_path opts, mtz)]
  end.
Proof.
  unfold main_convert. intros H. destruct (opt_dir opts) as [dir|].
  - destruct (convert_all_blocks X self dir blocks true w) as [r1 w1] eqn:Hc.
    destruct r1 as [[]|[]|c|]; try discriminate. injection H as <-.
    apply convert_all_blocks_all_done in Hc as H1. destruct H1 as [_ Hall].
    split; [exact Hall|].
    rewrite (convert_all_blocks_outcome self dir blocks) in Hc.
    + injection Hc as _ <-. split; [reflexivity|].
      clear -Hall. induction Hall as [|rb rest (mtz & Hb & _) _ IH];
        [reflexivity|].
      simpl. unfold file_of_block at 1. rewrite Hb. simpl. f_equal. exact IH.
    + eapply Forall_impl; [exact Hall|]. intros rb Hrb. left. exact Hrb.
  - assert (Hconv : forall rb,
              match convert_block_to_mtz X self rb (opt_mtz_path opts) w with
              | (Ok _, w') => (Ok 0, w')
              | (Throw (RuntimeError _), w') => (Ok 1, w')
              | (Throw e, w') => (Throw e, w')
              | (Exit c, w') => (Exit c, w')
              | (Undefined, w') => (Undefined, w')
              end = (Ok 0, w') ->
              exists mtz, build_mtz X self rb = Ok mtz /\
                          write_to_file X mtz (opt_mtz_path opts) = Ok () /\
                          w' = w ++ [(opt_mtz_path opts, mtz)]).
    { intros rb Hrb. unfold convert_block_to_mtz in Hrb.
      destruct (build_mtz X self rb) as [mtz|[]|c|]; try discriminate.
      destruct (write_to_file X mtz (opt_mtz_path opts)) as [[]|[]|c|] eqn:Hw;
        try discriminate.
      injection Hrb as <-. exists mtz. auto. }
    destruct (opt_block opts) as [name|].
    + destruct (get_block_by_name blocks name) as [rb|[]|c|] eqn:Hg;
        try discriminate.
      destruct (Hconv rb H) as (mtz & Hb & Hwr & Hw).
      exists rb, mtz. split; [|auto].
      clear -Hg. induction blocks as [|b rest IH]; simpl in Hg; [discriminate|].
      destruct (String.eqb (block_name b) name) eqn:E.
      * injection Hg as ->. apply String.eqb_eq in E.
        exists [], rest. repeat split; auto.
      * apply String.eqb_neq in E.
        destruct (IH Hg) as (pre & post & -> & Hn & Hpre).
        exists (b :: pre), post. repeat split; auto.
    + destruct blocks as [|rb rest]; [discriminate|].
      destruct (Hconv rb H) as (mtz & Hb & Hwr & Hw).
      exists rb, mtz. split; [exists rest; reflexivity|auto].
Qed.

(** ** The files of a run *)

(** What a call of [convert_block_to_mtz] adds to the files. *)
Lemma convert_block_to_mtz_files self rb path w res w' :
  convert_block_to_mtz X self rb path w = (res, w') ->
  w' = w \/
  exists mtz, build_mtz X self rb = Ok mtz /\
              write_to_file X mtz path = Ok () /\
              res = Ok () /\ w' = w ++ [(path, mtz)].
Proof.
  unfold convert_block_to_mtz. intros H.
  destruct (build_mtz X self rb) as [mtz|e|c|] eqn:Hb;
    try (injection H as <- <-; left; reflexivity).
  destruct (write_to_file X mtz path) as [[]|[]|c|] eqn:Hw;
    try (injection H as <- <-; left; reflexivity).
  injection H as <- <-. right. exists mtz. auto.
Qed.

Lemma written_for_cons self opts rb blocks file :
  written_for X self opts blocks file ->
  written_for X self opts (rb :: blocks) file.
Proof.
  intros (rb0 & Hin & H). exists rb0. split; [right; exact Hin|exact H].
Qed.

Lemma convert_all_blocks_files self dir oblock opath blocks :
  forall ok w res w',
    convert_all_blocks X self dir blocks ok w = (res, w') ->
    exists new,
      w' = w ++ new /\
      Forall (written_for X self (mkOptions (Some dir) oblock opath) blocks) new.
Proof.
  induction blocks as [|rb rest IH]; intros ok w res w' H; simpl in H.
  - injection H as <- <-. exists []. rewrite app_nil_r. split; constructor.
  - destruct (convert_block_to_mtz X self rb (block_path dir rb) w)
      as [r1 w1] eqn:Hc.
    assert (Hone : exists new1, w1 = w ++ new1 /\
              Forall (written_for X self (mkOptions (Some dir) oblock opath)
                        (rb :: rest)) new1).
    { apply convert_block_to_mtz_files in Hc as [->|(mtz & Hb & _ & _ & ->)].
      - exists []. rewrite app_nil_r. split; constructor.
      - exists [(block_path dir rb, mtz)]. split; [reflexivity|].
        constructor; [|constructor]. exists rb. simpl. auto. }
    destruct Hone as (new1 & -> & Hnew1).
    assert (Hstop : w' = w ++ new1 ->
              exists new, w' = w ++ new /\
                Forall (written_for X self (mkOptions (Some dir) oblock opath)
                          (rb :: rest)) new).
    { intros ->. eauto. }
    assert (Hgo : forall ok', convert_all_blocks X self dir rest ok' (w ++ new1)
                              = (res, w') ->
              exists new, w' = w ++ new /\
                Forall (written_for X self (mkOptions (Some dir) oblock opath)
                          (rb :: rest)) new).
    { intros ok' Hrest. apply IH in Hrest as (new2 & -> & Hnew2).
      exists (new1 ++ new2). rewrite app_assoc. split; [reflexivity|].
      apply Forall_app. split; [exact Hnew1|].
      eapply Forall_impl; [exact Hnew2|]. intros file. apply written_for_cons. }
    destruct r1 as [[]|[]|c|];
      try (eapply Hgo; exact H);
      injection H as _ <-; apply Hstop; reflexivity.
Qed.

(** What the conversion part of a run adds to the files. *)
Lemma main_convert_files self opts blocks w res w' :
  main_convert X self opts blocks w = (res, w') ->
  exists new,
    w' = w ++ new /\
    (opt_dir opts = None -> (length new <= 1)%nat) /\
    Forall (written_for X self opts blocks) new.
Proof.
  unfold main_convert. destruct opts as [[dir|] oblock opath]; simpl; intros H.
  - destruct (convert_all_blocks X self dir blocks true w) as [r1 w1] eqn:Hc.
    apply (convert_all_blocks_files self dir oblock opath) in Hc
      as (new & -> & Hnew).
    exists new. split; [|split; [discriminate|exact Hnew]].
    destruct r1 as [[]|[]|c|]; injection H as _ <-; reflexivity.
  - assert (Hnone : w' = w ->
              exists new, w' = w ++ new /\ (@None string = None -> (length new <= 1)%nat) /\
                Forall (written_for X self (mkOptions None oblock opath) blocks) new).
    { intros ->. exists []. rewrite app_nil_r. repeat split; auto. }
    assert (Hblock : forall rb, In rb blocks ->
              match convert_block_to_mtz X self rb opath w with
              | (Ok _, w') => (Ok 0, w')
              | (Throw (RuntimeError _), w') => (Ok 1, w')
              | (Throw e, w') => (Throw e, w')
              | (Exit c, w') => (Exit c, w')
              | (Undefined, w') => (Undefined, w')
              end = (res, w') ->
              exists new, w' = w ++ new /\ (@None string = None -> (length new <= 1)%nat) /\
                Forall (written_for X self (mkOptions None oblock opath) blocks) new).
    { intros rb Hin Hrb.
      destruct (convert_block_to_mtz X self rb opath w) as [r1 w1] eqn:Hc.
      assert (Hw1 : w1 = w').
      { destruct r1 as [[]|[]|c|]; injection Hrb as _ <-; reflexivity. }
      subst w1.
      apply convert_block_to_mtz_files in Hc as [->|(mtz & Hb & _ & _ & ->)].
      - apply Hnone. reflexivity.
      - exists [(opath, mtz)]. split; [reflexivity|]. split; [simpl; lia|].
        constructor; [|constructor]. exists rb. simpl. auto. }
    destruct oblock as [name|].
    + destruct (get_block_by_name blocks name) as [rb|[]|c|] eqn:Hg;
        try (injection H as _ <-; apply Hnone; reflexivity).
      apply (Hblock rb); [|exact H].
      clear -Hg. induction blocks as [|b rest IH]; simpl in Hg; [discriminate|].
      destruct (String.eqb (block_name b) name).
      * injection Hg as ->. left. reflexivity.
      * right. apply IH. exact Hg.
    + destruct blocks as [|rb rest].
      * injection H as _ <-. apply Hnone. reflexivity.
      * apply (Hblock rb); [left; reflexivity|exact H].
Qed.

Lemma main_convert_status self opts blocks w (c : Z) w' :
  main_convert X self opts blocks w = (Ok c, w') -> c = 0 \/ c = 1.
Proof.
  unfold main_convert. intros H.
  destruct (opt_dir opts) as [dir|].
  - destruct (convert_all_blocks X self dir blocks true w) as [[[]|[]|?|] w1];
      try discriminate; injection H as <- _; auto.
  - destruct (match opt_block opts with
              | Some name => get_block_by_name blocks name
              | None => match blocks with
                        | rb :: _ => Ok rb
                        | [] => Throw (OtherException "vector::at")
                        end
              end) as [rb|[]|?|]; try discriminate.
    + destruct (convert_block_to_mtz X self rb (opt_mtz_path opts) w)
        as [[[]|[]|?|] w1]; try discriminate; injection H as <- _; auto.
    + injection H as <- _. auto.
Qed.

Section Run.
Variable read_spec_file : string -> Res (list string).
Variable read_blocks : string -> Res (list (ReflnBlock UnitCell SpaceGroup)).

(** X17. The files of a run. A run only adds files to those that were
    there; every file it adds holds a container built, with the table and
    the options of the run, from a block of the file that was read, at the
    path the options give for that block; without [--dir] at most one file
    is added, and with [--print-spec] none. *)
Theorem X17_files_of_a_run cl w res w' :
  gemmi_main X read_spec_file read_blocks cl w = (res, w') ->
  exists new,
    w' = w ++ new /\
    (cl_print_spec cl = true -> new = []) /\
    (opt_dir (cl_select cl) = None -> (length new <= 1)%nat) /\
    Forall (fun file =>
              exists entries blocks,
                setup_spec read_spec_file cl = Ok entries /\
                read_blocks (cl_cif_path cl) = Ok blocks /\
                written_for X
                  (mkCifToMtz entries (cl_verbose cl) (cl_unmerged cl)
                     (cl_title cl) (cl_history cl))
                  (cl_select cl) blocks file) new.
Proof.
  unfold gemmi_main. intros H.
  assert (Hnone : w' = w ->
    exists new, w' = w ++ new /\ (cl_print_spec cl = true -> new = []) /\
      (opt_dir (cl_select cl) = None -> (length new <= 1)%nat) /\
      Forall (fun file =>
                exists entries blocks,
                  setup_spec read_spec_file cl = Ok entries /\
                  read_blocks (cl_cif_path cl) = Ok blocks /\
                  written_for X
                    (mkCifToMtz entries (cl_verbose cl) (cl_unmerged cl)
                       (cl_title cl) (cl_history cl))
                    (cl_select cl) blocks file) new).
  { intros ->. exists []. rewrite app_nil_r. repeat split; auto. }
  destruct (cl_print_spec cl) eqn:Hp; [injection H as _ <-; auto|].
  destruct (setup_spec read_spec_file cl) as [entries|[]|c|] eqn:Hs;
    try (injection H as _ <-; auto).
  destruct (read_blocks (cl_cif_path cl)) as [blocks|[]|c|] eqn:Hb;
    try (injection H as _ <-; auto).
  apply main_convert_files in H as (new & -> & Hone & Hnew).
  exists new. split; [reflexivity|]. split; [discriminate|]. split; [exact Hone|].
  eapply Forall_impl; [exact Hnew|]. intros file Hf. exists entries, blocks. auto.
Qed.

(** X18. A run returns 2 exactly when [--print-spec] is not given and the
    file given with [--spec] cannot be read or has a line that
    [add_spec_line] refuses (a std::runtime_error of either); no file is
    written then. With the built-in table no run returns 2. *)
Theorem X18_status_2_is_a_problem_with_the_spec cl w w' :
  gemmi_main X read_spec_file read_blocks cl w = (Ok 2, w') <->
  cl_print_spec cl = false /\
  w' = w /\
  exists path what,
    cl_spec cl = Some path /\
    (read_spec_file path = Throw (RuntimeError what) \/
     exists spec_lines,
       read_spec_file path = Ok spec_lines /\
       load_spec spec_lines = Throw (RuntimeError what)).
Proof.
  unfold gemmi_main. split.
  - intros H. destruct (cl_print_spec cl); [discriminate|].
    split; [reflexivity|].
    destruct (setup_spec read_spec_file cl) as [entries|[what|what]|c|] eqn:Hs;
      try discriminate.
    + destruct (read_blocks (cl_cif_path cl)) as [blocks|[]|c|];
        try discriminate.
      apply main_convert_status in H. lia.
    + injection H as <-. split; [reflexivity|].
      unfold setup_spec in Hs. destruct (cl_spec cl) as [path|].
      * exists path, what. split; [reflexivity|].
        destruct (read_spec_file path) as [spec_lines|e|c|]; try discriminate.
        -- right. exists spec_lines. auto.
        -- left. injection Hs as ->. reflexivity.
      * change (load_spec default_spec) with (Ok (A := list Entry) default_entries) in Hs.
        discriminate.
  - intros (Hp & -> & path & what & Hs & Hl). rewrite Hp.
    unfold setup_spec. rewrite Hs.
    destruct Hl as [-> | (spec_lines & -> & Hl)]; [reflexivity|].
    ok. rewrite Hl. reflexivity.
Qed.
End Run.

(** ** The datasets of the columns *)

Lemma load_spec_datasets lines :
  forall es, load_spec lines = Ok es ->
    Forall (fun e => dataset_id e = 0 \/ dataset_id e = 1) es.
Proof.
  induction lines as [|line rest IH]; intros es H; simpl in H.
  - injection H as <-. constructor.
  - apply bind_inv_Ok in H as (e & He & H).
    apply bind_inv_Ok in H as (es' & Hes & [= <-]).
    constructor; [|apply IH; exact Hes].
    apply add_spec_line_inv in He as [_ Hd]. exact Hd.
Qed.

(** X19. The table of a run and the columns of a container. When the
    table was loaded from the lines of a spec, every container built with
    it has the two datasets HKL_base and unknown, in this order, and each
    of its columns refers to one of them: its dataset is 0 or 1. *)
Theorem X19_columns_refer_to_the_two_datasets lines self rb mtz :
  load_spec lines = Ok (spec_entries self) ->
  build_mtz X self rb = Ok mtz ->
  map dataset_name (datasets mtz) = ["HKL_base"; "unknown"] /\
  Forall (fun c => Column.dataset_id c = 0 \/ Column.dataset_id c = 1)
         (columns mtz).
Proof.
  intros Hl H.
  destruct (build_mtz_complete _ _ _ H)
    as (loop & r & n & _ & _ & Hres & _ & _ & _ & _ & _ & ->).
  cbn [datasets columns]. split; [reflexivity|].
  destruct (resolve_from_kept _ _ _ _ _ _ Hres) as (kept & Hsub & Hcols & _).
  simpl in Hcols.
  assert (Hr : forall c, c ∈ r_columns r ->
                 Column.dataset_id c = 0 \/ Column.dataset_id c = 1).
  { intros c Hin. rewrite Hcols in Hin. apply list_elem_of_In in Hin.
    apply in_map_iff in Hin as (e & <- & Hin). simpl.
    apply load_spec_datasets in Hl. rewrite Forall_forall in Hl. apply Hl.
    apply list_elem_of_In in Hin.
    eapply elem_of_sublist; eassumption. }
  apply Forall_lookup. intros i c Hc. unfold container_columns in Hc.
  rewrite lookup_set_idx in Hc.
  destruct ((if unmerged_mode self rb
             then take 3 (r_columns r) ++ isym_column :: batch_column
                    :: drop 3 (r_columns r)
             else r_columns r) !! i) as [c0|] eqn:E; [|discriminate].
  injection Hc as <-. simpl.
  apply list_elem_of_lookup_2 in E.
  destruct (unmerged_mode self rb); [|apply Hr; exact E].
  apply elem_of_app in E as [E|E].
  - apply elem_of_take in E as (q & Hq & _).
    apply Hr. eapply list_elem_of_lookup_2. exact Hq.
  - apply elem_of_cons in E as [->|E]; [right; reflexivity|].
    apply elem_of_cons in E as [->|E]; [right; reflexivity|].
    apply list_elem_of_lookup_1 in E as [q Hq].
    rewrite lookup_drop in Hq.
    apply Hr. eapply list_elem_of_lookup_2. exact Hq.
Qed.
End Coverage.

(** ** The category of a loop *)

Lemma str_find_absent c s :
  (forall i, String.get i s <> Some c) -> str_find c s = npos.
Proof.
  induction s as [|a r IH]; intros H; simpl; [reflexivity|].
  destruct (Ascii.eqb a c) eqn:E.
  - apply Ascii.eqb_eq in E. subst a. exfalso. apply (H 0%nat). reflexivity.
  - rewrite IH; [reflexivity|]. intros i. apply (H (S i)).
Qed.

Lemma str_find_first c s rest :
  (forall i, String.get i s <> Some c) ->
  Z.of_nat (String.length s) < npos ->
  str_find c (s +:+ String c rest) = Z.of_nat (String.length s).
Proof.
  induction s as [|a r IH]; intros H Hlen; simpl.
  - rewrite Ascii.eqb_refl. reflexivity.
  - destruct (Ascii.eqb a c) eqn:E.
    + apply Ascii.eqb_eq in E. subst a. exfalso. apply (H 0%nat). reflexivity.
    + simpl String.length in Hlen. rewrite IH; [|intros i; apply (H (S i))|lia].
      replace (Z.of_nat (String.length r) =? npos) with false
        by (symmetry; apply Z.eqb_neq; lia).
      lia.
Qed.

Lemma substring_through c s rest :
  String.substring 0 (S (String.length s)) (s +:+ String c rest) =
  s +:+ String c EmptyString.
Proof.
  induction s as [|a r IH]; simpl.
  - destruct rest; reflexivity.
  - simpl in IH. rewrite IH. reflexivity.
Qed.

(** X20. The prefix under which the tags of the table are looked up. For
    a first tag of the form <category>.<rest> (no dot in the category) it
    is the category with its dot; for a first tag without a dot it is
    empty: [find] gives [npos], and [npos + 1] is 0. *)
Theorem X20_category_prefix_is_cut_after_the_first_dot :
  (forall cat rest,
     (forall i, String.get i cat <> Some "."%char) ->
     Z.of_nat (String.length cat) < npos ->
     category_prefix (cat +:+ String "." rest) = cat +:+ ".") /\
  (forall tag,
     (forall i, String.get i tag <> Some "."%char) ->
     category_prefix tag = EmptyString).
Proof.
  unfold category_prefix, substr0. split.
  - intros cat rest Hdot Hlen.
    rewrite str_find_first by assumption.
    assert (Hs : Z.to_nat (size_cast (Z.of_nat (String.length cat) + 1)) =
                 S (String.length cat)).
    { unfold size_cast, npos in *. rewrite Z.mod_small by lia. lia. }
    rewrite Hs. apply substring_through.
  - intros tag Hdot. rewrite str_find_absent by assumption.
    change (size_cast (npos + 1)) with 0. simpl. destruct tag; reflexivity.
Qed.

(** ** Tables whose alternatives are consecutive *)

Lemma after_run_keeps a ls :
  forall pre b post,
    ls = pre ++ b :: post -> b <> a ->
    exists pre', after_run a ls = pre' ++ b :: post.
Proof.
  induction ls as [|c ls IH]; intros pre b post E Hb.
  - destruct pre; discriminate.
  - simpl. destruct (String.eqb a c) eqn:Ec.
    + apply String.eqb_eq in Ec. subst c.
      destruct pre as [|p pre]; simpl in E; injection E as -> ->.
      * congruence.
      * eapply IH; [reflexivity|assumption].
    + exists pre. exact E.
Qed.

Lemma after_run_shape a ls :
  after_run a ls = [] \/
  exists pre b post, ls = pre ++ b :: post /\ b <> a /\ after_run a ls = b :: post.
Proof.
  induction ls as [|c ls IH]; simpl; [left; reflexivity|].
  destruct (String.eqb a c) eqn:Ec.
  - destruct IH as [->|(pre & b & post & -> & Hb & ->)]; [left; reflexivity|].
    right. exists (c :: pre), b, post. auto.
  - right. apply String.eqb_neq in Ec. exists [], c, ls. repeat split; congruence.
Qed.

Lemma existsb_eqb_In a (ls : list string) :
  existsb (String.eqb a) ls = true <-> In a ls.
Proof.
  rewrite existsb_exists. split.
  - intros (x & Hin & E). apply String.eqb_eq in E. subst x. exact Hin.
  - intros Hin. exists a. split; [exact Hin|apply String.eqb_refl].
Qed.

Lemma grouped_cons a rest :
  grouped (a :: rest) = true <->
  grouped rest = true /\
  (forall pre b post, rest = pre ++ b :: post -> b <> a -> ~ In a post).
Proof.
  simpl. rewrite andb_true_iff, negb_true_iff. split.
  - intros [Hex Hg]. split; [exact Hg|].
    intros pre b post E Hb Hin.
    destruct (after_run_keeps a rest pre b post E Hb) as [pre' Hk].
    assert (Ht : existsb (String.eqb a) (after_run a rest) = true).
    { apply existsb_eqb_In. rewrite Hk. apply in_or_app. right. right. exact Hin. }
    congruence.
  - intros [Hg Hc]. split; [|exact Hg].
    destruct (existsb (String.eqb a) (after_run a rest)) eqn:Hex; [|reflexivity].
    exfalso. apply existsb_eqb_In in Hex.
    destruct (after_run_shape a rest) as [E|(pre & b & post & E & Hb & Hk)].
    + rewrite E in Hex. destruct Hex.
    + rewrite Hk in Hex. destruct Hex as [->|Hin]; [congruence|].
      exact (Hc pre b post E Hb Hin).
Qed.

Lemma grouped_sublist (k ls : list string) :
  sublist k ls -> grouped ls = true -> grouped k = true.
Proof.
  induction 1 as [|x k1 l2 Hsub IH|x k1 l2 Hsub IH]; intros Hg.
  - reflexivity.
  - apply grouped_cons in Hg as [Hg Hc]. apply grouped_cons.
    split; [apply IH; exact Hg|].
    intros pre b post E Hb Hin. subst k1.
    apply sublist_app_l in Hsub as (m1 & m2 & -> & _ & Hsub).
    apply sublist_cons_l in Hsub as (n1 & n2 & -> & Hsub).
    apply (Hc (m1 ++ n1) b n2); [rewrite <- app_assoc; reflexivity|exact Hb|].
    apply list_elem_of_In. eapply elem_of_sublist; [|exact Hsub].
    apply list_elem_of_In. exact Hin.
  - apply grouped_cons in Hg as [Hg _]. apply IH. exact Hg.
Qed.

Lemma grouped_NoDup (ls : list string) :
  grouped ls = true ->
  (forall (i : nat) a b, ls !! i = Some a -> ls !! S i = Some b -> a <> b) ->
  NoDup ls.
Proof.
  induction ls as [|a rest IH]; intros Hg Hadj; [constructor|].
  apply grouped_cons in Hg as [Hg Hc].
  constructor.
  - destruct rest as [|b rest']; [apply not_elem_of_nil|].
    assert (Hab : a <> b) by (apply (Hadj 0%nat); reflexivity).
    intros Hin. apply elem_of_cons in Hin as [->|Hin]; [congruence|].
    apply (Hc [] b rest'); [reflexivity|congruence|].
    apply list_elem_of_In. exact Hin.
  - apply IH; [exact Hg|]. intros i x y Hx Hy. apply (Hadj (S i)); assumption.
Qed.

Section GroupedTables.
Context {UnitCell SpaceGroup : Type}.
Variable X : Externals UnitCell SpaceGroup.

(** X22. When the entries of the table that share a label are
    consecutive, as the source asks of alternative tags for the same
    label, the columns the resolver gives bear pairwise different labels,
    whatever the loop. *)
Theorem X22_consecutive_alternatives_give_distinct_labels loop prefix unmerged es r :
  grouped (map col_label es) = true ->
  resolve X loop prefix unmerged es = Ok r ->
  NoDup (map Column.label (r_columns r)).
Proof.
  intros Hg Hres.
  destruct (resolve_from_kept X _ _ _ _ _ _ Hres) as (kept & Hsub & Hcols & _).
  simpl in Hcols.
  assert (Hl : map Column.label (r_columns r) = map col_label kept).
  { rewrite Hcols, map_map. reflexivity. }
  apply grouped_NoDup.
  - rewrite Hl. eapply grouped_sublist; [|exact Hg].
    change (map col_label kept) with (col_label <$> kept).
    change (map col_label es) with (col_label <$> es).
    apply fmap_sublist. exact Hsub.
  - intros i a b Ha Hb.
    change (map Column.label (r_columns r)) with (Column.label <$> r_columns r)
      in Ha, Hb.
    rewrite list_lookup_fmap in Ha, Hb.
    destruct (r_columns r !! i) as [c|] eqn:Ec; [|discriminate].
    destruct (r_columns r !! S i) as [c'|] eqn:Ec'; [|discriminate].
    injection Ha as <-. injection Hb as <-.
    apply (resolve_from_neighbours X loop prefix unmerged es resolved_init r Hres)
      with (i := i); try assumption.
    intros j x y Hx. destruct j; discriminate.
Qed.
End GroupedTables.


(** * The further properties on concrete cases *)

(** A line with leading blanks, runs of blanks and a final newline. *)
Lemma X2_witness :
  add_spec_line (" " +:+ "F_meas_au" +:+ "  " +:+ "FP" +:+ " " +:+
                 String "F" " " +:+ String "1" (String "010" EmptyString))
  = Ok (mkEntry "F_meas_au" "FP" "F" 1).
Proof.
  apply (X2_add_spec_line_reads_four_words
           " " "F_meas_au" "  " "FP" " " "F"%char " " true
           (String "010"%char EmptyString));
    first [reflexivity | discriminate].
Defined.

(** The status loop under the default table: five of the 32 entries are
    kept. *)
Lemma X6_witness :
  exists kept,
    sublist kept default_entries /\
    r_columns Scenario.status_resolved = map column_of_entry kept /\
    r_indices Scenario.status_resolved =
      map (fun e => find_tag (Ref.externals []) Scenario.status_loop
                      ("_refln." +:+ refln_tag e)) kept /\
    Forall (fun e =>
              0 <= find_tag (Ref.externals []) Scenario.status_loop
                     ("_refln." +:+ refln_tag e)
                < Z.of_nat (length (tags Scenario.status_loop)) /\
              (false = true -> col_type e <> "s"%char)) kept /\
    uses_status Scenario.status_resolved =
      existsb (fun e => Ascii.eqb (col_type e) "s") kept.
Proof.
  apply (X6_resolved_columns_follow_the_table (Ref.externals [])
           Scenario.status_loop "_refln." false default_entries
           Scenario.status_resolved).
  vm_compute. reflexivity.
Defined.

Lemma X7_witness :
  resolve (Ref.externals []) Scenario.status_loop "_refln." false default_entries
    = Ok Scenario.status_resolved /\
  Column.label (Column.mk 0 "I" "FreeR_flag" 0) <> Column.label (Column.mk 1 "F" "FP" 0).
Proof.
  assert (H : resolve (Ref.externals []) Scenario.status_loop "_refln." false
                default_entries = Ok Scenario.status_resolved)
    by (vm_compute; reflexivity).
  split; [exact H|].
  apply (X7_resolved_neighbours_differ_in_label (Ref.externals [])
           Scenario.status_loop "_refln." false default_entries
           Scenario.status_resolved 3 _ _ H); reflexivity.
Defined.

(** The unmerged block: ten values under five tags, two reflections, seven
    columns, fourteen cells. *)
Lemma X8_witness :
  build_mtz (Ref.externals []) Ref.cif2mtz Scenario.diffrn_block
    = Ok Cases.diffrn_mtz /\
  0 <= nreflections Cases.diffrn_mtz /\
  Z.of_nat (length (values Scenario.diffrn_loop)) =
    nreflections Cases.diffrn_mtz * Z.of_nat (length (tags Scenario.diffrn_loop)) /\
  Z.of_nat (length (data Cases.diffrn_mtz)) =
    Z.of_nat (length (columns Cases.diffrn_mtz)) * nreflections Cases.diffrn_mtz /\
  Z.of_nat (length (data Cases.diffrn_mtz)) <= INT_MAX.
Proof.
  assert (H : build_mtz (Ref.externals []) Ref.cif2mtz Scenario.diffrn_block
              = Ok Cases.diffrn_mtz) by (vm_compute; reflexivity).
  split; [exact H|].
  apply (X8_container_is_rectangular (Ref.externals []) Ref.cif2mtz
           Scenario.diffrn_block Cases.diffrn_mtz Scenario.diffrn_loop H).
  reflexivity.
Defined.

(** The column of the status: stored with the type 'I', at position 3. *)
Lemma X9_witness :
  build_mtz (Ref.externals []) Ref.cif2mtz Scenario.status_block
    = Ok Cases.status_mtz /\
  columns Cases.status_mtz !! 3%nat = Some (Column.mk 0 "I" "FreeR_flag" 3) /\
  Column.idx (Column.mk 0 "I" "FreeR_flag" 3) = Z.of_nat 3 /\
  Column.type (Column.mk 0 "I" "FreeR_flag" 3) <> "s"%char.
Proof.
  assert (H : build_mtz (Ref.externals []) Ref.cif2mtz Scenario.status_block
              = Ok Cases.status_mtz) by (vm_compute; reflexivity).
  split; [exact H|]. split; [reflexivity|].
  apply (X9_columns_know_their_position (Ref.externals []) Ref.cif2mtz
           Scenario.status_block Cases.status_mtz 3 _ H).
  reflexivity.
Defined.

(** The second row of the status block: the status "?" gives NaN as a
    flag, and the null amplitude "." gives NaN as a number. *)
Lemma X10_witness :
  data Cases.status_mtz !! 8%nat
    = Some (status_to_freeflag (source_cell Scenario.status_loop 1 3)) /\
  data Cases.status_mtz !! 9%nat
    = Some (number_cell (Ref.externals []) (source_cell Scenario.status_loop 1 4)).
Proof.
  assert (H : build_mtz (Ref.externals []) Ref.cif2mtz Scenario.status_block
              = Ok Cases.status_mtz) by (vm_compute; reflexivity).
  assert (Hr : resolve (Ref.externals []) Scenario.status_loop
                 (loop_prefix Scenario.status_loop)
                 (unmerged_mode Ref.cif2mtz Scenario.status_block)
                 (spec_entries Ref.cif2mtz) = Ok Scenario.status_resolved)
    by (vm_compute; reflexivity).
  split.
  - apply (X10_cells_after_the_indices (Ref.externals []) Ref.cif2mtz
             Scenario.status_block Cases.status_mtz Scenario.status_loop
             Scenario.status_resolved 1 3 3 H eq_refl Hr);
      [reflexivity|lia|reflexivity].
  - apply (X10_cells_after_the_indices (Ref.externals []) Ref.cif2mtz
             Scenario.status_block Cases.status_mtz Scenario.status_loop
             Scenario.status_resolved 1 4 4 H eq_refl Hr);
      [reflexivity|lia|reflexivity].
Defined.

(** The cell of K in the amplitudes block. *)
Lemma X11_witness :
  exists z,
    as_int (Ref.externals []) (source_cell Scenario.fp_loop 0 1) = Ok z /\
    data Scenario.fp_mtz !! 1%nat = Some (float_of_int z).
Proof.
  apply (X11_merged_index_cells (Ref.externals []) Ref.cif2mtz Scenario.fp_block
           Scenario.fp_mtz Scenario.fp_loop
           (mkResolved
              [Column.mk 0 "H" "H" 0; Column.mk 0 "H" "K" 0; Column.mk 0 "H" "L" 0;
               Column.mk 1 "F" "FP" 0; Column.mk 1 "Q" "SIGFP" 0]
              [0; 1; 2; 3; 4] false)
           0 1 1);
    first [reflexivity | lia | vm_compute; reflexivity].
Defined.

(** The amplitudes block with routines that have no mover. *)
Lemma X12_witness :
  build_mtz (Ref.externals []) Ref.cif2mtz Scenario.fp_block =
  build_mtz Cases.other_routines Ref.cif2mtz Scenario.fp_block.
Proof.
  apply (X12_merged_mode_does_not_use_the_mover (Ref.externals [])
           Cases.other_routines); intros; reflexivity.
Defined.

(** The unmerged block under a table with the intensity only. *)
Lemma X13_witness :
  build_mtz (Ref.externals [])
    (Scenario.converter Cases.intensity_table false) Scenario.diffrn_block
  = Undefined.
Proof.
  apply (X13_unmerged_insertion_needs_three_columns (Ref.externals [])
           (Scenario.converter Cases.intensity_table false) Scenario.diffrn_block
           Scenario.diffrn_loop (mkResolved [Column.mk 1 "J" "I" 0] [3] false));
    first [reflexivity | discriminate | simpl; lia].
Defined.

(** [--block=b] on the blocks a, b, c, and [--block=z] on the same. *)
Lemma X15_witness :
  main_convert (Ref.externals []) Ref.cif2mtz (mkOptions None (Some "z") "out.mtz")
    [Scenario.block_a; Scenario.block_b; Scenario.block_c] [] = (Ok 1, []) /\
  main_convert (Ref.externals []) Ref.cif2mtz (mkOptions None (Some "b") "out.mtz")
    [Scenario.block_a; Scenario.block_b; Scenario.block_c] [] =
  main_convert (Ref.externals []) Ref.cif2mtz (mkOptions None None "out.mtz")
    [Scenario.block_b; Scenario.block_c] [].
Proof.
  destruct (X15_block_option_selects_the_first (Ref.externals []) Ref.cif2mtz "z"
              "out.mtz" [Scenario.block_a; Scenario.block_b; Scenario.block_c] [])
    as [Hnone _].
  destruct (X15_block_option_selects_the_first (Ref.externals []) Ref.cif2mtz "b"
              "out.mtz" [Scenario.block_a; Scenario.block_b; Scenario.block_c] [])
    as [_ Hfirst].
  split.
  - apply Hnone. repeat constructor; discriminate.
  - apply (Hfirst [Scenario.block_a] Scenario.block_b [Scenario.block_c]);
      [reflexivity|reflexivity|].
    repeat constructor; discriminate.
Defined.

(** Three blocks, the second without the tag index_k: two files, and the
    run returns 1. *)
Lemma X16_witness :
  main_convert (Ref.externals []) Ref.cif2mtz Scenario.dir_options
    [Scenario.block_a; Scenario.no_k_block; Scenario.block_c] [] =
  (Ok 1, [("out/a.mtz", Scenario.fp_mtz); ("out/c.mtz", Scenario.fp_mtz)]).
Proof.
  refine (eq_trans
            (X16_dir_run_converts_what_it_can (Ref.externals []) Ref.cif2mtz
               "out" None EmptyString
               [Scenario.block_a; Scenario.no_k_block; Scenario.block_c] [] _) _).
  - constructor; [|constructor; [|constructor; [|constructor]]].
    + left. exists Scenario.fp_mtz. split; vm_compute; reflexivity.
    + right. eexists. vm_compute. reflexivity.
    + left. exists Scenario.fp_mtz. split; vm_compute; reflexivity.
  - vm_compute. reflexivity.
Defined.

(** A run without options on a file with the amplitudes block. *)
Lemma X17_witness :
  exists new,
    [("out.mtz", Scenario.fp_mtz)] = [] ++ new /\
    (cl_print_spec Cases.plain_run = true -> new = []) /\
    (opt_dir (cl_select Cases.plain_run) = None -> (length new <= 1)%nat) /\
    Forall (fun file =>
              exists entries blocks,
                setup_spec Cases.no_spec_file Cases.plain_run = Ok entries /\
                Cases.one_block_file (cl_cif_path Cases.plain_run) = Ok blocks /\
                written_for (Ref.externals [])
                  (mkCifToMtz entries (cl_verbose Cases.plain_run)
                     (cl_unmerged Cases.plain_run) (cl_title Cases.plain_run)
                     (cl_history Cases.plain_run))
                  (cl_select Cases.plain_run) blocks file) new.
Proof.
  apply (X17_files_of_a_run (Ref.externals []) Cases.no_spec_file
           Cases.one_block_file Cases.plain_run [] (Ok 0)).
  vm_compute. reflexivity.
Defined.

(** The container of the amplitudes block under the default table. *)
Lemma X19_witness :
  map dataset_name (datasets Scenario.fp_mtz) = ["HKL_base"; "unknown"] /\
  Forall (fun c => Column.dataset_id c = 0 \/ Column.dataset_id c = 1)
         (columns Scenario.fp_mtz).
Proof.
  apply (X19_columns_refer_to_the_two_datasets (Ref.externals []) default_spec
           Ref.cif2mtz Scenario.fp_block Scenario.fp_mtz);
    vm_compute; reflexivity.
Defined.

(** The first tag of a merged loop, and a tag without category. *)
Lemma X20_witness :
  category_prefix "_refln.index_h" = "_refln." /\
  category_prefix "index_h" = EmptyString.
Proof.
  destruct X20_category_prefix_is_cut_after_the_first_dot as [Hdot Hnone].
  split.
  - apply (Hdot "_refln" "index_h"); [|reflexivity].
    intros i. do 6 (destruct i as [|i]; [discriminate|]). discriminate.
  - apply (Hnone "index_h").
    intros i. do 7 (destruct i as [|i]; [discriminate|]). discriminate.
Defined.

(** The run with [--dir] on the blocks a and c returns 0: two files. The
    run with [--block=b] on the blocks a, b, c returns 0: one file, with
    the container of b. *)
Lemma X21_witness :
  (Forall (fun rb => exists mtz,
             build_mtz (Ref.externals []) Ref.cif2mtz rb = Ok mtz /\
             write_to_file (Ref.externals []) mtz (block_path "out" rb) = Ok ())
          [Scenario.block_a; Scenario.block_c] /\
   [("out/a.mtz", Scenario.fp_mtz); ("out/c.mtz", Scenario.fp_mtz)] =
     [] ++ omap (file_of_block (Ref.externals []) Ref.cif2mtz "out")
             [Scenario.block_a; Scenario.block_c] /\
   length (omap (file_of_block (Ref.externals []) Ref.cif2mtz "out")
             [Scenario.block_a; Scenario.block_c]) =
     length [Scenario.block_a; Scenario.block_c]) /\
  (exists rb mtz,
     (exists pre post,
        [Scenario.block_a; Scenario.block_b; Scenario.block_c] = pre ++ rb :: post /\
        block_name rb = "b" /\
        Forall (fun b => block_name b <> "b") pre) /\
     build_mtz (Ref.externals []) Ref.cif2mtz rb = Ok mtz /\
     write_to_file (Ref.externals []) mtz "out.mtz" = Ok () /\
     [("out.mtz", Scenario.fp_mtz)] = [] ++ [("out.mtz", mtz)]).
Proof.
  split.
  - apply (X21_status_0_means_every_file_was_written (Ref.externals [])
             Ref.cif2mtz Scenario.dir_options
             [Scenario.block_a; Scenario.block_c] []).
    vm_compute. reflexivity.
  - apply (X21_status_0_means_every_file_was_written (Ref.externals [])
             Ref.cif2mtz (mkOptions None (Some "b") "out.mtz")
             [Scenario.block_a; Scenario.block_b; Scenario.block_c] []).
    vm_compute. reflexivity.
Defined.

(** The built-in table has its alternatives consecutive: the labels of the
    columns of the status loop are pairwise different. *)
Lemma X22_witness :
  grouped (map col_label default_entries) = true /\
  NoDup (map Column.label (r_columns Scenario.status_resolved)).
Proof.
  split; [reflexivity|].
  apply (X22_consecutive_alternatives_give_distinct_labels (Ref.externals [])
           Scenario.status_loop "_refln." false default_entries
           Scenario.status_resolved); vm_compute; reflexivity.
Defined.
